(** * Coffee Shop API: credential and token lifecycle

    A shallow embedding of the authentication core of the repository
    ([app/core/security.py], [app/services/auth.py], [app/api/v1/auth.py],
    the writing routes of [app/api/v1/user.py], [app/tasks/cleanup.py] and
    the three ORM models) together with the properties of the token
    lifecycle that the specification states.

    Conventions of the embedding:
    - a [datetime] is an integer number of seconds ([Z]); the clock readings
      of one request or job run are taken to be one instant, [now];
    - a table is a finite map from primary key to row ([gmap Z _]); a
      [select] scans [map_to_list] of the table, which fixes the order that
      SQL leaves open; the server-side sequence of each table is a field of
      the database;
    - an ORM object is the pair of its primary key and its row, attribute
      assignment and [session.delete] act on the row with that key;
    - the constraints of the schema that a statement of the code can
      violate are checked where the statement is issued: NOT NULL of
      [refresh_tokens.created_at] by the INSERT of a refresh token, and the
      two foreign keys on [users.id] by the DELETE of a user; UNIQUE of
      [users.email] is kept by the check that the signup paths make first;
    - [users.created_at] and [users.updated_at] get the clock reading at
      insertion, and the refresh of [updated_at] by later updates is not
      tracked;
    - what a library raises reaches the caller as an exception named by
      its class; failures of the connection to the database or the broker
      are outside the embedding, as is the range of [datetime]: time is
      computed over the integers;
    - python-jose is modelled symbolically: a compact token is a claim set
      sealed under a key, or a string that does not parse;
    - [uuid4()] is an input of the request that calls it;
    - the row locks of [with_for_update(skip_locked=True)] have no
      counterpart: requests and jobs run one after the other. *)

From Stdlib Require Import Ascii.
From Stdlib Require Import ZArith String List Bool Lia.
From stdpp Require Import base option list gmap strings pretty.

Local Open Scope string_scope.
Local Open Scope Z_scope.

(** ** JSON claim values and the symbolic JWT library *)

Inductive claim :=
  | CStr (s : string)
  | CInt (n : Z)
  | CList (l : list string).

#[global] Instance claim_eq_dec : EqDecision claim.
Proof. solve_decision. Defined.

Module jwt.

(** What a [str] holding a token can be. *)
Inductive token :=
  | Compact (alg : string) (claims : gmap string claim) (key : string)
  | Malformed (raw : string).

#[global] Instance token_eq_dec : EqDecision token.
Proof. solve_decision. Defined.

Inductive JWTError :=
  | DecodeError
  | AlgorithmError
  | SignatureError
  | ExpiredSignatureError
  | JWTClaimsError.

Definition encode (claims : gmap string claim) (key algorithm : string) : token :=
  Compact algorithm claims key.

(** [_validate_exp]: an [exp] claim must be an integer and is expired when
    [exp < now]. *)
Definition validate_exp (claims : gmap string claim) (now : Z) : option JWTError :=
  match claims !! "exp" with
  | None => None
  | Some (CInt e) => if e <? now then Some ExpiredSignatureError else None
  | Some _ => Some JWTClaimsError
  end.

(** [_validate_iat]: an [iat] claim must be an integer. *)
Definition validate_iat (claims : gmap string claim) : option JWTError :=
  match claims !! "iat" with
  | None | Some (CInt _) => None
  | Some _ => Some JWTClaimsError
  end.

(** [_validate_sub]: a [sub] claim must be a string. *)
Definition validate_sub (claims : gmap string claim) : option JWTError :=
  match claims !! "sub" with
  | None | Some (CStr _) => None
  | Some _ => Some JWTClaimsError
  end.

(** [jwt.decode(token, key, algorithms=..., options={"verify_aud": False})]:
    the algorithm, the signature, then the validators of the claims that
    [create_token] and its callers write, [iat], [exp] and [sub], on the
    integer and string values that they write. The validators of [nbf],
    [jti] and [at_hash] apply to claims that no token signed by this code
    carries. *)
Definition decode (tok : token) (key : string) (algorithms : list string) (now : Z)
  : JWTError + gmap string claim :=
  match tok with
  | Malformed _ => inl DecodeError
  | Compact alg claims k =>
      if negb (bool_decide (alg ∈ algorithms)) then inl AlgorithmError
      else if negb (bool_decide (k = key)) then inl SignatureError
      else match validate_iat claims with
           | Some e => inl e
           | None =>
               match validate_exp claims now with
               | Some e => inl e
               | None =>
                   match validate_sub claims with
                   | Some e => inl e
                   | None => inr claims
                   end
               end
           end
  end.

Definition signing_key (tok : token) : option string :=
  match tok with Compact _ _ k => Some k | Malformed _ => None end.

Definition unverified_claims (tok : token) : gmap string claim :=
  match tok with Compact _ c _ => c | Malformed _ => ∅ end.

End jwt.

(** ** Configuration ([app/core/config.py]) *)

Record Settings := {
API_PREFIX : string;
SECRET_KEY : string;
JWT_SECRET_KEY : string;
JWT_REFRESH_SECRET_KEY : string;
JWT_ALGORITHM : string;
JWT_ISSUER : string;
ACCESS_TOKEN_EXPIRE_MINUTES : Z;
REFRESH_TOKEN_EXPIRE_DAYS : Z;
EMAIL_VERIFICATION_ENABLED : bool;
FRONTEND_URL : string
}.

(** [timedelta(minutes=m)], [timedelta(days=d)] in seconds. *)
Definition minutes (m : Z) : Z := 60 * m.
Definition days (d : Z) : Z := 86400 * d.

(** ** ORM models ([app/models]) *)

Inductive UserRole := ADMIN | USER.

#[global] Instance UserRole_eq_dec : EqDecision UserRole.
Proof. solve_decision. Defined.

Module User.
Record t := mk {
  email : string;
  hashed_password : string;
  first_name : option string;
  last_name : option string;
  is_verified : bool;
  role : UserRole;
  created_at : Z;
  updated_at : Z
}.

Definition set_is_verified (b : bool) (u : t) : t :=
  mk (email u) (hashed_password u) (first_name u) (last_name u) b (role u)
     (created_at u) (updated_at u).
End User.

Module RefreshToken.
(** [created_at] has neither a default nor a server default: it holds
    whatever the constructor call passed, [None] otherwise. *)
Record t := mk {
  user_id : Z;
  token : jwt.token;
  created_at : option Z;
  expires_at : Z;
  revoked : bool
}.
End RefreshToken.

Module VerificationToken.
(** [revoked_at] is not a mapped column: the verify operation sets it as a
    plain attribute of the loaded object. *)
Record t := mk {
  user_id : Z;
  token : string;
  token_type : string;
  expires_at : Z;
  is_used : bool;
  revoked : bool;
  revoked_at : option Z
}.

Definition revoke (at_ : Z) (v : t) : t :=
  mk (user_id v) (token v) (token_type v) (expires_at v) (is_used v) true (Some at_).
End VerificationToken.

#[global] Instance User_eq_dec : EqDecision User.t.
Proof. solve_decision. Defined.
#[global] Instance RefreshToken_eq_dec : EqDecision RefreshToken.t.
Proof. solve_decision. Defined.
#[global] Instance VerificationToken_eq_dec : EqDecision VerificationToken.t.
Proof. solve_decision. Defined.

(** ** The database and the ORM session *)

Record DB := mkDB {
  users : gmap Z User.t;
  users_id_seq : Z;
  refresh_tokens : gmap Z RefreshToken.t;
  refresh_tokens_id_seq : Z;
  verification_tokens : gmap Z VerificationToken.t;
  verification_tokens_id_seq : Z
}.

(** A message handed to [send_email]. *)
Record Email := mkEmail {
  to_email : string;
  subject : string;
  template_name : string;
  verification_url : string
}.

(** [working] is what the session reads and writes, [committed] what the
    last [commit] made durable, [commits] counts the calls of [commit]. *)
Record Session := mkSession {
  working : DB;
  committed : DB;
  commits : nat;
  outbox : list Email
}.

Definition open_session (db : DB) : Session := mkSession db db 0 [].

Definition with_working (f : DB → DB) (s : Session) : Session :=
  mkSession (f (working s)) (committed s) (commits s) (outbox s).

Definition set_users (m : gmap Z User.t) (d : DB) : DB :=
  mkDB m (users_id_seq d) (refresh_tokens d) (refresh_tokens_id_seq d)
       (verification_tokens d) (verification_tokens_id_seq d).

Definition set_refresh_tokens (m : gmap Z RefreshToken.t) (d : DB) : DB :=
  mkDB (users d) (users_id_seq d) m (refresh_tokens_id_seq d)
       (verification_tokens d) (verification_tokens_id_seq d).

Definition set_verification_tokens (m : gmap Z VerificationToken.t) (d : DB) : DB :=
  mkDB (users d) (users_id_seq d) (refresh_tokens d) (refresh_tokens_id_seq d)
       m (verification_tokens_id_seq d).

(** [raise HTTPException(status_code, detail, headers)]; [PyError] is any
    other exception, which the application's handler turns into a 500;
    [Retry exc countdown] is what [raise self.retry(exc=exc,
    countdown=countdown)] raises in a Celery task: the retry signal that
    carries [exc], or [exc] itself where Celery does not retry. Either way
    the run of the task ends there. *)
Inductive exception :=
  | HTTPException (status_code : Z) (detail : string) (headers : list (string * string))
  | PyError (name : string)
  | Retry (exc : exception) (countdown : Z).

#[global] Instance exception_eq_dec : EqDecision exception.
Proof. solve_decision. Defined.

Definition status_of (e : exception) : Z :=
  match e with HTTPException c _ _ => c | PyError _ | Retry _ _ => 500 end.

(** What the database driver raises when a statement violates a
    constraint of the schema. *)
Definition IntegrityError : exception := PyError "IntegrityError".

(** Request handlers: a state and exception monad over the session. *)
Definition M (A : Type) : Type := Session → (exception + A) * Session.

Definition ret {A} (a : A) : M A := λ s, (inr a, s).

Definition raise {A} (e : exception) : M A := λ s, (inl e, s).

Definition bind {A B} (m : M A) (k : A → M B) : M B :=
  λ s, match m s with
       | (inl e, s') => (inl e, s')
       | (inr a, s') => k a s'
       end.

(** A call into a library that returns or raises an error, named by its
    class, without touching the session. *)
Definition lift {A} (r : string + A) : M A :=
  λ s, (match r with inl name => inl (PyError name) | inr a => inr a end, s).

(** [try: m except Exception as e: handler e]. *)
Definition try_except {A} (m : M A) (handler : exception → M A) : M A :=
  λ s, match m s with
       | (inl e, s') => handler e s'
       | (inr a, s') => (inr a, s')
       end.

Notation "'let*' x ':=' m 'in' k" := (bind m (λ x, k))
  (at level 10, x pattern, m at level 100, k at level 200).
Notation "m ';;;' k" := (bind m (λ _, k))
  (at level 100, k at level 200, right associativity).

(** [session.execute(select(T).where(p))]: the rows of the table that
    satisfy [p], as (primary key, row) pairs. *)
Definition select_where {R} (p : Z → R → bool) (table : gmap Z R) : list (Z * R) :=
  filter (λ kr, p kr.1 kr.2 = true) (map_to_list table).

Definition execute {R} (table : DB → gmap Z R) (p : Z → R → bool) : M (list (Z * R)) :=
  λ s, (inr (select_where p (table (working s))), s).

(** [.scalars().first()] and [.limit(n)]. *)
Definition first {R} (rows : list (Z * R)) : option (Z * R) := head rows.
Definition limit {R} (n : nat) (rows : list (Z * R)) : list (Z * R) := take n rows.

(** [session.get(User, pk)]. *)
Definition get_user (pk : Z) : M (option User.t) :=
  λ s, (inr (users (working s) !! pk), s).

(** Attribute assignment on a loaded object. *)
Definition update_user (pk : Z) (u : User.t) : M unit :=
  λ s, (inr tt, with_working (λ d, set_users (<[pk := u]> (users d)) d) s).

Definition update_verification_token (pk : Z) (v : VerificationToken.t) : M unit :=
  λ s, (inr tt, with_working
                  (λ d, set_verification_tokens (<[pk := v]> (verification_tokens d)) d) s).

(** The transaction of the session is rolled back: what it had not
    committed is lost. *)
Definition rollback (s : Session) : Session :=
  mkSession (committed s) (committed s) (commits s) (outbox s).

(** [session.add(obj)] followed by the flush that draws the primary key
    from the table's sequence. *)
Definition add_user (u : User.t) : M Z :=
  λ s, let d := working s in
       let pk := users_id_seq d in
       (inr pk, with_working
                  (λ d, mkDB (<[pk := u]> (users d)) (pk + 1) (refresh_tokens d)
                             (refresh_tokens_id_seq d) (verification_tokens d)
                             (verification_tokens_id_seq d)) s).

(** [refresh_tokens.created_at] is NOT NULL and has neither a default nor
    a server default: the INSERT of an object built without it is refused.
    The error surfaces at the flush of the [commit] that follows
    [session.add], with which the transaction is rolled back. *)
Definition add_refresh_token (r : RefreshToken.t) : M Z :=
  λ s, match RefreshToken.created_at r with
       | None => (inl IntegrityError, rollback s)
       | Some _ =>
           let d := working s in
           let pk := refresh_tokens_id_seq d in
           (inr pk, with_working
                      (λ d, mkDB (users d) (users_id_seq d) (<[pk := r]> (refresh_tokens d))
                                 (pk + 1) (verification_tokens d)
                                 (verification_tokens_id_seq d)) s)
       end.

Definition add_verification_token (v : VerificationToken.t) : M Z :=
  λ s, let d := working s in
       let pk := verification_tokens_id_seq d in
       (inr pk, with_working
                  (λ d, mkDB (users d) (users_id_seq d) (refresh_tokens d)
                             (refresh_tokens_id_seq d)
                             (<[pk := v]> (verification_tokens d)) (pk + 1)) s).

(** No row of the token tables refers to the user [pk]. *)
Definition unreferenced (pk : Z) (d : DB) : Prop :=
  map_Forall (λ _ r, RefreshToken.user_id r ≠ pk) (refresh_tokens d)
  ∧ map_Forall (λ _ v, VerificationToken.user_id v ≠ pk) (verification_tokens d).

#[global] Instance unreferenced_dec pk d : Decision (unreferenced pk d).
Proof. unfold unreferenced. apply _. Defined.

(** [session.delete(user)]. Both token tables declare
    [ForeignKey("users.id")] without [ondelete], and the models declare no
    relationship that would delete or detach the tokens first: the DELETE
    of a user that a token row refers to is refused. The error surfaces at
    the flush of the [commit] that ends the batch, with which the
    transaction is rolled back; the token tables do not change in
    between. *)
Definition delete_user (pk : Z) : M unit :=
  λ s, if bool_decide (unreferenced pk (working s))
       then (inr tt, with_working (λ d, set_users (delete pk (users d)) d) s)
       else (inl IntegrityError, rollback s).

(** [session.delete(token)]. *)

Definition delete_refresh_token (pk : Z) : M unit :=
  λ s, (inr tt, with_working (λ d, set_refresh_tokens (delete pk (refresh_tokens d)) d) s).

Definition delete_verification_token (pk : Z) : M unit :=
  λ s, (inr tt, with_working
                  (λ d, set_verification_tokens (delete pk (verification_tokens d)) d) s).

(** [for obj in objs: await session.delete(obj)]. *)
Fixpoint for_each {A} (body : A → M unit) (xs : list A) : M unit :=
  match xs with
  | [] => ret tt
  | x :: xs' => body x ;;; for_each body xs'
  end.

(** [session.commit()]. *)
Definition commit : M unit :=
  λ s, (inr tt, mkSession (working s) (working s) (S (commits s)) (outbox s)).

(** [send_email]: the message leaves the process; failures of the SMTP
    transport are caught inside [EmailService.send_email]. *)
Definition send_email (m : Email) : M bool :=
  λ s, (inr true, mkSession (working s) (committed s) (commits s) (outbox s ++ [m])).

(** ** Schemas ([app/schemas]) *)

Inductive TokenType := ACCESS | REFRESH.

Definition TokenType_value (t : TokenType) : string :=
  match t with ACCESS => "access" | REFRESH => "refresh" end.

(** [app.schemas.token.TokenData]: [sub], [type], [exp], [iat] and [iss] are
    required fields, [scopes] and [jti] have defaults. *)
Record TokenData := mkTokenData {
  td_sub : string;
  td_scopes : list string;
  td_type : TokenType;
  td_exp : Z;
  td_iat : Z;
  td_iss : string;
  td_jti : option string
}.

Definition parse_TokenType (c : claim) : option TokenType :=
  match c with
  | CStr s => if bool_decide (s = "access") then Some ACCESS
              else if bool_decide (s = "refresh") then Some REFRESH else None
  | _ => None
  end.

(** The constructor of [TokenData]: pydantic validates the keyword arguments against
    the fields, ignores the others, and raises [ValidationError] ([None]
    here) when a required field is missing or ill-typed. *)
Definition TokenData_init (kwargs : gmap string claim) : option TokenData :=
  match kwargs !! "sub", kwargs !! "type", kwargs !! "exp", kwargs !! "iat", kwargs !! "iss" with
  | Some (CStr sub), Some ty, Some (CInt exp), Some (CInt iat), Some (CStr iss) =>
      match parse_TokenType ty with
      | None => None
      | Some ty =>
          match kwargs !! "scopes" with
          | Some (CList sc) =>
              match kwargs !! "jti" with
              | None => Some (mkTokenData sub sc ty exp iat iss None)
              | Some (CStr j) => Some (mkTokenData sub sc ty exp iat iss (Some j))
              | Some _ => None
              end
          | None =>
              match kwargs !! "jti" with
              | None => Some (mkTokenData sub [] ty exp iat iss None)
              | Some (CStr j) => Some (mkTokenData sub [] ty exp iat iss (Some j))
              | Some _ => None
              end
          | Some _ => None
          end
      end
  | _, _, _, _, _ => None
  end.

(** [app.schemas.auth]. *)
Record Token := mkToken {
  access_token : jwt.token;
  refresh_token_ : jwt.token;
  token_type_ : string
}.

Record LoginInput := mkLoginInput { li_email : string; li_password : string }.

Record UserCreate := mkUserCreate {
  uc_email : string;
  uc_first_name : option string;
  uc_last_name : option string;
  uc_password : string;
  uc_role : UserRole
}.

(** [UserUpdate] as [model_dump(exclude_unset=True)] shows it: a field is
    unset ([None]), or set to a value or to [null]. *)
Record UserUpdate := mkUserUpdate {
  uu_first_name : option (option string);
  uu_last_name : option (option string);
  uu_password : option (option string)
}.

(** ** The password policy ([app/core/security.py]) *)

(** The policy looks at the characters of a [str], here the list of its
    code points. [[A-Z]] and [[a-z]] are ranges of code points; [\d] in a
    [str] pattern is every character of the Unicode category Nd, a table
    of the interpreter that the policy takes as given. *)
Definition in_range (lo hi c : N) : bool := ((lo <=? c) && (c <=? hi))%N.

(** The class of special characters, by code point, in the order of the
    pattern: ! @ # $ % ^ & * ( ) , . then the double quote (34), which the
    pattern writes behind a backslash, then : { } | < >. The backslash
    itself is not a member. *)
Definition special_characters : list N :=
  [33; 64; 35; 36; 37; 94; 38; 42; 40; 41; 44; 46; 34; 58; 123; 125; 124; 60; 62]%N.

(** [re.search] of a pattern that is one character class. *)
Definition re_search (class : N → bool) (s : list N) : bool := existsb class s.

Section PasswordPolicy.

Variable is_decimal_digit : N → bool.

Definition validate_password_strength (password : list N) : bool :=
  if (length password <? 12)%nat then false
  else if negb (re_search (in_range 65 90) password) then false
  else if negb (re_search (in_range 97 122) password) then false
  else if negb (re_search is_decimal_digit password) then false
  else if negb (re_search (λ c, bool_decide (c ∈ special_characters)) password) then false
  else true.

End PasswordPolicy.

(** ** Routing of the jobs ([app/core/celery.py], [app/core/celery_utils.py]) *)

(** [route_task(name, args, kwargs, options, task=None)]: only [name] is
    looked at. *)
Definition route_task (name : string) : option (gmap string string) :=
  if String.prefix "app.tasks.cleanup" name then Some {["queue" := "cleanup"]}
  else if String.prefix "app.tasks.email" name then Some {["queue" := "email"]}
  else None.

(** The name under which the [task] decorator of [celery_utils] registers
    a function. It hands the class it has built to [celery_app.task] as
    the function to wrap, so that Celery, unless the options carry a
    [name], generates the name from the class: its module, which is the
    module of the [type(...)] call, and its name,
    [f"{func.__name__.title()}Task"]. The [name] entry of the class
    dictionary, [f"app.tasks.{...}.{func.__name__}"], is overwritten by the
    generated one. [func_title] is [func.__name__.title()]. *)
Definition decorator_registered_name (name_option : option string) (func_title : string)
  : string :=
  default ("app.core.celery_utils." +:+ func_title +:+ "Task") name_option.

(** The names under which [app/tasks/cleanup.py] registers its two jobs,
    with [name=] in [@celery_app.task]. *)
Definition registered_task_names : list string :=
  ["cleanup.delete_unverified_users"; "cleanup.expired_tokens"].

(** ** Retrying a job ([app/core/celery_utils.py]) *)

(** What is raised, as the [except] clauses of [retry_on_exception] tell
    it apart: an instance of [MaxRetriesExceededError], any other instance
    of [Exception] (Celery's [Retry] is one), or a [BaseException] outside
    [Exception]. *)
Inductive raised :=
  | MaxRetriesExceededError (e : string)
  | OtherException (e : string)
  | NotAnException (e : string).

(** A Celery task as [retry_on_exception] uses it. [retry exc countdown
    max_retries] is [task.retry(exc=..., countdown=..., max_retries=...)]:
    it raises ([inl]) or returns ([inr]) an exception. *)
Module Task.
Record t := mk {
  max_retries : Z;
  default_retry_delay : Z;
  request_retries : nat;
  retry : raised → Z → Z → raised + raised;
}.
End Task.

(** [v or default] for an [Optional[int]]: [None] and [0] are false. *)
Definition or_default (v : option Z) (default : Z) : Z :=
  match v with
  | Some n => if n =? 0 then default else n
  | None => default
  end.

(** [inl] is what the call raises, [inr tt] its return of [None]. *)
Definition retry_on_exception (exc : raised) (task : Task.t)
    (max_retries countdown : option Z) : raised + unit :=
  let max_retries := or_default max_retries (Task.max_retries task) in
  let countdown := or_default countdown (Task.default_retry_delay task) in
  let tried : raised + unit :=
    let retry_count := Z.of_nat (Task.request_retries task) in
    let retry_delay := Z.min (countdown * 2 ^ retry_count) 3600 in
    if retry_count <? max_retries then
      match Task.retry task exc retry_delay max_retries with
      | inl e | inr e => inl e
      end
    else inr tt
  in
  match tried with
  | inl (MaxRetriesExceededError e) => inl (MaxRetriesExceededError e)
  | inl (OtherException e) => inl exc
  | inl (NotAnException e) => inl (NotAnException e)
  | inr tt => inr tt
  end.

(** ** Sample data, taken from the repository's tests *)

(** The values asserted by [tests/test_config.py]; the defaults of
    [Settings] elsewhere. *)
Definition test_settings : Settings := {|
  API_PREFIX := "/api/v1";
  SECRET_KEY := "test-secret-key-for-testing-only";
  JWT_SECRET_KEY := "test-jwt-secret-key-for-testing-only";
  JWT_REFRESH_SECRET_KEY := "test-jwt-refresh-secret-key-for-testing-only";
  JWT_ALGORITHM := "HS256";
  JWT_ISSUER := "Coffee Shop API";
  ACCESS_TOKEN_EXPIRE_MINUTES := 30;
  REFRESH_TOKEN_EXPIRE_DAYS := 7;
  EMAIL_VERIFICATION_ENABLED := true;
  FRONTEND_URL := "http://localhost:3000"
|}.

(** A stand-in for passlib's [CryptContext] in the examples. *)
Definition sample_hash (password : string) : string := "$sample$" +:+ password.
Definition has_nul (s : string) : bool :=
  existsb (Ascii.eqb Ascii.zero) (list_ascii_of_string s).

(** As [pwd_context.verify] does, it refuses a stored value that is no
    digest, then an oversized password, then one with a NUL character. *)
Definition sample_verify (plain hashed : string) : string + bool :=
  if negb (String.prefix "$sample$" hashed) then inl "UnknownHashError"
  else if (4096 <? String.length plain)%nat then inl "PasswordSizeError"
  else if has_nul plain then inl "NullPasswordError"
  else inr (bool_decide (hashed = sample_hash plain)).

Definition empty_db : DB := mkDB ∅ 1 ∅ 1 ∅ 1.

(** [tests/test_auth.py]: the test user, before and after verification. *)
Definition TEST_EMAIL : string := "test@example.com".
Definition TEST_PASSWORD : string := "TestPassword123!".

Definition test_user (verified : bool) : User.t :=
  User.mk TEST_EMAIL (sample_hash TEST_PASSWORD) (Some "Test") (Some "User")
          verified USER 0 0.

Definition test_uuid : string := "3f2b8c1e-5d4a-4e0b-9c77-2a6f0d1b8e93".

(** The store after the signup of the test user at time 0. *)
Definition registered_db : DB :=
  mkDB {[1 := test_user false]} 2 ∅ 1
       {[1 := VerificationToken.mk 1 test_uuid "email_verification" 900 false false None]} 2.

(** The store of [test_login_user] before the login. *)
Definition verified_db : DB := mkDB {[1 := test_user true]} 2 ∅ 1 ∅ 1.

(** A password with a NUL character, which a JSON body writes as an
    escape. *)
Definition nul_password : string := String Ascii.zero "password".

(** The tokens that [create_access_token] and [create_refresh_token] sign
    for user 1 at time 1000. *)
Definition issued_access_token : jwt.token :=
  jwt.Compact "HS256"
    (list_to_map [("sub", CStr "1"); ("iss", CStr "Coffee Shop API");
                  ("type", CStr "access"); ("iat", CInt 1000); ("exp", CInt 2800)])
    "test-jwt-secret-key-for-testing-only".

Definition issued_refresh_token : jwt.token :=
  jwt.Compact "HS256"
    (list_to_map [("sub", CStr "1"); ("iss", CStr "Coffee Shop API");
                  ("type", CStr "refresh"); ("iat", CInt 1000); ("exp", CInt 605800)])
    "test-jwt-secret-key-for-testing-only".

(** A store that holds the refresh token of user 1, with the [created_at]
    that a fixture passes. *)
Definition logged_in_db : DB :=
  mkDB {[1 := test_user true]} 2
       {[1 := RefreshToken.mk 1 issued_refresh_token (Some 1000) 605800 false]} 2 ∅ 1.

(** A live verification token whose user row is gone. *)
Definition orphan_db : DB :=
  mkDB ∅ 8 ∅ 1
       {[1 := VerificationToken.mk 7 test_uuid "email_verification" 900 false false None]} 2.

(** [tests/test_tasks.py], [test_delete_unverified_users], run at day 10: a
    verified user and an unverified one created three days before, an
    unverified one created 23 hours before. [tasks_users_db] holds the
    users alone, as after a purge of their verification tokens;
    [tasks_registered_db] is the store that the test builds, in which
    [register_user] has written a verification token for each of them. *)
Definition tasks_now : Z := 864000.

Definition tasks_user (email : string) (verified : bool) (created_at : Z) : User.t :=
  User.mk email (sample_hash TEST_PASSWORD) None None verified USER created_at created_at.

Definition tasks_users_db : DB :=
  mkDB (<[1 := tasks_user "verified@example.com" true (tasks_now - days 3)]>
          (<[2 := tasks_user "old_unverified@example.com" false (tasks_now - days 3)]>
             {[3 := tasks_user "new_unverified@example.com" false (tasks_now - 82800)]}))
       4 ∅ 1 ∅ 1.

Definition tasks_registered_db : DB :=
  mkDB (users tasks_users_db) 4 ∅ 1
       (<[1 := VerificationToken.mk 1 "5b1d6f0a-3c52-4e8e-9a41-7d2c8e6f0b15"
                 "email_verification" (tasks_now + minutes 15) false false None]>
          (<[2 := VerificationToken.mk 2 "c7a4e9d2-8f13-4b6a-b0c5-1e9f3a7d5c28"
                    "email_verification" (tasks_now + minutes 15) false false None]>
             {[3 := VerificationToken.mk 3 "e2f8b3c6-7a91-4d05-8c3e-4b6a1d9f7e30"
                      "email_verification" (tasks_now + minutes 15) false false None]}))
       4.

(** [test_cleanup_expired_tokens]: an expired and a valid refresh token, an
    expired verification token. *)
Definition expired_refresh_row : RefreshToken.t :=
  RefreshToken.mk 1 (jwt.Malformed "expired_refresh_token")
                  (Some (tasks_now - days 2)) (tasks_now - days 1) false.

Definition valid_refresh_row : RefreshToken.t :=
  RefreshToken.mk 1 (jwt.Malformed "valid_refresh_token")
                  (Some tasks_now) (tasks_now + days 1) false.

Definition tasks_tokens_db : DB :=
  mkDB {[1 := test_user true]} 2
       (<[1 := expired_refresh_row]> {[2 := valid_refresh_row]}) 3
       {[1 := VerificationToken.mk 1 "expired_verification_token" "email_verification"
                                   (tasks_now - 3600) false false None]} 2.

(** More stale unverified users than one batch of the purge holds, 101,
    of whom user 1, whom a scan of the table returns last, owns the valid
    refresh token above. *)
Definition crowded_db : DB :=
  mkDB (list_to_map
          (map (λ i : Z, (i, tasks_user ("stale" +:+ pretty i +:+ "@example.com") false
                                        (tasks_now - days 3)))
               (seqZ 1 101)))
       102 {[2 := valid_refresh_row]} 3 ∅ 1.

(** A second signup, for the request traces. *)
Definition other_signup : UserCreate :=
  mkUserCreate "other@example.com" None None "OtherPassword123!" USER.

(** The password of the test user, by code point, and the decimal digits
    of ASCII. *)
Definition test_password_characters : list N :=
  [84; 101; 115; 116; 80; 97; 115; 115; 119; 111; 114; 100; 49; 50; 51; 33]%N.

Definition ascii_decimal_digit : N → bool := in_range 48 57.

(** A task with the settings of [BaseTask], on its given retry, whose
    [retry] raises Celery's retry signal. *)
Definition sample_task (retries : nat) : Task.t :=
  Task.mk 3 60 retries (λ _ _ _, inl (OtherException "Retry")).

Section App.

(** The process-wide [settings] object and passlib's [pwd_context].
    [pwd_context.verify] returns a boolean or raises an error of passlib,
    given by the name of its class: on a stored value that is no digest of
    its schemes, on a password with a NUL character or of more than 4096
    characters. *)
Variable settings : Settings.
Variable get_password_hash : string → string.
Variable verify_password : string → string → string + bool.

Set Default Proof Using "Type".

(** ** [app/core/security.py] *)

(** [if expires_delta:] is false for [None] and for [timedelta(0)]. *)
Definition create_token (data : gmap string claim) (token_type : TokenType)
    (expires_delta : option Z) (now : Z) : jwt.token :=
  let to_encode := data in
  let expire :=
    match expires_delta with
    | Some delta =>
        if negb (delta =? 0) then now + delta
        else match token_type with
             | ACCESS => now + minutes (ACCESS_TOKEN_EXPIRE_MINUTES settings)
             | REFRESH => now + days (REFRESH_TOKEN_EXPIRE_DAYS settings)
             end
    | None =>
        match token_type with
        | ACCESS => now + minutes (ACCESS_TOKEN_EXPIRE_MINUTES settings)
        | REFRESH => now + days (REFRESH_TOKEN_EXPIRE_DAYS settings)
        end
    end in
  let to_encode :=
    <["exp" := CInt expire]>
      (<["iat" := CInt now]>
         (<["type" := CStr (TokenType_value token_type)]>
            (<["iss" := CStr (JWT_ISSUER settings)]> to_encode))) in
  jwt.encode to_encode (JWT_SECRET_KEY settings) (JWT_ALGORITHM settings).

Definition create_access_token (data : gmap string claim) (now : Z) : jwt.token :=
  create_token data ACCESS (Some (minutes (ACCESS_TOKEN_EXPIRE_MINUTES settings))) now.

Definition create_refresh_token (data : gmap string claim) (now : Z) : jwt.token :=
  create_token data REFRESH (Some (days (REFRESH_TOKEN_EXPIRE_DAYS settings))) now.

Definition verify_token (token : jwt.token) (now : Z) : exception + gmap string claim :=
  match jwt.decode token (JWT_SECRET_KEY settings) [JWT_ALGORITHM settings] now with
  | inr payload => inr payload
  | inl _ => inl (HTTPException 400 "Invalid token" [])
  end.

Record CurrentUser := mkCurrentUser { cu_user_id : string; cu_scopes : list string }.

Definition scope_str (scopes : list string) : string := String.concat " " scopes.

Definition get_current_user (security_scopes : list string) (token : jwt.token) (now : Z)
  : exception + CurrentUser :=
  let authenticate_value :=
    match security_scopes with
    | [] => "Bearer"
    | _ => "Bearer scope=" +:+ String (Ascii.ascii_of_nat 34) (scope_str security_scopes)
             +:+ String (Ascii.ascii_of_nat 34) ""
    end in
  let credentials_exception :=
    HTTPException 401 "Could not validate credentials"
                  [("WWW-Authenticate", authenticate_value)] in
  match jwt.decode token (JWT_SECRET_KEY settings) [JWT_ALGORITHM settings] now with
  | inl _ => inl credentials_exception
  | inr payload =>
      match payload !! "sub" with
      | None => inl credentials_exception
      | Some user_id =>
          let token_scopes := default (CList []) (payload !! "scopes") in
          let token_type := payload !! "type" in
          if negb (bool_decide (token_type = Some (CStr "access"))) then
            inl (HTTPException 401 "Invalid token type" [("WWW-Authenticate", "Bearer")])
          else
            match TokenData_init (<["scopes" := token_scopes]> {["user_id" := user_id]}) with
            | None => inl credentials_exception
            | Some token_data =>
                if negb (forallb (λ scope, bool_decide (scope ∈ td_scopes token_data))
                                 security_scopes) then
                  inl (HTTPException 403 "Not enough permissions"
                                     [("WWW-Authenticate", authenticate_value)])
                else
                  (* [token_data.user_id]: [TokenData] has no such field *)
                  inl (PyError "AttributeError")
            end
      end
  end.

(** ** [app/services/auth.py]: [AuthService] *)

Definition is_live_verification_token (token : string) (now : Z)
    (_ : Z) (v : VerificationToken.t) : bool :=
  bool_decide (VerificationToken.token v = token)
  && bool_decide (VerificationToken.token_type v = "email_verification")
  && negb (VerificationToken.revoked v)
  && (now <? VerificationToken.expires_at v).

Definition is_live_refresh_token (token : jwt.token) (now : Z)
    (_ : Z) (r : RefreshToken.t) : bool :=
  bool_decide (RefreshToken.token r = token)
  && negb (RefreshToken.revoked r)
  && (now <? RefreshToken.expires_at r).

Definition has_email (email : string) (_ : Z) (u : User.t) : bool :=
  bool_decide (User.email u = email).

Definition sub_claim (pk : Z) : gmap string claim := {["sub" := CStr (pretty pk)]}.

Definition AuthService_register_user (user_data : UserCreate) (uuid4 : string) (now : Z)
  : M (Z * User.t) :=
  let* rows := execute users (has_email (uc_email user_data)) in
  match first rows with
  | Some _ => raise (HTTPException 400 "Email already registered" [])
  | None =>
      let hashed_password := get_password_hash (uc_password user_data) in
      let new_user :=
        User.mk (uc_email user_data) hashed_password (uc_first_name user_data)
                (uc_last_name user_data) false USER now now in
      let* new_user_id := add_user new_user in
      let token := uuid4 in
      let expires := now + minutes 15 in
      let verification_token :=
        VerificationToken.mk new_user_id token "email_verification" expires false false None in
      let* _ := add_verification_token verification_token in
      commit ;;;
      (if EMAIL_VERIFICATION_ENABLED settings then
         let verification_url := FRONTEND_URL settings +:+ "/verify-email?token=" +:+ token in
         let* _ := send_email (mkEmail (User.email new_user) "Verify your email"
                                       "email_verification.html" verification_url) in
         ret tt
       else ret tt) ;;;
      ret (new_user_id, new_user)
  end.

Definition AuthService_authenticate_user (email password : string)
  : M (option (Z * User.t)) :=
  let* rows := execute users (has_email email) in
  match first rows with
  | None => ret None
  | Some user =>
      let* matches := lift (verify_password password (User.hashed_password user.2)) in
      if negb matches then ret None
      else ret (Some user)
  end.

Definition AuthService_create_tokens (user : Z * User.t) (now : Z) : M Token :=
  let access_token := create_access_token (sub_claim user.1) now in
  let refresh_token := create_refresh_token (sub_claim user.1) now in
  let expires_at := now + days (REFRESH_TOKEN_EXPIRE_DAYS settings) in
  let db_refresh_token := RefreshToken.mk user.1 refresh_token None expires_at false in
  let* _ := add_refresh_token db_refresh_token in
  commit ;;;
  ret (mkToken access_token refresh_token "bearer").

Definition AuthService_verify_email (token : string) (now : Z) : M bool :=
  let* rows := execute verification_tokens (is_live_verification_token token now) in
  match first rows with
  | None => ret false
  | Some verification_token =>
      let* user := get_user (VerificationToken.user_id verification_token.2) in
      match user with
      | None => ret false
      | Some u =>
          update_user (VerificationToken.user_id verification_token.2)
                      (User.set_is_verified true u) ;;;
          update_verification_token verification_token.1
                      (VerificationToken.revoke now verification_token.2) ;;;
          commit ;;;
          ret true
      end
  end.

Definition AuthService_refresh_access_token (refresh_token : jwt.token) (now : Z)
  : M (option jwt.token) :=
  let* rows := execute refresh_tokens (is_live_refresh_token refresh_token now) in
  match first rows with
  | None => ret None
  | Some token_record =>
      ret (Some (create_access_token (sub_claim (RefreshToken.user_id token_record.2)) now))
  end.

(** ** [app/api/v1/auth.py]: the routes *)

Definition signup (user_in : UserCreate) (uuid4 : string) (now : Z) : M string :=
  let* rows := execute users (has_email (uc_email user_in)) in
  match first rows with
  | Some _ => raise (HTTPException 400 "Email already registered" [])
  | None =>
      let hashed_pw := get_password_hash (uc_password user_in) in
      let new_user :=
        User.mk (uc_email user_in) hashed_pw (uc_first_name user_in)
                (uc_last_name user_in) false (uc_role user_in) now now in
      let* new_user_id := add_user new_user in
      let token := uuid4 in
      let expires := now + minutes 15 in
      let v_token :=
        VerificationToken.mk new_user_id token "email_verification" expires false false None in
      let* _ := add_verification_token v_token in
      commit ;;;
      (if EMAIL_VERIFICATION_ENABLED settings then
         let verification_url := FRONTEND_URL settings +:+ "/verify-email?token=" +:+ token in
         let* _ := send_email (mkEmail (User.email new_user) "Verify your email"
                                       "email_verification.html" verification_url) in
         ret tt
       else ret tt) ;;;
      ret "User registered successfully. Please check your email to verify your account."
  end.

Definition login (credentials : LoginInput) (now : Z) : M Token :=
  let* rows := execute users (has_email (li_email credentials)) in
  match first rows with
  | None => raise (HTTPException 400 "Incorrect email or password" [])
  | Some user =>
      let* matches :=
        lift (verify_password (li_password credentials) (User.hashed_password user.2)) in
      if negb matches then
        raise (HTTPException 400 "Incorrect email or password" [])
      else if negb (User.is_verified user.2) then
        raise (HTTPException 400 "Email not verified" [])
      else
        let access_token := create_access_token (sub_claim user.1) now in
        let refresh_token := create_refresh_token (sub_claim user.1) now in
        let expires_at := now + days (REFRESH_TOKEN_EXPIRE_DAYS settings) in
        let db_refresh_token := RefreshToken.mk user.1 refresh_token None expires_at false in
        let* _ := add_refresh_token db_refresh_token in
        commit ;;;
        ret (mkToken access_token refresh_token "bearer")
  end.

(** The [try] block of the refresh route: whatever is raised inside it,
    the [HTTPException] of the type check included, is replaced by the
    handler's own exception. *)
Definition refresh_token_claims (refresh_token : jwt.token) (now : Z)
  : exception + gmap string claim :=
  match verify_token refresh_token now with
  | inl _ => inl (HTTPException 400 "Invalid refresh token" [])
  | inr payload =>
      if negb (bool_decide (payload !! "type" = Some (CStr "refresh"))) then
        inl (HTTPException 400 "Invalid refresh token" [])
      else inr payload
  end.

Definition refresh_token (data_refresh_token : jwt.token) (now : Z) : M Token :=
  match refresh_token_claims data_refresh_token now with
  | inl e => raise e
  | inr payload =>
      let* rows := execute refresh_tokens (is_live_refresh_token data_refresh_token now) in
      match first rows with
      | None => raise (HTTPException 400 "Invalid or expired refresh token" [])
      | Some token =>
          let access_token :=
            create_access_token (sub_claim (RefreshToken.user_id token.2)) now in
          ret (mkToken access_token data_refresh_token "bearer")
      end
  end.

Definition verify_email (data_token : string) (now : Z) : M string :=
  let* rows := execute verification_tokens (is_live_verification_token data_token now) in
  match first rows with
  | None => raise (HTTPException 400 "Invalid or expired verification token" [])
  | Some token =>
      let* user := get_user (VerificationToken.user_id token.2) in
      match user with
      | None => raise (HTTPException 404 "User not found" [])
      | Some u =>
          update_user (VerificationToken.user_id token.2) (User.set_is_verified true u) ;;;
          update_verification_token token.1 (VerificationToken.revoke now token.2) ;;;
          commit ;;;
          ret "Email verified successfully"
      end
  end.

(** ** [app/api/v1/user.py]: the routes that write *)

(** These routes take the caller from [get_current_user] and
    [require_admin] of [app.core.auth], a module that is not among the
    sources: the caller that the dependency let through is an argument of
    the route. What [response_model] makes of the returned object, after
    the function has returned and its commit is done, is the framework's
    part. *)

Definition has_id (user_id : Z) (k : Z) (_ : User.t) : bool := bool_decide (k = user_id).

Definition users_update_user (user_id : Z) (updates : UserUpdate)
    (current_user : Z * User.t) : M (Z * User.t) :=
  let* rows := execute users (has_id user_id) in
  match first rows with
  | None => raise (HTTPException 404 "User not found" [])
  | Some user =>
      if negb (bool_decide (User.role current_user.2 = ADMIN))
         && negb (bool_decide (current_user.1 = user_id)) then
        raise (HTTPException 403 "Not allowed to update this user" [])
      else
        let* hashed_password :=
          match uu_password updates with
          | None => ret (User.hashed_password user.2)
          | Some None => raise (PyError "TypeError")
          | Some (Some password) => ret (get_password_hash password)
          end in
        let first_name := default (User.first_name user.2) (uu_first_name updates) in
        let last_name := default (User.last_name user.2) (uu_last_name updates) in
        let updated :=
          User.mk (User.email user.2) hashed_password first_name last_name
                  (User.is_verified user.2) (User.role user.2)
                  (User.created_at user.2) (User.updated_at user.2) in
        update_user user.1 updated ;;;
        commit ;;;
        ret (user.1, updated)
  end.

Definition users_delete_user (user_id : Z) : M string :=
  let* rows := execute users (has_id user_id) in
  match first rows with
  | None => raise (HTTPException 404 "User not found" [])
  | Some user =>
      delete_user user.1 ;;;
      commit ;;;
      ret "User deleted"
  end.

(** [role_value not in UserRole.__members__] is false for both values of
    the enum, whose names are their values. *)
Definition users_change_user_role (user_id : Z) (new_role : UserRole) : M (Z * User.t) :=
  let* rows := execute users (has_id user_id) in
  match first rows with
  | None => raise (HTTPException 404 "User not found" [])
  | Some user =>
      let updated :=
        User.mk (User.email user.2) (User.hashed_password user.2) (User.first_name user.2)
                (User.last_name user.2) (User.is_verified user.2) new_role
                (User.created_at user.2) (User.updated_at user.2) in
      update_user user.1 updated ;;;
      commit ;;;
      ret (user.1, updated)
  end.

(** ** [app/tasks/cleanup.py]: the retention jobs *)

Definition batch_size : nat := 100.

Definition is_stale_unverified (cutoff_time : Z) (_ : Z) (u : User.t) : bool :=
  negb (User.is_verified u) && (User.created_at u <? cutoff_time).

(** [for user in users: await session.delete(user); deleted_count += 1]. *)
Fixpoint delete_each (users : list (Z * User.t)) (deleted_count : nat) : M nat :=
  match users with
  | [] => ret deleted_count
  | user :: rest => delete_user user.1 ;;; delete_each rest (S deleted_count)
  end.

(** The [while True] loop, one iteration per unit of [fuel]; [None] when the
    fuel runs out before a batch comes back empty. *)
Fixpoint delete_unverified_loop (fuel : nat) (cutoff_time : Z) (deleted_count : nat)
  : M (option nat) :=
  match fuel with
  | O => ret None
  | S fuel' =>
      let* rows := execute users (is_stale_unverified cutoff_time) in
      match limit batch_size rows with
      | [] => ret (Some deleted_count)
      | users =>
          let* deleted_count := delete_each users deleted_count in
          commit ;;;
          delete_unverified_loop fuel' cutoff_time deleted_count
      end
  end.

Record DeleteResult := mkDeleteResult { dr_status : string; deleted_count : nat }.

(** The task: the cutoff and the loop inside [try], and
    [except Exception as e: raise self.retry(exc=e, countdown=60 * 5)]
    around them. The cutoff is computed over the integers. *)
Definition delete_unverified_users (days_old : Z) (now : Z) (fuel : nat)
  : M (option DeleteResult) :=
  try_except
    (let cutoff_time := now - days days_old in
     let* r := delete_unverified_loop fuel cutoff_time 0%nat in
     match r with
     | None => ret None
     | Some deleted_count => ret (Some (mkDeleteResult "success" deleted_count))
     end)
    (λ e, raise (Retry e (60 * 5))).

Record CleanupResult := mkCleanupResult {
  cr_status : string;
  deleted_refresh_tokens : nat;
  deleted_verification_tokens : nat
}.

Definition session_delete (obj : (Z * RefreshToken.t) + (Z * VerificationToken.t)) : M unit :=
  match obj with
  | inl r => delete_refresh_token r.1
  | inr v => delete_verification_token v.1
  end.

Definition refresh_expired (now : Z) (_ : Z) (r : RefreshToken.t) : bool :=
  RefreshToken.expires_at r <? now.

Definition verification_expired (now : Z) (_ : Z) (v : VerificationToken.t) : bool :=
  VerificationToken.expires_at v <? now.

(** The task, with the same [except] clause around its body. *)
Definition cleanup_expired_tokens (now : Z) : M CleanupResult :=
  try_except
    (let* expired_refresh :=
       execute refresh_tokens (refresh_expired now) in
     let* expired_verification :=
       execute verification_tokens (verification_expired now) in
     let deleted_refresh := length expired_refresh in
     let deleted_verification := length expired_verification in
     for_each session_delete (map inl expired_refresh ++ map inr expired_verification) ;;;
     commit ;;;
     ret (mkCleanupResult "success" deleted_refresh deleted_verification))
    (λ e, raise (Retry e (60 * 5))).

(** ** Vocabulary of the properties *)

Definition issued_claims (data : gmap string claim) (token_type : TokenType)
    (expire now : Z) : gmap string claim :=
  <["exp" := CInt expire]>
    (<["iat" := CInt now]>
       (<["type" := CStr (TokenType_value token_type)]>
          (<["iss" := CStr (JWT_ISSUER settings)]> data))).


(** The table after [session.delete] of the rows with the keys [ks]. *)
Definition delete_keys {R} (ks : list Z) (table : gmap Z R) : gmap Z R :=
  foldl (λ acc k, delete k acc) table ks.

(** The operations that reach the store: the four routes of the auth
    router, the methods of [AuthService], the three routes of the users
    router that write, and the two retention jobs. *)
Inductive request :=
  | ReqSignup (user_in : UserCreate) (uuid4 : string)
  | ReqLogin (credentials : LoginInput)
  | ReqRefresh (refresh_token : jwt.token)
  | ReqVerify (token : string)
  | SvcRegisterUser (user_data : UserCreate) (uuid4 : string)
  | SvcCreateTokens (user : Z * User.t)
  | SvcVerifyEmail (token : string)
  | SvcRefreshAccessToken (refresh_token : jwt.token)
  | JobDeleteUnverifiedUsers (days_old : Z) (fuel : nat)
  | JobCleanupExpiredTokens
  | ReqUpdateUser (user_id : Z) (updates : UserUpdate) (current_user : Z * User.t)
  | ReqDeleteUser (user_id : Z)
  | ReqChangeUserRole (user_id : Z) (new_role : UserRole).

(** One request or job run: it gets a session of its own on the durable
    state, and what it committed is the durable state afterwards. *)
Definition serve (req : request) (now : Z) (db : DB) : DB :=
  let s := open_session db in
  committed
    match req with
    | ReqSignup user_in uuid4 => (signup user_in uuid4 now s).2
    | ReqLogin credentials => (login credentials now s).2
    | ReqRefresh r => (refresh_token r now s).2
    | ReqVerify token => (verify_email token now s).2
    | SvcRegisterUser user_data uuid4 => (AuthService_register_user user_data uuid4 now s).2
    | SvcCreateTokens user => (AuthService_create_tokens user now s).2
    | SvcVerifyEmail token => (AuthService_verify_email token now s).2
    | SvcRefreshAccessToken r => (AuthService_refresh_access_token r now s).2
    | JobDeleteUnverifiedUsers days_old fuel => (delete_unverified_users days_old now fuel s).2
    | JobCleanupExpiredTokens => (cleanup_expired_tokens now s).2
    | ReqUpdateUser user_id updates current_user =>
        (users_update_user user_id updates current_user s).2
    | ReqDeleteUser user_id => (users_delete_user user_id s).2
    | ReqChangeUserRole user_id new_role => (users_change_user_role user_id new_role s).2
    end.

Definition serve_all (reqs : list (request * Z)) (db : DB) : DB :=
  foldl (λ acc req, serve req.1 req.2 acc) db reqs.

(** The value that [uuid4()] returned during a request, if it called it. *)
Definition drawn_uuid (req : request) : option string :=
  match req with
  | ReqSignup _ uuid4 | SvcRegisterUser _ uuid4 => Some uuid4
  | _ => None
  end.

(** Every row that carries the value [token] is revoked. *)
Definition all_revoked (token : string) (db : DB) : Prop :=
  ∀ k v, verification_tokens db !! k = Some v →
         VerificationToken.token v = token → VerificationToken.revoked v = true.

(** No row carries the value [token]. *)
Definition never_issued (token : string) (db : DB) : Prop :=
  ∀ k v, verification_tokens db !! k = Some v → VerificationToken.token v ≠ token.

(** The value [token] identifies at most one row. *)
Definition identifies_one_row (token : string) (db : DB) : Prop :=
  ∀ k1 k2 v1 v2,
    verification_tokens db !! k1 = Some v1 → verification_tokens db !! k2 = Some v2 →
    VerificationToken.token v1 = token → VerificationToken.token v2 = token → k1 = k2.

(** How one request can change the table of verification tokens: not at
    all, by a new row that carries the value drawn from [uuid4], by the
    revocation of a row, or by the removal of rows. *)
Inductive vt_change (drawn : option string) (table : gmap Z VerificationToken.t)
  : gmap Z VerificationToken.t → Prop :=
  | vt_same : vt_change drawn table table
  | vt_added k v :
      drawn = Some (VerificationToken.token v) →
      vt_change drawn table (<[k := v]> table)
  | vt_revoked k v at_ :
      table !! k = Some v →
      vt_change drawn table (<[k := VerificationToken.revoke at_ v]> table)
  | vt_purged table' :
      table' ⊆ table →
      vt_change drawn table table'.

(** Token values are unique in the table. *)
Definition unique_tokens (table : gmap Z VerificationToken.t) : Prop :=
  ∀ k1 k2 v1 v2,
    table !! k1 = Some v1 → table !! k2 = Some v2 →
    VerificationToken.token v1 = VerificationToken.token v2 → k1 = k2.

(** The values drawn from [uuid4] in a sequence of requests. *)
Definition drawn_uuids (reqs : list (request * Z)) : list string :=
  omap (λ req, drawn_uuid req.1) reqs.

(** Every row of the table carries one of the values [issued]. *)
Definition tokens_among (issued : list string) (table : gmap Z VerificationToken.t) : Prop :=
  ∀ k v, table !! k = Some v → VerificationToken.token v ∈ issued.

(** Emails are unique in the table of users. *)
Definition unique_emails (table : gmap Z User.t) : Prop :=
  ∀ k1 k2 u1 u2,
    table !! k1 = Some u1 → table !! k2 = Some u2 →
    User.email u1 = User.email u2 → k1 = k2.

(** How one request can change the table of users: not at all, by a new
    unverified row under the next key of the sequence whose email no row
    carried, by the verification of a row, by the removal of rows that
    are not verified, by an update that keeps email, [is_verified] and
    [created_at], or by the deletion of a row. *)
Inductive users_change (seq : Z) (table : gmap Z User.t) : gmap Z User.t → Prop :=
  | users_same : users_change seq table table
  | users_added u :
      (∀ k u', table !! k = Some u' → User.email u' ≠ User.email u) →
      User.is_verified u = false →
      users_change seq table (<[seq := u]> table)
  | users_verified k u :
      table !! k = Some u →
      users_change seq table (<[k := User.set_is_verified true u]> table)
  | users_purged table' :
      table' ⊆ table →
      (∀ k u, table !! k = Some u → User.is_verified u = true → table' !! k = Some u) →
      users_change seq table table'
  | users_updated k u u' :
      table !! k = Some u →
      User.email u' = User.email u →
      User.is_verified u' = User.is_verified u →
      User.created_at u' = User.created_at u →
      users_change seq table (<[k := u']> table)
  | users_deleted k :
      users_change seq table (delete k table).

(** The run of the purge of unverified users at [now] computes its cutoff
    within the range of [timedelta], at most 999999999 days either way,
    and of [datetime], the years 1 to 9999 in seconds from the epoch.
    Outside of it [timedelta(days=days_old)] or the subtraction raises
    [OverflowError]; the embedding computes over the integers and is the
    job's behaviour within the range. *)
Definition cutoff_in_range (days_old now : Z) : Prop :=
  -999999999 ≤ days_old ≤ 999999999
  ∧ -62135596800 ≤ now < 253402300800
  ∧ -62135596800 ≤ now - days days_old < 253402300800.

(** [table'] is [table] without some of its stale unverified rows. *)
Definition stale_rows_removed (cutoff_time : Z) (table table' : gmap Z User.t) : Prop :=
  table' ⊆ table
  ∧ ∀ k u, table !! k = Some u → is_stale_unverified cutoff_time k u = false →
           table' !! k = Some u.

(** No token row refers to a stale unverified user of [d]. *)
Definition no_token_of_stale_user (cutoff_time : Z) (d : DB) : Prop :=
  ∀ k u, users d !! k = Some u → is_stale_unverified cutoff_time k u = true →
         unreferenced k d.

(** The user that a request to the users router addresses. *)
Definition addressed_user (req : request) : option Z :=
  match req with
  | ReqUpdateUser user_id _ _ | ReqDeleteUser user_id | ReqChangeUserRole user_id _ =>
      Some user_id
  | _ => None
  end.

(** What the request or job run [req] at time [now] can make durable. *)
Inductive store_step (now : Z) (req : request) (db : DB) : DB → Prop :=
  | step_none : store_step now req db db
  | step_signup u v :
      (∀ k u', users db !! k = Some u' → User.email u' ≠ User.email u) →
      User.is_verified u = false →
      VerificationToken.user_id v = users_id_seq db →
      drawn_uuid req = Some (VerificationToken.token v) →
      store_step now req db
        (mkDB (<[users_id_seq db := u]> (users db)) (users_id_seq db + 1)
              (refresh_tokens db) (refresh_tokens_id_seq db)
              (<[verification_tokens_id_seq db := v]> (verification_tokens db))
              (verification_tokens_id_seq db + 1))
  | step_verify token j v u :
      verification_tokens db !! j = Some v →
      is_live_verification_token token now j v = true →
      users db !! VerificationToken.user_id v = Some u →
      store_step now req db
        (mkDB (<[VerificationToken.user_id v := User.set_is_verified true u]> (users db))
              (users_id_seq db) (refresh_tokens db) (refresh_tokens_id_seq db)
              (<[j := VerificationToken.revoke now v]> (verification_tokens db))
              (verification_tokens_id_seq db))
  | step_purge_users cutoff_time users' :
      stale_rows_removed cutoff_time (users db) users' →
      (∀ k, is_Some (users db !! k) → users' !! k = None → unreferenced k db) →
      store_step now req db (set_users users' db)
  | step_purge_tokens :
      store_step now req db
        (mkDB (users db) (users_id_seq db)
              (filter (λ kr, refresh_expired now kr.1 kr.2 = false) (refresh_tokens db))
              (refresh_tokens_id_seq db)
              (filter (λ kr, verification_expired now kr.1 kr.2 = false)
                      (verification_tokens db))
              (verification_tokens_id_seq db))
  | step_update_user k u u' :
      addressed_user req = Some k →
      users db !! k = Some u →
      User.email u' = User.email u →
      User.is_verified u' = User.is_verified u →
      User.created_at u' = User.created_at u →
      store_step now req db (set_users (<[k := u']> (users db)) db)
  | step_delete_user k :
      req = ReqDeleteUser k →
      unreferenced k db →
      store_step now req db (set_users (delete k (users db)) db).

(** What a handler left behind: the exception that it raised, if it raised
    one, and its session. *)
Definition failure {A} (r : (exception + A) * Session) : option exception * Session :=
  (match r.1 with inl e => Some e | inr _ => None end, r.2).

Definition handle (req : request) (now : Z) (s : Session) : option exception * Session :=
  match req with
  | ReqSignup user_in uuid4 => failure (signup user_in uuid4 now s)
  | ReqLogin credentials => failure (login credentials now s)
  | ReqRefresh r => failure (refresh_token r now s)
  | ReqVerify token => failure (verify_email token now s)
  | SvcRegisterUser user_data uuid4 => failure (AuthService_register_user user_data uuid4 now s)
  | SvcCreateTokens user => failure (AuthService_create_tokens user now s)
  | SvcVerifyEmail token => failure (AuthService_verify_email token now s)
  | SvcRefreshAccessToken r => failure (AuthService_refresh_access_token r now s)
  | JobDeleteUnverifiedUsers days_old fuel => failure (delete_unverified_users days_old now fuel s)
  | JobCleanupExpiredTokens => failure (cleanup_expired_tokens now s)
  | ReqUpdateUser user_id updates current_user =>
      failure (users_update_user user_id updates current_user s)
  | ReqDeleteUser user_id => failure (users_delete_user user_id s)
  | ReqChangeUserRole user_id new_role => failure (users_change_user_role user_id new_role s)
  end.

(** The verification of user [k] has lapsed at time [t]: the row, if it is
    still there, is not verified, and every verification token of [k] is
    revoked, of another type, or expired at [t]. *)
Definition verification_lapsed (k t : Z) (db : DB) : Prop :=
  k < users_id_seq db
  ∧ (∀ u, users db !! k = Some u → User.is_verified u = false)
  ∧ ∀ j v, verification_tokens db !! j = Some v → VerificationToken.user_id v = k →
           VerificationToken.revoked v = true
           ∨ VerificationToken.token_type v ≠ "email_verification"
           ∨ VerificationToken.expires_at v ≤ t.

(** * Properties *)

(** ** Queries *)

Lemma elem_of_select_where {R} (p : Z → R → bool) (table : gmap Z R) k r :
  (k, r) ∈ select_where p table ↔ table !! k = Some r ∧ p k r = true.
Proof.
  unfold select_where. rewrite list_elem_of_filter, elem_of_map_to_list. simpl. tauto.
Qed.

Lemma first_select_Some {R} (p : Z → R → bool) (table : gmap Z R) k r :
  first (select_where p table) = Some (k, r) → table !! k = Some r ∧ p k r = true.
Proof.
  unfold first. intros Hhd. apply elem_of_select_where.
  destruct (select_where p table) as [|x l]; simplify_eq/=. left.
Qed.

Lemma first_select_None {R} (p : Z → R → bool) (table : gmap Z R) :
  first (select_where p table) = None ↔ ∀ k r, table !! k = Some r → p k r = false.
Proof.
  unfold first. split.
  - intros Hhd k r Hk. destruct (p k r) eqn:Hp; [|done].
    assert ((k, r) ∈ select_where p table) as Hin by (by apply elem_of_select_where).
    destruct (select_where p table); [by apply elem_of_nil in Hin | done].
  - intros Hall. destruct (select_where p table) as [|[k r] l] eqn:Hsel; [done|].
    assert ((k, r) ∈ select_where p table) as Hin by (rewrite Hsel; left).
    apply elem_of_select_where in Hin as [Hk Hp]. rewrite (Hall _ _ Hk) in Hp. done.
Qed.

Lemma first_select_is_Some {R} (p : Z → R → bool) (table : gmap Z R) k r :
  table !! k = Some r → p k r = true → is_Some (first (select_where p table)).
Proof.
  intros Hk Hp. destruct (first (select_where p table)) eqn:Hf; [by eexists|].
  rewrite first_select_None in Hf. rewrite (Hf _ _ Hk) in Hp. done.
Qed.

(** ** Login: unknown email, wrong password, and a check that raises *)

Lemma login_unknown_email s now email password :
  (∀ k u, users (working s) !! k = Some u → User.email u ≠ email) →
  login (mkLoginInput email password) now s
    = (inl (HTTPException 400 "Incorrect email or password" []), s)
  ∧ AuthService_authenticate_user email password s = (inr None, s).
Proof.
  intros Hno.
  assert (first (select_where (has_email email) (users (working s))) = None) as Hf.
  { apply first_select_None. intros k u Hk. unfold has_email.
    apply bool_decide_eq_false. eauto. }
  unfold login, AuthService_authenticate_user, bind, execute. simpl. by rewrite Hf.
Qed.

Lemma login_wrong_password s now email password :
  (∃ k u, users (working s) !! k = Some u ∧ User.email u = email) →
  (∀ k u, users (working s) !! k = Some u → User.email u = email →
          verify_password password (User.hashed_password u) = inr false) →
  login (mkLoginInput email password) now s
    = (inl (HTTPException 400 "Incorrect email or password" []), s)
  ∧ AuthService_authenticate_user email password s = (inr None, s).
Proof.
  intros (k & u & Hk & Hu) Hpw.
  destruct (first_select_is_Some (has_email email) _ k u Hk) as [[k' u'] Hf].
  { unfold has_email. by apply bool_decide_eq_true. }
  pose proof (first_select_Some _ _ _ _ Hf) as [Hk' Hp].
  unfold has_email in Hp. apply bool_decide_eq_true in Hp.
  unfold login, AuthService_authenticate_user, bind, execute, lift. simpl.
  rewrite Hf. simpl. by rewrite (Hpw _ _ Hk' Hp).
Qed.

(** An error of [pwd_context.verify] passes through the route and through
    the service method, neither of which catches it. *)
Lemma login_verify_error s now email password name :
  (∃ k u, users (working s) !! k = Some u ∧ User.email u = email) →
  (∀ k u, users (working s) !! k = Some u → User.email u = email →
          verify_password password (User.hashed_password u) = inl name) →
  login (mkLoginInput email password) now s = (inl (PyError name), s)
  ∧ AuthService_authenticate_user email password s = (inl (PyError name), s).
Proof.
  intros (k & u & Hk & Hu) Hpw.
  destruct (first_select_is_Some (has_email email) _ k u Hk) as [[k' u'] Hf].
  { unfold has_email. by apply bool_decide_eq_true. }
  pose proof (first_select_Some _ _ _ _ Hf) as [Hk' Hp].
  unfold has_email in Hp. apply bool_decide_eq_true in Hp.
  unfold login, AuthService_authenticate_user, bind, execute, lift. simpl.
  rewrite Hf. simpl. by rewrite (Hpw _ _ Hk' Hp).
Qed.

Lemma login_not_verified_inv s now credentials s' :
  login credentials now s = (inl (HTTPException 400 "Email not verified" []), s') →
  s' = s ∧
  ∃ k u, users (working s) !! k = Some u
         ∧ User.email u = li_email credentials
         ∧ verify_password (li_password credentials) (User.hashed_password u) = inr true
         ∧ User.is_verified u = false.
Proof.
  unfold login, bind, execute, lift. simpl.
  destruct (first (select_where _ _)) as [[k u]|] eqn:Hf; simpl; [|intros; simplify_eq].
  apply first_select_Some in Hf as [Hk Hp].
  unfold has_email in Hp. apply bool_decide_eq_true in Hp.
  destruct (verify_password _ _) as [name|[|]] eqn:Hpw; simpl;
    [intros; simplify_eq| |intros; simplify_eq].
  destruct (User.is_verified u) eqn:Hv; simpl.
  - unfold add_refresh_token. simpl. intros; simplify_eq.
  - unfold raise. intros; simplify_eq. split; [done|]. by exists k, u.
Qed.

(** Where [pwd_context.verify] returns, a login with an email that no user
    row carries and a login with a registered email whose password matches
    no account of that email fail with the same exception (400, "Incorrect
    email or password") and leave the session as it was;
    [AuthService.authenticate_user] answers [None] to both. "Email not
    verified" is raised only when a user row with the email exists, the
    password matches its hash and [is_verified] is false. *)
Lemma login_failures_coincide s now unknown password1 known password2 :
  (∀ k u, users (working s) !! k = Some u → User.email u ≠ unknown) →
  (∃ k u, users (working s) !! k = Some u ∧ User.email u = known) →
  (∀ k u, users (working s) !! k = Some u → User.email u = known →
          verify_password password2 (User.hashed_password u) = inr false) →
  login (mkLoginInput unknown password1) now s = login (mkLoginInput known password2) now s
  ∧ login (mkLoginInput unknown password1) now s
      = (inl (HTTPException 400 "Incorrect email or password" []), s)
  ∧ AuthService_authenticate_user unknown password1 s
      = AuthService_authenticate_user known password2 s
  ∧ AuthService_authenticate_user unknown password1 s = (inr None, s)
  ∧ (∀ credentials t s0 s',
       login credentials t s0 = (inl (HTTPException 400 "Email not verified" []), s') →
       ∃ k u, users (working s0) !! k = Some u
              ∧ User.email u = li_email credentials
              ∧ verify_password (li_password credentials) (User.hashed_password u)
                = inr true
              ∧ User.is_verified u = false).
Proof.
  intros Hunknown Hknown Hwrong.
  destruct (login_unknown_email s now unknown password1 Hunknown) as [Hl1 Ha1].
  destruct (login_wrong_password s now known password2 Hknown Hwrong) as [Hl2 Ha2].
  repeat split; try congruence.
  intros credentials t s0 s' Hlogin.
  by destruct (login_not_verified_inv _ _ _ _ Hlogin) as [_ ?].
Qed.

(** C6. The login reveals whether an email is registered as soon as
    [pwd_context.verify] raises instead of returning [False]. The password
    is checked only once a user row with the email has been found, and
    nothing catches what the check raises: for an email that no row
    carries the route answers 400 "Incorrect email or password", for a
    registered email and the same password it ends with the error of
    passlib, a 500; [AuthService.authenticate_user] returns [None] for the
    one and raises for the other. In both cases the session is left as it
    was. *)
Theorem login_error_reveals_registered_email s now unknown known password name :
  (∀ k u, users (working s) !! k = Some u → User.email u ≠ unknown) →
  (∃ k u, users (working s) !! k = Some u ∧ User.email u = known) →
  (∀ k u, users (working s) !! k = Some u → User.email u = known →
          verify_password password (User.hashed_password u) = inl name) →
  login (mkLoginInput unknown password) now s
    = (inl (HTTPException 400 "Incorrect email or password" []), s)
  ∧ login (mkLoginInput known password) now s = (inl (PyError name), s)
  ∧ status_of (PyError name) = 500
  ∧ login (mkLoginInput unknown password) now s ≠ login (mkLoginInput known password) now s
  ∧ AuthService_authenticate_user unknown password s = (inr None, s)
  ∧ AuthService_authenticate_user known password s = (inl (PyError name), s).
Proof.
  intros Hunknown Hknown Hraises.
  destruct (login_unknown_email s now unknown password Hunknown) as [Hl1 Ha1].
  destruct (login_verify_error s now known password name Hknown Hraises) as [Hl2 Ha2].
  split_and!; try done. rewrite Hl1, Hl2. intros Heq. simplify_eq.
Qed.

(** ** Email verification when the owning user is gone *)

(** C10. When some verification-token row matches the presented value (kind
    "email_verification", not revoked, not expired) and no matching row has
    an owning user row, the route raises 404 "User not found", which is not
    the 400 "Invalid or expired verification token" of an unknown value,
    [AuthService.verify_email] returns [False], and neither touches the
    session: nothing is written, nothing is committed, the token stays
    unrevoked. *)
Theorem verify_email_orphan_token s now token :
  (∃ k v, verification_tokens (working s) !! k = Some v
          ∧ is_live_verification_token token now k v = true) →
  (∀ k v, verification_tokens (working s) !! k = Some v →
          is_live_verification_token token now k v = true →
          users (working s) !! VerificationToken.user_id v = None) →
  verify_email token now s = (inl (HTTPException 404 "User not found" []), s)
  ∧ AuthService_verify_email token now s = (inr false, s)
  ∧ HTTPException 404 "User not found" []
      ≠ HTTPException 400 "Invalid or expired verification token" [].
Proof.
  intros (k & v & Hk & Hlive) Horphan.
  destruct (first_select_is_Some _ _ k v Hk Hlive) as [[k' v'] Hf].
  pose proof (first_select_Some _ _ _ _ Hf) as [Hk' Hlive'].
  unfold verify_email, AuthService_verify_email, bind, execute, get_user. simpl.
  rewrite Hf. simpl. rewrite (Horphan _ _ Hk' Hlive'). done.
Qed.

(** ** Refresh: both checks, and no rotation *)

Lemma decode_not_yet_expired tok key algorithms now now' payload :
  jwt.decode tok key algorithms now = inr payload →
  (∀ e, jwt.unverified_claims tok !! "exp" = Some (CInt e) → now' ≤ e) →
  jwt.decode tok key algorithms now' = inr payload.
Proof.
  destruct tok as [alg claims k|raw]; simpl; [|done].
  intros Hdec Hexp.
  destruct (negb (bool_decide (alg ∈ algorithms))); [done|].
  destruct (negb (bool_decide (k = key))); [done|].
  destruct (jwt.validate_iat claims); [done|].
  unfold jwt.validate_exp in *.
  destruct (claims !! "exp") as [[?|e|?]|] eqn:He; try done.
  destruct (e <? now) eqn:Hlt; [done|].
  specialize (Hexp e eq_refl). by replace (e <? now') with false by lia.
Qed.

Lemma refresh_token_claims_inv r now payload :
  refresh_token_claims r now = inr payload →
  jwt.decode r (JWT_SECRET_KEY settings) [JWT_ALGORITHM settings] now = inr payload
  ∧ payload !! "type" = Some (CStr "refresh").
Proof.
  unfold refresh_token_claims, verify_token.
  destruct (jwt.decode _ _ _ _) as [e|p]; [done|].
  destruct (bool_decide (p !! "type" = Some (CStr "refresh"))) eqn:Hty; simpl; [|done].
  apply bool_decide_eq_true in Hty. intros; by simplify_eq.
Qed.

Lemma refresh_token_claims_error r now e :
  refresh_token_claims r now = inl e → e = HTTPException 400 "Invalid refresh token" [].
Proof.
  unfold refresh_token_claims.
  destruct (verify_token r now) as [?|p]; [congruence|].
  destruct (negb _); congruence.
Qed.

Lemma is_live_refresh_token_true r now k row :
  is_live_refresh_token r now k row = true ↔
  RefreshToken.token row = r ∧ RefreshToken.revoked row = false
  ∧ now < RefreshToken.expires_at row.
Proof.
  unfold is_live_refresh_token.
  rewrite !andb_true_iff, bool_decide_eq_true, negb_true_iff, Z.ltb_lt.
  split; [intros [[? ?] ?] | intros (? & ? & ?)]; by repeat split.
Qed.

(** The refresh route answers with a token exactly when the presented
    value passes the signature, expiry and type checks and a live row
    stores it; otherwise it raises one of two 400 exceptions and the
    session is untouched. *)
Lemma refresh_route_needs_both_checks s now r :
  (∀ tok s', refresh_token r now s = (inr tok, s') →
     (∃ payload,
        jwt.decode r (JWT_SECRET_KEY settings) [JWT_ALGORITHM settings] now = inr payload
        ∧ payload !! "type" = Some (CStr "refresh"))
     ∧ (∃ k row, refresh_tokens (working s) !! k = Some row
                 ∧ is_live_refresh_token r now k row = true))
  ∧ (∀ e, refresh_token_claims r now = inl e →
          refresh_token r now s = (inl (HTTPException 400 "Invalid refresh token" []), s))
  ∧ ((∀ k row, refresh_tokens (working s) !! k = Some row →
               is_live_refresh_token r now k row = false) →
     ∃ e, refresh_token r now s = (inl e, s) ∧ status_of e = 400).
Proof.
  unfold refresh_token, bind, execute, raise, ret. simpl. repeat split.
  - destruct (refresh_token_claims r now) as [e|p] eqn:Hc; [done|].
    apply refresh_token_claims_inv in Hc. by exists p.
  - destruct (refresh_token_claims r now) as [e|p] eqn:Hc; [done|].
    destruct (first (select_where _ _)) as [[k row]|] eqn:Hf; [|done].
    apply first_select_Some in Hf. by exists k, row.
  - intros e He. rewrite He. by rewrite (refresh_token_claims_error _ _ _ He).
  - intros Hnone. destruct (refresh_token_claims r now) as [e|p] eqn:Hc.
    + exists e. split; [done|]. by rewrite (refresh_token_claims_error _ _ _ Hc).
    + apply first_select_None in Hnone. rewrite Hnone. by eexists.
Qed.

(** [AuthService.refresh_access_token] asks the store only: a live row
    is enough for an access token, whatever the claims of the value. *)
Lemma service_refresh_ignores_claims s now r k row :
  refresh_tokens (working s) !! k = Some row →
  is_live_refresh_token r now k row = true →
  ∃ tok, AuthService_refresh_access_token r now s = (inr (Some tok), s).
Proof.
  intros Hk Hlive.
  destruct (first_select_is_Some _ _ k row Hk Hlive) as [[k' row'] Hf].
  unfold AuthService_refresh_access_token, bind, execute, ret. simpl. rewrite Hf.
  by eexists.
Qed.

(** C5. A successful refresh writes nothing: the session after it is the
    session before it (every row of every table, the committed state and
    the commit count), and the response carries the presented refresh
    token itself. The token stays usable: at any later time at which its
    signed [exp] has not passed and some stored row for it is still
    unrevoked and unexpired, the route succeeds again with the same refresh
    token, again without a write. [AuthService.refresh_access_token] does
    not write either. *)
Theorem refresh_does_not_rotate s now r tok s' :
  refresh_token r now s = (inr tok, s') →
  s' = s
  ∧ refresh_token_ tok = r
  ∧ (AuthService_refresh_access_token r now s).2 = s
  ∧ (∀ now',
       (∀ e, jwt.unverified_claims r !! "exp" = Some (CInt e) → now' ≤ e) →
       (∃ k row, refresh_tokens (working s') !! k = Some row
                 ∧ RefreshToken.token row = r
                 ∧ RefreshToken.revoked row = false
                 ∧ now' < RefreshToken.expires_at row) →
       ∃ tok', refresh_token r now' s' = (inr tok', s') ∧ refresh_token_ tok' = r).
Proof.
  intros Hrun.
  assert (s' = s ∧ refresh_token_ tok = r
          ∧ ∃ payload, refresh_token_claims r now = inr payload) as (-> & Htok & payload & Hc).
  { revert Hrun. unfold refresh_token, bind, execute, raise, ret. simpl.
    destruct (refresh_token_claims r now) as [e|p]; [intros; simplify_eq|].
    destruct (first (select_where _ _)) as [[k row]|]; intros; simplify_eq; eauto. }
  repeat split; [done| |].
  - unfold AuthService_refresh_access_token, bind, execute, ret. simpl.
    by destruct (first (select_where _ _)).
  - intros now' Hexp (k & row & Hk & Hr & Hrev & Hlive).
    apply refresh_token_claims_inv in Hc as [Hdec Hty].
    pose proof (decode_not_yet_expired _ _ _ _ now' _ Hdec Hexp) as Hdec'.
    destruct (first_select_is_Some (is_live_refresh_token r now') _ k row Hk)
      as [[k' row'] Hf]; [by apply is_live_refresh_token_true|].
    unfold refresh_token, refresh_token_claims, verify_token, bind, execute, ret. simpl.
    rewrite Hdec'. rewrite bool_decide_eq_true_2 by done. simpl. rewrite Hf.
    by eexists.
Qed.

(** ** Issued tokens and the access-token path *)

Lemma create_refresh_token_eq data now :
  create_refresh_token data now
  = jwt.Compact (JWT_ALGORITHM settings)
      (issued_claims data REFRESH (now + days (REFRESH_TOKEN_EXPIRE_DAYS settings)) now)
      (JWT_SECRET_KEY settings).
Proof.
  unfold create_refresh_token, create_token, jwt.encode, issued_claims.
  by destruct (negb _).
Qed.

Lemma create_access_token_eq data now :
  create_access_token data now
  = jwt.Compact (JWT_ALGORITHM settings)
      (issued_claims data ACCESS (now + minutes (ACCESS_TOKEN_EXPIRE_MINUTES settings)) now)
      (JWT_SECRET_KEY settings).
Proof.
  unfold create_access_token, create_token, jwt.encode, issued_claims.
  by destruct (negb _).
Qed.

Lemma issued_claims_lookup data token_type expire now :
  issued_claims data token_type expire now !! "exp" = Some (CInt expire)
  ∧ issued_claims data token_type expire now !! "iat" = Some (CInt now)
  ∧ issued_claims data token_type expire now !! "type"
      = Some (CStr (TokenType_value token_type))
  ∧ issued_claims data token_type expire now !! "sub" = data !! "sub".
Proof.
  unfold issued_claims. repeat split.
  - apply lookup_insert_eq.
  - rewrite lookup_insert_ne by discriminate. apply lookup_insert_eq.
  - rewrite !lookup_insert_ne by discriminate. apply lookup_insert_eq.
  - rewrite !lookup_insert_ne by discriminate. reflexivity.
Qed.

(** A token issued by [create_token] passes [jwt.decode] under
    [JWT_SECRET_KEY] until its [exp] has passed, whatever its type. *)
Lemma decode_issued data token_type expire issued now sub :
  data !! "sub" = Some (CStr sub) →
  now ≤ expire →
  jwt.decode (jwt.Compact (JWT_ALGORITHM settings)
                (issued_claims data token_type expire issued) (JWT_SECRET_KEY settings))
             (JWT_SECRET_KEY settings) [JWT_ALGORITHM settings] now
  = inr (issued_claims data token_type expire issued).
Proof.
  intros Hsub Hexp.
  destruct (issued_claims_lookup data token_type expire issued) as (He & Hi & _ & Hs).
  unfold jwt.decode, jwt.validate_iat, jwt.validate_exp, jwt.validate_sub.
  rewrite bool_decide_eq_true_2 by left.
  rewrite bool_decide_eq_true_2 by done. simpl.
  rewrite Hi, He, Hs, Hsub. by replace (expire <? now) with false by lia.
Qed.

Lemma decode_inr_claims tok key algorithms now payload :
  jwt.decode tok key algorithms now = inr payload → payload = jwt.unverified_claims tok.
Proof.
  destruct tok as [alg claims k|raw]; simpl; [|done].
  repeat (case_match; try done). congruence.
Qed.

(** As written, [get_current_user] never returns: the keyword arguments it
    passes to [TokenData] lack the required fields, so a token that passes
    every check still ends in the credentials exception. *)
Remark get_current_user_raises security_scopes token now :
  ∃ e, get_current_user security_scopes token now = inl e.
Proof.
  unfold get_current_user.
  destruct (jwt.decode _ _ _ _) as [?|payload]; [by eexists|].
  destruct (payload !! "sub"); [|by eexists].
  destruct (negb _); [by eexists|].
  unfold TokenData_init. rewrite lookup_insert_ne by done.
  rewrite lookup_singleton_ne by done. by eexists.
Qed.

(** C3. The access-token path rejects with 401 every token whose type
    claim is not "access", so a token it accepts carries type "access". In
    particular a refresh token issued by [create_refresh_token], with a
    subject and before its expiry, although its signature verifies, is
    answered with 401 "Invalid token type" and yields no authenticated
    user. *)
Theorem access_path_requires_access_type security_scopes token now :
  jwt.unverified_claims token !! "type" ≠ Some (CStr "access") →
  (∃ e, get_current_user security_scopes token now = inl e ∧ status_of e = 401)
  ∧ (∀ data issued sub,
       token = create_refresh_token data issued →
       data !! "sub" = Some (CStr sub) →
       now ≤ issued + days (REFRESH_TOKEN_EXPIRE_DAYS settings) →
       (∃ payload, verify_token token now = inr payload)
       ∧ get_current_user security_scopes token now
         = inl (HTTPException 401 "Invalid token type" [("WWW-Authenticate", "Bearer")])).
Proof.
  intros Hty. split.
  - unfold get_current_user.
    destruct (jwt.decode _ _ _ _) as [?|payload] eqn:Hdec; [by eexists|].
    apply decode_inr_claims in Hdec as ->.
    destruct (_ !! "sub"); [|by eexists].
    rewrite bool_decide_eq_false_2 by done. by eexists.
  - intros data issued sub -> Hsub Hexp.
    rewrite create_refresh_token_eq.
    unfold verify_token, get_current_user.
    rewrite (decode_issued _ _ _ _ _ sub Hsub Hexp).
    destruct (issued_claims_lookup data REFRESH
                (issued + days (REFRESH_TOKEN_EXPIRE_DAYS settings)) issued)
      as (_ & _ & Ht & Hs).
    split; [by eexists|]. by rewrite Hs, Hsub, Ht.
Qed.

(** Both kinds of token are sealed under [JWT_SECRET_KEY]; an unexpired
    refresh token therefore verifies under the key of the access tokens. *)
Lemma refresh_token_signed_with_access_key user_id now :
  jwt.signing_key (create_access_token (sub_claim user_id) now)
    = Some (JWT_SECRET_KEY settings)
  ∧ jwt.signing_key (create_refresh_token (sub_claim user_id) now)
    = Some (JWT_SECRET_KEY settings)
  ∧ (0 ≤ REFRESH_TOKEN_EXPIRE_DAYS settings →
     ∃ payload, jwt.decode (create_refresh_token (sub_claim user_id) now)
                  (JWT_SECRET_KEY settings) [JWT_ALGORITHM settings] now = inr payload).
Proof.
  rewrite create_access_token_eq, create_refresh_token_eq. repeat split.
  intros Hdays. eexists. apply (decode_issued _ _ _ _ _ (pretty user_id)).
  - apply lookup_singleton_eq.
  - unfold days. lia.
Qed.

(** ** Login stores nothing *)

(** [login] and [AuthService.create_tokens] build their [RefreshToken]
    without [created_at], so the INSERT is refused and the transaction
    rolled back: [create_tokens] always ends in [IntegrityError], and
    [login] in the exception of one of its checks or in
    [IntegrityError]. *)
Lemma create_tokens_raises user now s :
  AuthService_create_tokens user now s = (inl IntegrityError, rollback s).
Proof. done. Qed.

Lemma login_valid_credentials s now credentials k u :
  first (select_where (has_email (li_email credentials)) (users (working s))) = Some (k, u) →
  verify_password (li_password credentials) (User.hashed_password u) = inr true →
  User.is_verified u = true →
  login credentials now s = (inl IntegrityError, rollback s).
Proof.
  intros Hf Hpw Hv. unfold login, bind, execute, lift. simpl.
  rewrite Hf. simpl. rewrite Hpw. simpl. by rewrite Hv.
Qed.

Lemma login_raises credentials now s :
  ∃ e s', login credentials now s = (inl e, s') ∧ (s' = s ∨ s' = rollback s).
Proof.
  unfold login, bind, execute, lift, raise. simpl.
  destruct (first (select_where _ _)) as [[k u]|]; simpl; [|by do 2 eexists; eauto].
  destruct (verify_password _ _) as [name|[|]]; simpl; [by do 2 eexists; eauto| |
    by do 2 eexists; eauto].
  destruct (User.is_verified u); simpl; do 2 eexists; eauto.
Qed.

Lemma serve_login credentials now db : serve (ReqLogin credentials) now db = db.
Proof.
  unfold serve.
  destruct (login_raises credentials now (open_session db)) as (e & s' & -> & [->| ->]);
    done.
Qed.

Lemma serve_create_tokens user now db : serve (SvcCreateTokens user) now db = db.
Proof. done. Qed.

(** ** Deleting a batch of rows *)

Lemma lookup_delete_keys {R} (ks : list Z) (table : gmap Z R) k :
  delete_keys ks table !! k = if decide (k ∈ ks) then None else table !! k.
Proof.
  revert table. induction ks as [|a ks IH]; intros table.
  - destruct (decide (k ∈ [])) as [Hin|]; [by apply elem_of_nil in Hin | done].
  - change (delete_keys (a :: ks) table) with (delete_keys ks (delete a table)).
    rewrite IH. destruct (decide (k = a)) as [->|Hne].
    + rewrite lookup_delete_eq. rewrite (decide_True (P := a ∈ a :: ks)) by left.
      by destruct (decide (a ∈ ks)).
    + rewrite lookup_delete_ne by done.
      destruct (decide (k ∈ ks)) as [Hin|Hin].
      * rewrite decide_True; [done | by right].
      * rewrite decide_False; [done|]. rewrite elem_of_cons. tauto.
Qed.

Lemma size_delete_keys {R} (ks : list Z) (table : gmap Z R) :
  NoDup ks → (∀ k, k ∈ ks → is_Some (table !! k)) →
  (size (delete_keys ks table) + length ks = size table)%nat.
Proof.
  revert table. induction ks as [|a ks IH]; intros table Hnd Hdom; simpl; [lia|].
  apply NoDup_cons in Hnd as [Ha Hnd].
  change (delete_keys (a :: ks) table) with (delete_keys ks (delete a table)).
  assert (is_Some (table !! a)) as Hsome by (apply Hdom; left).
  pose proof (map_size_delete_Some a table Hsome) as Hsz.
  assert (size table ≠ 0%nat) as Hne.
  { destruct Hsome as [x Hx]. by apply (map_size_ne_0_lookup_2 table a). }
  rewrite <- (IH (delete a table)) in Hsz; [lia|done|].
  intros k Hk. rewrite lookup_delete_ne by set_solver. apply Hdom. by right.
Qed.

Lemma select_where_keys {R} (p : Z → R → bool) (table : gmap Z R) k :
  k ∈ (select_where p table).*1 ↔ ∃ r, table !! k = Some r ∧ p k r = true.
Proof.
  rewrite list_elem_of_fmap. split.
  - intros ([k' r] & -> & Hin). apply elem_of_select_where in Hin. by exists r.
  - intros (r & Hk & Hp). exists (k, r). split; [done|]. by apply elem_of_select_where.
Qed.

Lemma NoDup_select_where_keys {R} (p : Z → R → bool) (table : gmap Z R) n :
  NoDup (take n (select_where p table)).*1.
Proof.
  eapply sublist_NoDup; [apply (NoDup_fst_map_to_list table)|].
  apply fmap_sublist. etrans; [apply sublist_take|]. apply sublist_filter.
Qed.

(** Deleting every selected row leaves the rows that fail the condition. *)
Lemma delete_selected {R} (p : Z → R → bool) (table : gmap Z R) :
  delete_keys (select_where p table).*1 table
  = filter (λ kr, p kr.1 kr.2 = false) table.
Proof.
  apply map_eq. intros k. rewrite lookup_delete_keys.
  destruct (table !! k) as [r|] eqn:Hk.
  - destruct (p k r) eqn:Hp.
    + rewrite decide_True by (apply select_where_keys; eauto).
      symmetry. apply map_lookup_filter_None. right. intros r' Hr'. simplify_eq/=.
      by rewrite Hp.
    + rewrite decide_False.
      * symmetry. by apply map_lookup_filter_Some.
      * rewrite select_where_keys. intros (r' & Hr' & Hp'). congruence.
  - case_decide; symmetry; apply map_lookup_filter_None; by left.
Qed.

Lemma length_select_where {R} (p : Z → R → bool) (table : gmap Z R) :
  length (select_where p table) = size (filter (λ kr, p kr.1 kr.2 = true) table).
Proof.
  rewrite map_filter_alt. unfold select_where.
  rewrite map_size_list_to_map; [done|].
  rewrite <- (take_ge (filter _ _) (length (map_to_list table))).
  - apply (NoDup_select_where_keys p table).
  - apply length_filter.
Qed.

Lemma size_select_partition {R} (p : Z → R → bool) (table : gmap Z R) :
  (length (select_where p table) + size (filter (λ kr, p kr.1 kr.2 = false) table)
   = size table)%nat.
Proof.
  rewrite length_select_where.
  rewrite <- (map_filter_union_complement (λ kr, p kr.1 kr.2 = true) table) at 3.
  rewrite map_size_disj_union by apply map_disjoint_filter_complement.
  f_equal. f_equal. apply map_filter_ext. intros k r _. simpl.
  by destruct (p k r).
Qed.

(** ** Purging expired tokens *)

Lemma for_each_app {A} (body : A → M unit) (xs ys : list A) s :
  for_each body (xs ++ ys) s = (for_each body xs ;;; for_each body ys) s.
Proof.
  revert s. induction xs as [|x xs IH]; intros s; simpl.
  - done.
  - unfold bind in *. destruct (body x s) as [[e|u] s1].
    + done.
    + apply IH.
Qed.

Lemma run_delete_refresh_tokens (rows : list (Z * RefreshToken.t)) s :
  for_each session_delete (map inl rows) s
  = (inr tt, with_working
               (λ d, set_refresh_tokens (delete_keys rows.*1 (refresh_tokens d)) d) s).
Proof.
  revert s. induction rows as [|[k r] rows IH]; intros s; simpl.
  - unfold ret. f_equal. by destruct s as [[] ? ? ?].
  - unfold bind. simpl. by rewrite IH.
Qed.

Lemma run_delete_verification_tokens (rows : list (Z * VerificationToken.t)) s :
  for_each session_delete (map inr rows) s
  = (inr tt, with_working
               (λ d, set_verification_tokens
                       (delete_keys rows.*1 (verification_tokens d)) d) s).
Proof.
  revert s. induction rows as [|[k r] rows IH]; intros s; simpl.
  - unfold ret. f_equal. by destruct s as [[] ? ? ?].
  - unfold bind. simpl. by rewrite IH.
Qed.

Lemma cleanup_expired_tokens_run s now :
  cleanup_expired_tokens now s
  = (inr (mkCleanupResult "success"
            (length (select_where (refresh_expired now) (refresh_tokens (working s))))
            (length (select_where (verification_expired now)
                       (verification_tokens (working s))))),
     let d :=
       mkDB (users (working s)) (users_id_seq (working s))
            (filter (λ kr, refresh_expired now kr.1 kr.2 = false)
                    (refresh_tokens (working s)))
            (refresh_tokens_id_seq (working s))
            (filter (λ kr, verification_expired now kr.1 kr.2 = false)
                    (verification_tokens (working s)))
            (verification_tokens_id_seq (working s)) in
     mkSession d d (S (commits s)) (outbox s)).
Proof.
  unfold cleanup_expired_tokens, try_except, bind, execute. simpl.
  rewrite for_each_app. unfold bind.
  rewrite run_delete_refresh_tokens, run_delete_verification_tokens.
  unfold commit, ret. simpl.
  by rewrite !delete_selected.
Qed.

(** C7. The token purge deletes exactly the refresh-token and
    verification-token rows with [expires_at < now]: a row is in a table
    afterwards if and only if it was there before and has not expired, and
    it is the same row; users and sequences are untouched. It commits once,
    making this state durable, and reports per kind the number of rows that
    had expired, which is the number by which the table shrank. Run on
    two refresh tokens, one expired and one live, it keeps only the live
    one and reports [deleted_refresh_tokens = 1]. *)
Theorem purge_expired_tokens_exact s now :
  ∃ result s',
    cleanup_expired_tokens now s = (inr result, s')
    ∧ cr_status result = "success"
    ∧ (∀ k r, refresh_tokens (working s') !! k = Some r ↔
              refresh_tokens (working s) !! k = Some r
              ∧ ¬ RefreshToken.expires_at r < now)
    ∧ (∀ k v, verification_tokens (working s') !! k = Some v ↔
              verification_tokens (working s) !! k = Some v
              ∧ ¬ VerificationToken.expires_at v < now)
    ∧ users (working s') = users (working s)
    ∧ committed s' = working s'
    ∧ commits s' = S (commits s)
    ∧ deleted_refresh_tokens result
        = length (select_where (refresh_expired now) (refresh_tokens (working s)))
    ∧ deleted_verification_tokens result
        = length (select_where (verification_expired now)
                    (verification_tokens (working s)))
    ∧ (deleted_refresh_tokens result + size (refresh_tokens (working s'))
         = size (refresh_tokens (working s)))%nat
    ∧ (deleted_verification_tokens result + size (verification_tokens (working s'))
         = size (verification_tokens (working s)))%nat
    ∧ (∀ k1 expired k2 live,
         refresh_tokens (working s) = <[k1 := expired]> {[k2 := live]} →
         k1 ≠ k2 →
         RefreshToken.expires_at expired < now →
         now ≤ RefreshToken.expires_at live →
         refresh_tokens (working s') = {[k2 := live]}
         ∧ deleted_refresh_tokens result = 1%nat).
Proof.
  do 2 eexists. split; [apply cleanup_expired_tokens_run|]. simpl.
  assert (∀ k r,
            filter (λ kr, refresh_expired now kr.1 kr.2 = false)
                   (refresh_tokens (working s)) !! k = Some r ↔
            refresh_tokens (working s) !! k = Some r
            ∧ ¬ RefreshToken.expires_at r < now) as Hrefresh.
  { intros k r. rewrite map_lookup_filter_Some. unfold refresh_expired. simpl.
    rewrite Z.ltb_ge. split; intros [? ?]; split; (done || lia). }
  assert (∀ k v,
            filter (λ kr, verification_expired now kr.1 kr.2 = false)
                   (verification_tokens (working s)) !! k = Some v ↔
            verification_tokens (working s) !! k = Some v
            ∧ ¬ VerificationToken.expires_at v < now) as Hverification.
  { intros k v. rewrite map_lookup_filter_Some. unfold verification_expired. simpl.
    rewrite Z.ltb_ge. split; intros [? ?]; split; (done || lia). }
  assert (∀ k1 expired k2 live,
            refresh_tokens (working s) = <[k1 := expired]> {[k2 := live]} →
            k1 ≠ k2 →
            RefreshToken.expires_at expired < now →
            now ≤ RefreshToken.expires_at live →
            filter (λ kr, refresh_expired now kr.1 kr.2 = false)
                   (refresh_tokens (working s)) = {[k2 := live]}) as Hkeep.
  { intros k1 expired k2 live Htable Hne Hexpired Hlive.
    apply map_eq. intros k. apply option_eq. intros r.
    rewrite Hrefresh, Htable. destruct (decide (k = k1)) as [->|Hk1].
    - rewrite lookup_insert_eq, lookup_singleton_ne by done.
      split; [intros [? ?]; simplify_eq; lia | done].
    - rewrite lookup_insert_ne by done. destruct (decide (k = k2)) as [->|Hk2].
      + rewrite lookup_singleton_eq. split; [by intros [? ?]|].
        intros; simplify_eq. split; [done|lia].
      + rewrite lookup_singleton_ne by done. split; [by intros [? ?] | done]. }
  split_and!; try done.
  - apply size_select_partition.
  - apply size_select_partition.
  - intros k1 expired k2 live Htable Hne Hexpired Hlive.
    pose proof (Hkeep _ _ _ _ Htable Hne Hexpired Hlive) as Hk.
    split; [done|].
    pose proof (size_select_partition (refresh_expired now)
                  (refresh_tokens (working s))) as Hsz.
    rewrite Hk, Htable in Hsz. rewrite Htable.
    rewrite map_size_insert_None in Hsz by (by rewrite lookup_singleton_ne).
    rewrite !map_size_singleton in Hsz. lia.
Qed.

(** ** Purging stale unverified users *)

Lemma set_users_set_users m m' d : set_users m' (set_users m d) = set_users m' d.
Proof. done. Qed.

Lemma set_users_id d : set_users (users d) d = d.
Proof. by destruct d. Qed.

Lemma rollback_with_working f s : rollback (with_working f s) = rollback s.
Proof. done. Qed.

(** A batch none of whose users a token row refers to is deleted. *)
Lemma run_delete_each (rows : list (Z * User.t)) (count : nat) s :
  Forall (λ row : Z * User.t, unreferenced row.1 (working s)) rows →
  delete_each rows count s
  = (inr (count + length rows)%nat,
     with_working (λ d, set_users (delete_keys rows.*1 (users d)) d) s).
Proof.
  revert count s. induction rows as [|[k u] rows IH]; intros count s Hall; simpl.
  - unfold ret. rewrite Nat.add_0_r. f_equal.
    unfold with_working, delete_keys. simpl. rewrite set_users_id. by destruct s.
  - apply Forall_cons in Hall as [Hk Hrest]. simpl in Hk.
    unfold bind, delete_user. rewrite bool_decide_eq_true_2 by done.
    rewrite IH; [|exact Hrest]. f_equal.
    f_equal. lia.
Qed.

(** A batch with a user that a token row refers to is refused as a whole. *)
Lemma run_delete_each_refused (rows : list (Z * User.t)) (count : nat) s :
  ¬ Forall (λ row : Z * User.t, unreferenced row.1 (working s)) rows →
  delete_each rows count s = (inl IntegrityError, rollback s).
Proof.
  revert count s. induction rows as [|[k u] rows IH]; intros count s Hsome; simpl.
  - destruct Hsome. apply Forall_nil_2.
  - unfold bind, delete_user.
    destruct (decide (unreferenced k (working s))) as [Hk|Hk].
    + rewrite bool_decide_eq_true_2 by done. rewrite IH; [done|].
      intros Hrest. apply Hsome. by apply Forall_cons.
    + by rewrite bool_decide_eq_false_2.
Qed.

Lemma select_where_nil_filter {R} (p : Z → R → bool) (table : gmap Z R) :
  select_where p table = [] → filter (λ kr, p kr.1 kr.2 = false) table = table.
Proof. intros Hnil. by rewrite <- delete_selected, Hnil. Qed.

(** After the deletion of a batch the rows that are not stale are the same,
    and the stale ones are fewer by the size of the batch. *)
Lemma delete_batch_effect {R} (p : Z → R → bool) (table : gmap Z R) n :
  let batch := take n (select_where p table) in
  let table' := delete_keys batch.*1 table in
  filter (λ kr, p kr.1 kr.2 = false) table' = filter (λ kr, p kr.1 kr.2 = false) table
  ∧ (length (select_where p table') + length batch
     = length (select_where p table))%nat.
Proof.
  intros batch table'.
  assert (∀ k, k ∈ batch.*1 → ∃ r, table !! k = Some r ∧ p k r = true) as Hbatch.
  { intros k Hk. apply list_elem_of_fmap in Hk as ([k' r] & -> & Hin).
    apply subseteq_take, elem_of_select_where in Hin. by exists r. }
  assert (filter (λ kr, p kr.1 kr.2 = false) table'
          = filter (λ kr, p kr.1 kr.2 = false) table) as Hkeep.
  { apply map_eq. intros k. apply option_eq. intros r.
    rewrite !map_lookup_filter_Some. unfold table'. rewrite lookup_delete_keys. simpl.
    destruct (decide (k ∈ batch.*1)) as [Hin|Hin]; [|done].
    destruct (Hbatch k Hin) as (r' & Hr' & Hp').
    split; [by intros [? ?]|]. intros [Hr Hp]. congruence. }
  split; [done|].
  pose proof (size_select_partition p table') as Hsz'.
  pose proof (size_select_partition p table) as Hsz.
  pose proof (size_delete_keys batch.*1 table) as Hdel.
  rewrite length_fmap in Hdel. fold table' in Hdel. rewrite Hkeep in Hsz'.
  rewrite <- Hdel in Hsz; [lia|apply NoDup_select_where_keys|].
  intros k Hk. destruct (Hbatch k Hk) as (r & Hr & _). by eexists.
Qed.

#[local] Arguments limit : simpl never.
#[local] Arguments select_where : simpl never.

(** One iteration of the loop. *)
Lemma delete_unverified_loop_step cutoff_time fuel s count :
  delete_unverified_loop (S fuel) cutoff_time count s
  = match limit batch_size
            (select_where (is_stale_unverified cutoff_time) (users (working s))) with
    | [] => (inr (Some count), s)
    | batch =>
        if bool_decide (Forall (λ row : Z * User.t, unreferenced row.1 (working s)) batch)
        then
          let d := set_users (delete_keys batch.*1 (users (working s))) (working s) in
          delete_unverified_loop fuel cutoff_time (count + length batch)%nat
            (mkSession d d (S (commits s)) (outbox s))
        else (inl IntegrityError, rollback s)
    end.
Proof.
  cbn [delete_unverified_loop]. unfold bind at 1, execute. cbv beta iota.
  destruct (limit batch_size _) as [|row batch]; [done|].
  unfold bind. destruct (bool_decide _) eqn:Hall.
  - apply bool_decide_eq_true in Hall. by rewrite run_delete_each.
  - apply bool_decide_eq_false in Hall. by rewrite run_delete_each_refused.
Qed.

(** The task around the loop: what the loop raises reaches [self.retry]. *)
Lemma delete_unverified_users_eq days_old now fuel s :
  delete_unverified_users days_old now fuel s
  = match delete_unverified_loop fuel (now - days days_old) 0%nat s with
    | (inl e, s') => (inl (Retry e 300), s')
    | (inr None, s') => (inr None, s')
    | (inr (Some n), s') => (inr (Some (mkDeleteResult "success" n)), s')
    end.
Proof.
  unfold delete_unverified_users, try_except, bind.
  by destruct (delete_unverified_loop _ _ _ _) as [[e|[n|]] s'].
Qed.

(** No token row refers to a stale unverified user. *)
Lemma no_token_of_stale_user_batch cutoff_time d n :
  no_token_of_stale_user cutoff_time d →
  Forall (λ row : Z * User.t, unreferenced row.1 d)
         (take n (select_where (is_stale_unverified cutoff_time) (users d))).
Proof.
  intros Hfree. apply Forall_forall. intros [k u] Hin.
  apply subseteq_take, elem_of_select_where in Hin as [Hk Hstale]. by apply (Hfree k u).
Qed.

Lemma delete_unverified_loop_spec cutoff_time fuel :
  ∀ s count,
    let stale := select_where (is_stale_unverified cutoff_time) (users (working s)) in
    no_token_of_stale_user cutoff_time (working s) →
    (length stale + batch_size ≤ batch_size * fuel)%nat →
    ∃ s' batches,
      delete_unverified_loop fuel cutoff_time count s
        = (inr (Some (count + length stale)%nat), s')
      ∧ working s'
        = set_users (filter (λ kr, is_stale_unverified cutoff_time kr.1 kr.2 = false)
                            (users (working s))) (working s)
      ∧ commits s' = (commits s + batches)%nat
      ∧ (length stale ≤ batch_size * batches < length stale + batch_size)%nat
      ∧ (batches = 0%nat → s' = s)
      ∧ (batches ≠ 0%nat → committed s' = working s')
      ∧ outbox s' = outbox s.
Proof.
  induction fuel as [|fuel IH]; intros s count stale Hfree Hfuel;
    unfold batch_size in Hfuel; [lia|].
  rewrite delete_unverified_loop_step. fold stale.
  pose proof (no_token_of_stale_user_batch cutoff_time (working s) batch_size Hfree)
    as Hbatch_free. fold stale in Hbatch_free.
  destruct (limit batch_size stale) as [|row batch] eqn:Hbatch.
  - unfold limit in Hbatch.
    apply take_nil_inv in Hbatch as [?|Hnil]; [done|].
    exists s, 0%nat. rewrite Hnil. simpl. rewrite Nat.add_0_r.
    split_and!; try done; try (unfold batch_size; lia).
    unfold stale in Hnil. rewrite (select_where_nil_filter _ _ Hnil).
    by rewrite set_users_id.
  - rewrite <- Hbatch. unfold limit in *. rewrite bool_decide_eq_true_2 by done.
    cbv zeta. unfold batch_size in *.
    destruct (delete_batch_effect (is_stale_unverified cutoff_time)
                (users (working s)) 100) as [Hkeep Hless].
    fold stale in Hless, Hkeep.
    assert (length (take 100 stale) = Nat.min 100 (length stale)) as Hlen
      by apply length_take.
    assert (length (take 100 stale) ≠ 0%nat) as Hpos by (by rewrite Hbatch).
    set (d2 := set_users _ (working s)).
    set (s2 := mkSession d2 d2 (S (commits s)) (outbox s)).
    destruct (IH s2 (count + length (take 100 stale))%nat)
      as (s' & b & Hrun & Hw & Hc & Hb & Hz & Hnz & Ho).
    { intros k u Hk Hst. cbn [s2 d2 working users set_users] in Hk.
      rewrite lookup_delete_keys in Hk. destruct (decide _); [done|].
      apply (Hfree k u Hk Hst). }
    { unfold batch_size. cbn [s2 d2 working users set_users]. lia. }
    exists s', (S b). rewrite Hrun.
    cbn [s2 d2 working users set_users commits outbox] in Hw, Hc, Hb, Ho.
    unfold batch_size in Hb.
    rewrite Hkeep in Hw.
    split_and!; try done; try (unfold batch_size; lia).
    + do 3 f_equal. cbn [s2 d2 working users set_users]. lia.
    + intros _. destruct (decide (b = 0%nat)) as [Hb0|Hb0].
      * by rewrite (Hz Hb0).
      * by apply Hnz.
Qed.

(** X20. Where no token row refers to a stale unverified user, as after
    the purge of expired tokens has removed the verification tokens of the
    signups, the purge of unverified users returns: with a cutoff in the
    range of [datetime] and enough fuel for its batches, it reports
    "success" and a count equal to the number of user rows with
    [is_verified = false] and [created_at] before [now - days_old];
    afterwards exactly those rows are gone, so a user that is verified or
    was created within the cutoff is still there, unchanged; the token
    tables are untouched. It commits once per non-empty batch, and the
    number of batches is the count divided by the batch size of 100,
    rounded up. *)
Theorem purge_stale_users_without_tokens s days_old now fuel :
  let cutoff_time := now - days days_old in
  let stale := select_where (is_stale_unverified cutoff_time) (users (working s)) in
  cutoff_in_range days_old now →
  no_token_of_stale_user cutoff_time (working s) →
  (length stale + batch_size ≤ batch_size * fuel)%nat →
  ∃ s' batches,
    delete_unverified_users days_old now fuel s
      = (inr (Some (mkDeleteResult "success" (length stale))), s')
    ∧ (∀ k u, users (working s') !! k = Some u ↔
              users (working s) !! k = Some u
              ∧ ¬ (User.is_verified u = false ∧ User.created_at u < cutoff_time))
    ∧ (∀ k u, users (working s) !! k = Some u →
              User.is_verified u = true ∨ cutoff_time ≤ User.created_at u →
              users (working s') !! k = Some u)
    ∧ (length stale + size (users (working s')) = size (users (working s)))%nat
    ∧ refresh_tokens (working s') = refresh_tokens (working s)
    ∧ verification_tokens (working s') = verification_tokens (working s)
    ∧ commits s' = (commits s + batches)%nat
    ∧ (length stale ≤ batch_size * batches < length stale + batch_size)%nat
    ∧ (batches ≠ 0%nat → committed s' = working s').
Proof.
  intros cutoff_time stale _ Hfree Hfuel.
  destruct (delete_unverified_loop_spec cutoff_time fuel s 0%nat Hfree Hfuel)
    as (s' & batches & Hrun & Hw & Hc & Hb & _ & Hnz & _).
  fold stale in Hrun, Hb.
  assert (∀ k u, users (working s') !! k = Some u ↔
                 users (working s) !! k = Some u
                 ∧ ¬ (User.is_verified u = false ∧ User.created_at u < cutoff_time))
    as Hrows.
  { intros k u. rewrite Hw. simpl. rewrite map_lookup_filter_Some.
    unfold is_stale_unverified. simpl.
    rewrite andb_false_iff, negb_false_iff, Z.ltb_ge.
    split; intros [Hk Hcond]; (split; [done|]).
    - intros [Hv Hlt]. destruct Hcond as [Htrue|Hge]; [congruence|lia].
    - destruct (User.is_verified u) eqn:Hv; [by left|]. right.
      destruct (decide (User.created_at u < cutoff_time)) as [Hlt|Hge]; [|lia].
      exfalso. by apply Hcond. }
  exists s', batches.
  rewrite delete_unverified_users_eq. fold cutoff_time. rewrite Hrun.
  destruct Hb as [Hb1 Hb2].
  split_and!; try done.
  - intros k u Hk Hkeep. apply Hrows. split; [done|].
    intros [Hv Hc']. destruct Hkeep; [congruence|lia].
  - rewrite Hw. simpl. apply size_select_partition.
  - by rewrite Hw.
  - by rewrite Hw.
Qed.

(** A stale unverified user that a token row refers to stops the purge:
    whatever the fuel, the loop never comes to its end, and where it
    raises, it raises [IntegrityError] and the user is still there. *)
Lemma delete_unverified_loop_refused cutoff_time k u fuel :
  ∀ s count,
    users (working s) !! k = Some u →
    users (committed s) !! k = Some u →
    is_stale_unverified cutoff_time k u = true →
    ¬ unreferenced k (working s) →
    match delete_unverified_loop fuel cutoff_time count s with
    | (inl e, s') =>
        e = IntegrityError ∧ users (committed s') !! k = Some u
        ∧ users (working s') !! k = Some u
    | (inr None, s') => True
    | (inr (Some _), _) => False
    end.
Proof.
  induction fuel as [|fuel IH]; intros s count Hk Hkc Hstale Href; [done|].
  rewrite delete_unverified_loop_step.
  destruct (limit batch_size _) as [|row batch] eqn:Hbatch.
  { unfold limit, batch_size in Hbatch. apply take_nil_inv in Hbatch as [?|Hnil]; [done|].
    assert ((k, u) ∈ select_where (is_stale_unverified cutoff_time) (users (working s)))
      as Hin by (by apply elem_of_select_where).
    rewrite Hnil in Hin. by apply elem_of_nil in Hin. }
  cbv zeta.
  destruct (decide (Forall (λ row : Z * User.t, unreferenced row.1 (working s))
                           (row :: batch))) as [Hall|Hall];
    [rewrite bool_decide_eq_true_2 by done | by rewrite bool_decide_eq_false_2].
  cbv zeta. apply IH; try done.
  - cbn [working users set_users]. rewrite lookup_delete_keys.
    destruct (decide (k ∈ (row :: batch).*1)) as [Hin|]; [|done].
    apply list_elem_of_fmap in Hin as ([k' u'] & -> & Hin).
    rewrite Forall_forall in Hall. by destruct (Href (Hall _ Hin)).
  - cbn [committed users set_users]. rewrite lookup_delete_keys.
    destruct (decide (k ∈ (row :: batch).*1)) as [Hin|]; [|done].
    apply list_elem_of_fmap in Hin as ([k' u'] & -> & Hin).
    rewrite Forall_forall in Hall. by destruct (Href (Hall _ Hin)).
Qed.

(** C8. The purge of stale unverified users does not delete a stale user
    that a token row still refers to: the foreign keys of the token tables
    have no [ON DELETE] rule and the job deletes the users only, so the
    DELETE is refused, [except Exception] hands the [IntegrityError] to
    [self.retry], and the job ends with that instead of a count. Whatever
    the fuel, the job never returns a result; with fuel for its batches it
    raises, and the user is still in the table. Every signup writes a
    verification token for the new user, so a stale user has such a row
    unless the purge of expired tokens has removed it first. *)
Theorem purge_refused_by_foreign_key s days_old now fuel k u :
  let cutoff_time := now - days days_old in
  let stale := select_where (is_stale_unverified cutoff_time) (users (working s)) in
  cutoff_in_range days_old now →
  committed s = working s →
  users (working s) !! k = Some u →
  User.is_verified u = false →
  User.created_at u < cutoff_time →
  ¬ unreferenced k (working s) →
  (∀ result s', delete_unverified_users days_old now fuel s ≠ (inr (Some result), s'))
  ∧ ((length stale + batch_size ≤ batch_size * fuel)%nat →
     ∃ s', delete_unverified_users days_old now fuel s
           = (inl (Retry IntegrityError 300), s')
           ∧ users (committed s') !! k = Some u).
Proof.
  intros cutoff_time stale _ Hc Hk Hv Hold Href.
  assert (is_stale_unverified cutoff_time k u = true) as Hstale.
  { unfold is_stale_unverified. rewrite Hv. simpl. by apply Z.ltb_lt. }
  assert (users (committed s) !! k = Some u) as Hkc by (by rewrite Hc).
  pose proof (delete_unverified_loop_refused cutoff_time k u fuel s 0%nat
                Hk Hkc Hstale Href) as Hloop.
  rewrite delete_unverified_users_eq. fold cutoff_time. split.
  - intros result s'.
    destruct (delete_unverified_loop fuel cutoff_time 0 s) as [[e|[n|]] s1]; done.
  - intros Hfuel.
    assert (∀ s0 count,
              (length (select_where (is_stale_unverified cutoff_time) (users (working s0)))
               + batch_size ≤ batch_size * fuel)%nat →
              (delete_unverified_loop fuel cutoff_time count s0).1 ≠ inr None) as Hends.
    { clear. induction fuel as [|fuel IH]; intros s0 count Hfuel;
        [unfold batch_size in Hfuel; lia|].
      rewrite delete_unverified_loop_step.
      destruct (limit batch_size _) as [|row batch] eqn:Hbatch; [done|].
      cbv zeta.
      destruct (decide (Forall (λ row : Z * User.t, unreferenced row.1 (working s0))
                               (row :: batch))) as [Hall|Hall];
        [rewrite bool_decide_eq_true_2 by done | by rewrite bool_decide_eq_false_2].
      cbv zeta. apply IH.
      cbn [working users set_users]. rewrite <- Hbatch. unfold limit, batch_size in *.
      destruct (delete_batch_effect (is_stale_unverified cutoff_time)
                  (users (working s0)) 100) as [_ Hless].
      assert (length (take 100 (select_where (is_stale_unverified cutoff_time)
                                  (users (working s0)))) ≠ 0%nat) as Hpos
        by (by rewrite Hbatch).
      rewrite length_take in Hless, Hpos. lia. }
    specialize (Hends s 0%nat Hfuel).
    destruct (delete_unverified_loop fuel cutoff_time 0 s) as [[e|[n|]] s1]; [|done..].
    destruct Hloop as (-> & Hkept & _). by exists s1.
Qed.

(** ** The steps of the store *)

Lemma delete_keys_subseteq {R} (ks : list Z) (table : gmap Z R) :
  delete_keys ks table ⊆ table.
Proof.
  apply map_subseteq_spec. intros k r. rewrite lookup_delete_keys.
  by destruct (decide (k ∈ ks)).
Qed.

Lemma stale_rows_removed_batch cutoff_time (table : gmap Z User.t) n :
  stale_rows_removed cutoff_time table
    (delete_keys (take n (select_where (is_stale_unverified cutoff_time) table)).*1 table).
Proof.
  split; [apply delete_keys_subseteq|].
  intros k u Hk Hfresh. rewrite lookup_delete_keys. rewrite decide_False; [done|].
  intros Hin. apply list_elem_of_fmap in Hin as ([k' u'] & -> & Hin).
  apply subseteq_take, elem_of_select_where in Hin as [Hk' Hstale].
  simpl in *. congruence.
Qed.

Lemma stale_rows_removed_trans cutoff_time (t1 t2 t3 : gmap Z User.t) :
  stale_rows_removed cutoff_time t1 t2 →
  stale_rows_removed cutoff_time t2 t3 →
  stale_rows_removed cutoff_time t1 t3.
Proof.
  intros [Hsub12 Hkeep12] [Hsub23 Hkeep23]. split; [by etrans|].
  intros k u Hk Hfresh. apply Hkeep23; [|done]. by apply Hkeep12.
Qed.

(** What a run of the loop makes durable, also one that is cut short or
    refused: some stale unverified users are gone, none of them one that a
    token row refers to, and nothing else has changed. *)
Lemma delete_unverified_loop_durable cutoff_time fuel :
  ∀ s count r s',
    delete_unverified_loop fuel cutoff_time count s = (r, s') →
    committed s = working s →
    committed s' = set_users (users (committed s')) (working s)
    ∧ stale_rows_removed cutoff_time (users (working s)) (users (committed s'))
    ∧ (∀ k, is_Some (users (working s) !! k) → users (committed s') !! k = None →
            unreferenced k (working s)).
Proof.
  assert (∀ s, committed s = working s →
               committed s = set_users (users (committed s)) (working s)
               ∧ stale_rows_removed cutoff_time (users (working s)) (users (committed s))
               ∧ (∀ k, is_Some (users (working s) !! k) → users (committed s) !! k = None →
                       unreferenced k (working s))) as Hsame.
  { intros s ->. rewrite set_users_id. split_and!; [done|by split|].
    intros k [u Hk] Hnone. congruence. }
  induction fuel as [|fuel IH]; intros s count r s' Hrun Hs.
  { change ((inr None, s) = (r, s')) in Hrun. simplify_eq. by apply Hsame. }
  revert Hrun. rewrite delete_unverified_loop_step.
  destruct (limit batch_size _) as [|row batch] eqn:Hbatch.
  { intros Hrun. simplify_eq. by apply Hsame. }
  cbv zeta.
  destruct (decide (Forall (λ row : Z * User.t, unreferenced row.1 (working s))
                           (row :: batch))) as [Hall|Hall];
    [rewrite bool_decide_eq_true_2 by done | rewrite bool_decide_eq_false_2 by done].
  - set (d2 := set_users _ (working s)).
    set (s2 := mkSession d2 d2 (S (commits s)) (outbox s)).
    intros Hrun. destruct (IH s2 _ _ _ Hrun eq_refl) as (Heq & Hstale & Hfree).
    pose proof (stale_rows_removed_batch cutoff_time (users (working s)) batch_size) as Hb.
    unfold limit in Hbatch. rewrite Hbatch in Hb.
    cbn [s2 d2 working users set_users] in Heq, Hstale, Hfree.
    split_and!.
    + by rewrite Heq at 1.
    + by apply (stale_rows_removed_trans _ _ _ _ Hb).
    + intros k Hk Hnone.
      destruct (decide (k ∈ (row :: batch).*1)) as [Hin|Hin].
      * apply list_elem_of_fmap in Hin as ([k' u'] & -> & Hin).
        rewrite Forall_forall in Hall. by apply (Hall _ Hin).
      * apply (Hfree k); [|done]. rewrite lookup_delete_keys. by rewrite decide_False.
  - intros Hrun. simplify_eq. cbn [rollback committed]. by apply Hsame.
Qed.

(** Every request and job run is one step of the store. *)
Lemma serve_step req now db : store_step now req db (serve req now db).
Proof.
  assert (∀ email, first (select_where (has_email email) (users db)) = None →
                   ∀ k u', users db !! k = Some u' → User.email u' ≠ email) as Hfresh.
  { intros email Hf k u' Hk He. rewrite first_select_None in Hf.
    specialize (Hf k u' Hk). unfold has_email in Hf.
    by apply bool_decide_eq_false in Hf. }
  destruct req.
  - unfold serve, signup, bind, execute, raise. simpl.
    destruct (first (select_where _ _)) eqn:Hf; simpl; [apply step_none|].
    destruct (EMAIL_VERIFICATION_ENABLED settings); simpl;
      by apply (step_signup now _ db (User.mk _ _ _ _ _ _ _ _)
                            (VerificationToken.mk _ _ _ _ _ _ _)); [apply Hfresh|..].
  - rewrite serve_login. apply step_none.
  - unfold serve, refresh_token, bind, execute, raise. simpl.
    destruct (refresh_token_claims _ _); simpl; [apply step_none|].
    destruct (first (select_where _ _)); simpl; apply step_none.
  - unfold serve, verify_email, bind, execute, get_user, raise. simpl.
    destruct (first (select_where _ _)) as [[j v]|] eqn:Hf; simpl; [|apply step_none].
    apply first_select_Some in Hf as [Hj Hlive].
    destruct (users db !! _) as [u|] eqn:Hu; simpl; [|apply step_none].
    by apply (step_verify now _ db token j v u).
  - unfold serve, AuthService_register_user, bind, execute, raise. simpl.
    destruct (first (select_where _ _)) eqn:Hf; simpl; [apply step_none|].
    destruct (EMAIL_VERIFICATION_ENABLED settings); simpl;
      by apply (step_signup now _ db (User.mk _ _ _ _ _ _ _ _)
                            (VerificationToken.mk _ _ _ _ _ _ _)); [apply Hfresh|..].
  - rewrite serve_create_tokens. apply step_none.
  - unfold serve, AuthService_verify_email, bind, execute, get_user. simpl.
    destruct (first (select_where _ _)) as [[j v]|] eqn:Hf; simpl; [|apply step_none].
    apply first_select_Some in Hf as [Hj Hlive].
    destruct (users db !! _) as [u|] eqn:Hu; simpl; [|apply step_none].
    by apply (step_verify now _ db token j v u).
  - unfold serve, AuthService_refresh_access_token, bind, execute. simpl.
    destruct (first (select_where _ _)); simpl; apply step_none.
  - unfold serve. rewrite delete_unverified_users_eq.
    destruct (delete_unverified_loop _ _ _ _) as [r s'] eqn:Hrun.
    apply delete_unverified_loop_durable in Hrun as (Heq & Hstale & Hfree); [|done].
    simpl in Heq, Hstale, Hfree.
    destruct r as [e|[n|]]; simpl; rewrite Heq; by eapply step_purge_users.
  - unfold serve. rewrite cleanup_expired_tokens_run. apply step_purge_tokens.
  - unfold serve, users_update_user, bind, execute, raise. simpl.
    destruct (first (select_where _ _)) as [[k u]|] eqn:Hf; simpl; [|apply step_none].
    apply first_select_Some in Hf as [Hk Hid]. apply bool_decide_eq_true in Hid as ->.
    destruct (_ && _); simpl; [apply step_none|].
    destruct (uu_password updates) as [[password|]|]; simpl;
      [|apply step_none|]; by apply (step_update_user now _ db user_id u).
  - unfold serve, users_delete_user, bind, execute, raise, delete_user. simpl.
    destruct (first (select_where _ _)) as [[k u]|] eqn:Hf; simpl; [|apply step_none].
    apply first_select_Some in Hf as [_ Hid]. apply bool_decide_eq_true in Hid as ->.
    destruct (decide (unreferenced user_id db)) as [Hk|Hk];
      [rewrite bool_decide_eq_true_2 by done | rewrite bool_decide_eq_false_2 by done];
      simpl; [by apply step_delete_user | apply step_none].
  - unfold serve, users_change_user_role, bind, execute, raise. simpl.
    destruct (first (select_where _ _)) as [[k u]|] eqn:Hf; simpl; [|apply step_none].
    apply first_select_Some in Hf as [Hk Hid]. apply bool_decide_eq_true in Hid as ->.
    by apply (step_update_user now _ db user_id u).
Qed.

(** ** Single use of a verification token *)

Lemma is_live_verification_token_true token now k v :
  is_live_verification_token token now k v = true ↔
  VerificationToken.token v = token
  ∧ VerificationToken.token_type v = "email_verification"
  ∧ VerificationToken.revoked v = false
  ∧ now < VerificationToken.expires_at v.
Proof.
  unfold is_live_verification_token.
  rewrite !andb_true_iff, !bool_decide_eq_true, negb_true_iff, Z.ltb_lt.
  split; [intros [[[? ?] ?] ?] | intros (? & ? & ? & ?)]; by repeat split.
Qed.

Lemma verify_email_no_live_row s now token :
  (∀ k v, verification_tokens (working s) !! k = Some v →
          VerificationToken.token v = token → VerificationToken.revoked v = true) →
  verify_email token now s
    = (inl (HTTPException 400 "Invalid or expired verification token" []), s)
  ∧ AuthService_verify_email token now s = (inr false, s).
Proof.
  intros Hrev.
  assert (first (select_where (is_live_verification_token token now)
                   (verification_tokens (working s))) = None) as Hf.
  { apply first_select_None. intros k v Hk.
    destruct (is_live_verification_token token now k v) eqn:Hlive; [|done].
    apply is_live_verification_token_true in Hlive as (Ht & _ & Hr & _).
    rewrite (Hrev _ _ Hk Ht) in Hr. done. }
  unfold verify_email, AuthService_verify_email, bind, execute. simpl. by rewrite Hf.
Qed.

(** What a successful verification leaves behind. *)
Lemma verify_email_success_inv s now token msg s' :
  verify_email token now s = (inr msg, s') →
  ∃ k v u,
    verification_tokens (working s) !! k = Some v
    ∧ is_live_verification_token token now k v = true
    ∧ users (working s) !! VerificationToken.user_id v = Some u
    ∧ AuthService_verify_email token now s = (inr true, s')
    ∧ verification_tokens (committed s')
      = <[k := VerificationToken.revoke now v]> (verification_tokens (working s))
    ∧ users (committed s')
      = <[VerificationToken.user_id v := User.set_is_verified true u]> (users (working s))
    ∧ refresh_tokens (committed s') = refresh_tokens (working s)
    ∧ working s' = committed s'.
Proof.
  unfold verify_email, AuthService_verify_email, bind, execute, get_user. simpl.
  destruct (first (select_where _ _)) as [[k v]|] eqn:Hf; simpl; [|intros; simplify_eq].
  apply first_select_Some in Hf as [Hk Hlive].
  destruct (users (working s) !! VerificationToken.user_id v) as [u|] eqn:Hu;
    simpl; [|intros; simplify_eq].
  unfold ret. intros; simplify_eq. exists k, v, u. by simpl.
Qed.

Lemma service_verify_email_success_inv s now token s' :
  AuthService_verify_email token now s = (inr true, s') →
  ∃ msg, verify_email token now s = (inr msg, s').
Proof.
  unfold verify_email, AuthService_verify_email, bind, execute, get_user. simpl.
  destruct (first (select_where _ _)) as [[k v]|]; simpl; [|intros; simplify_eq].
  destruct (users (working s) !! VerificationToken.user_id v); simpl;
    unfold ret; intros; simplify_eq. by eexists.
Qed.

Lemma consumed_all_revoked db now token msg s' :
  identifies_one_row token db →
  verify_email token now (open_session db) = (inr msg, s') →
  all_revoked token (committed s').
Proof.
  intros Hone Hrun.
  apply verify_email_success_inv in Hrun
    as (k & v & u & Hk & Hlive & _ & _ & Hvt & _). simpl in *.
  apply is_live_verification_token_true in Hlive as (Ht & _).
  intros k' v' Hk' Ht'. rewrite Hvt in Hk'.
  destruct (decide (k' = k)) as [->|Hne].
  - rewrite lookup_insert_eq in Hk'. by simplify_eq.
  - rewrite lookup_insert_ne in Hk' by done.
    by destruct (Hne (Hone _ _ _ _ Hk' Hk Ht' Ht)).
Qed.

Lemma serve_vt_change req now db :
  vt_change (drawn_uuid req) (verification_tokens db)
            (verification_tokens (serve req now db)).
Proof.
  destruct (serve_step req now db)
    as [|u v _ _ _ Hdrawn|token j v u Hj _ _|cutoff_time users' _ _|
        |k u u' _ _ _ _ _|k _ _];
    simpl.
  - apply vt_same.
  - by apply vt_added.
  - by apply vt_revoked.
  - apply vt_same.
  - apply vt_purged, map_filter_subseteq.
  - apply vt_same.
  - apply vt_same.
Qed.

Lemma vt_change_all_revoked drawn table table' token :
  vt_change drawn table table' →
  drawn ≠ Some token →
  (∀ k v, table !! k = Some v → VerificationToken.token v = token →
          VerificationToken.revoked v = true) →
  ∀ k v, table' !! k = Some v → VerificationToken.token v = token →
         VerificationToken.revoked v = true.
Proof.
  intros Hchange Hfresh Hrev k v.
  destruct Hchange as [|k0 v0 Hdrawn|k0 v0 at_ Hk0|table' Hsub].
  - apply Hrev.
  - destruct (decide (k = k0)) as [->|Hne].
    + rewrite lookup_insert_eq. intros; simplify_eq.
    + rewrite lookup_insert_ne by done. apply Hrev.
  - destruct (decide (k = k0)) as [->|Hne].
    + rewrite lookup_insert_eq. by intros; simplify_eq.
    + rewrite lookup_insert_ne by done. apply Hrev.
  - intros Hk. apply (Hrev k). by apply (lookup_weaken table' table).
Qed.

Lemma serve_all_revoked token req now db :
  drawn_uuid req ≠ Some token →
  all_revoked token db → all_revoked token (serve req now db).
Proof.
  intros Hfresh Hrev.
  exact (vt_change_all_revoked _ _ _ _ (serve_vt_change req now db) Hfresh Hrev).
Qed.

Lemma vt_change_unique_tokens drawn table table' :
  vt_change drawn table table' →
  (∀ k v, table !! k = Some v → drawn ≠ Some (VerificationToken.token v)) →
  unique_tokens table → unique_tokens table'.
Proof.
  intros Hchange Hfresh Huniq k1 k2 v1 v2.
  destruct Hchange as [|k v Hdrawn|k v at_ Hk|table' Hsub].
  - apply Huniq.
  - destruct (decide (k1 = k)) as [->|Hne1], (decide (k2 = k)) as [->|Hne2];
      rewrite ?lookup_insert_eq, ?lookup_insert_ne by done; try done.
    + intros ? Hk2 Ht; simplify_eq. destruct (Hfresh _ _ Hk2). congruence.
    + intros Hk1 ? Ht; simplify_eq. destruct (Hfresh _ _ Hk1). congruence.
    + apply Huniq.
  - destruct (decide (k1 = k)) as [->|Hne1], (decide (k2 = k)) as [->|Hne2];
      rewrite ?lookup_insert_eq, ?lookup_insert_ne by done; try done.
    + intros ? Hk2 Ht; simplify_eq. symmetry. by apply (Huniq _ _ _ _ Hk2 Hk).
    + intros Hk1 ? Ht; simplify_eq. by apply (Huniq _ _ _ _ Hk1 Hk).
    + apply Huniq.
  - intros Hk1 Hk2. apply (Huniq k1 k2 v1 v2); by apply (lookup_weaken table' table).
Qed.

Lemma vt_change_tokens_among drawn table table' issued :
  vt_change drawn table table' →
  tokens_among issued table →
  tokens_among (issued ++ option_list drawn) table'.
Proof.
  intros Hchange Hamong k v.
  destruct Hchange as [|k0 v0 Hdrawn|k0 v0 at_ Hk0|table' Hsub].
  - intros Hk. apply elem_of_app. left. by apply (Hamong k).
  - destruct (decide (k = k0)) as [->|Hne].
    + rewrite lookup_insert_eq. intros; simplify_eq.
      apply elem_of_app. right. simpl. left.
    + rewrite lookup_insert_ne by done. intros Hk.
      apply elem_of_app. left. by apply (Hamong k).
  - destruct (decide (k = k0)) as [->|Hne].
    + rewrite lookup_insert_eq. intros; simplify_eq.
      apply elem_of_app. left. by apply (Hamong k0 v0).
    + rewrite lookup_insert_ne by done. intros Hk.
      apply elem_of_app. left. by apply (Hamong k).
  - intros Hk. apply elem_of_app. left. apply (Hamong k).
    by apply (lookup_weaken table' table).
Qed.

(** On every store that the requests build from one without verification
    tokens, token values are unique as long as [uuid4] does not return the
    same value twice. *)
Lemma reachable_unique_tokens reqs db :
  verification_tokens db = ∅ →
  NoDup (drawn_uuids reqs) →
  unique_tokens (verification_tokens (serve_all reqs db))
  ∧ tokens_among (drawn_uuids reqs) (verification_tokens (serve_all reqs db)).
Proof.
  intros Hempty. induction reqs as [|[req now] reqs IH] using rev_ind; intros Hnodup.
  - simpl. rewrite Hempty. split; intros ? **; simplify_map_eq.
  - unfold serve_all, drawn_uuids in *. rewrite foldl_app, omap_app in *. simpl in *.
    apply NoDup_app in Hnodup as (Hnodup & Hdisj & _).
    destruct (IH Hnodup) as [Huniq Hamong].
    pose proof (serve_vt_change req now (foldl (λ acc r, serve r.1 r.2 acc) db reqs))
      as Hchange.
    split.
    + apply (vt_change_unique_tokens _ _ _ Hchange); [|done].
      intros k v Hk Hdrawn. apply (Hdisj _ (Hamong _ _ Hk)).
      rewrite Hdrawn. left.
    + replace (match drawn_uuid req with Some y => [y] | None => [] end)
        with (option_list (drawn_uuid req)) by by destruct (drawn_uuid req).
      by apply (vt_change_tokens_among _ _ _ _ Hchange).
Qed.

Lemma unique_tokens_identifies_one_row token db :
  unique_tokens (verification_tokens db) → identifies_one_row token db.
Proof. intros Huniq k1 k2 v1 v2 Hk1 Hk2 Ht1 Ht2. apply (Huniq _ _ _ _ Hk1 Hk2). congruence. Qed.

Lemma serve_all_all_revoked token reqs db :
  (∀ req, req ∈ reqs → drawn_uuid req.1 ≠ Some token) →
  all_revoked token db → all_revoked token (serve_all reqs db).
Proof.
  revert db. induction reqs as [|[req now] reqs IH]; intros db Hfresh Hrev; [done|].
  apply IH.
  - intros r Hr. apply Hfresh. by right.
  - apply serve_all_revoked; [|done]. apply (Hfresh (req, now)). left.
Qed.

(** C1. Once [verify_email] has consumed a token value, which identified
    one row of the table, every later call with that value fails: after any
    sequence of requests and job runs in which no signup draws the same
    value again, and at any time, the route raises 400 "Invalid or expired
    verification token" and [AuthService.verify_email] returns [False],
    without a write. This is, exception and message, the answer to a value
    that was never issued, so the two cases cannot be told apart. *)
Theorem consumed_token_is_never_accepted_again db now token s1 reqs :
  identifies_one_row token db →
  ((∃ msg, verify_email token now (open_session db) = (inr msg, s1))
   ∨ AuthService_verify_email token now (open_session db) = (inr true, s1)) →
  (∀ req, req ∈ reqs → drawn_uuid req.1 ≠ Some token) →
  let later := open_session (serve_all reqs (committed s1)) in
  ∀ now',
    verify_email token now' later
      = (inl (HTTPException 400 "Invalid or expired verification token" []), later)
    ∧ AuthService_verify_email token now' later = (inr false, later)
    ∧ (∀ s unknown,
         never_issued unknown (working s) →
         verify_email unknown now' s
           = (inl (HTTPException 400 "Invalid or expired verification token" []), s)
         ∧ AuthService_verify_email unknown now' s = (inr false, s)).
Proof.
  intros Hone Hconsumed Hfresh later now'.
  assert (∃ msg, verify_email token now (open_session db) = (inr msg, s1)) as [msg Hrun].
  { destruct Hconsumed as [?|Hsvc]; [done|].
    by apply service_verify_email_success_inv. }
  pose proof (consumed_all_revoked _ _ _ _ _ Hone Hrun) as Hrev.
  pose proof (serve_all_all_revoked _ _ _ Hfresh Hrev) as Hlater.
  destruct (verify_email_no_live_row later now' token) as [Hroute Hsvc]; [done|].
  split_and!; try done.
  intros s unknown Hnever. apply verify_email_no_live_row.
  intros k v Hk Ht. by destruct (Hnever k v Hk).
Qed.

(** ** Refresh-token rows over time *)

(** No request adds or rewrites a row of [refresh_tokens]: a row found after
    a request was there before, unchanged. *)
Lemma serve_refresh_rows req now db k r :
  refresh_tokens (serve req now db) !! k = Some r → refresh_tokens db !! k = Some r.
Proof.
  destruct (serve_step req now db)
    as [|u v _ _ _ _|token j v u _ _ _|cutoff_time users' _ _|
        |k' u u' _ _ _ _ _|k' _ _];
    simpl; try done.
  intros Hk. by apply map_lookup_filter_Some in Hk as [? _].
Qed.


(** * Further properties *)

(** ** Lifetime of issued tokens *)

Lemma create_token_eq data token_type expires_delta now :
  create_token data token_type expires_delta now
  = jwt.Compact (JWT_ALGORITHM settings)
      (issued_claims data token_type
         (now + match expires_delta with
                | Some delta =>
                    if negb (delta =? 0) then delta
                    else match token_type with
                         | ACCESS => minutes (ACCESS_TOKEN_EXPIRE_MINUTES settings)
                         | REFRESH => days (REFRESH_TOKEN_EXPIRE_DAYS settings)
                         end
                | None =>
                    match token_type with
                    | ACCESS => minutes (ACCESS_TOKEN_EXPIRE_MINUTES settings)
                    | REFRESH => days (REFRESH_TOKEN_EXPIRE_DAYS settings)
                    end
                end) now)
      (JWT_SECRET_KEY settings).
Proof.
  unfold create_token, jwt.encode, issued_claims.
  destruct expires_delta as [delta|]; [destruct (negb (delta =? 0))|];
    by destruct token_type.
Qed.

Lemma issued_claims_other_keys data token_type expire now k :
  k ∉ ["exp"; "iat"; "type"; "iss"] →
  issued_claims data token_type expire now !! k = data !! k.
Proof.
  intros Hk. unfold issued_claims.
  rewrite !lookup_insert_ne; [done|..]; intros <-; apply Hk;
    repeat first [by left | right].
Qed.

Lemma decode_issued_any data token_type expire issued now :
  (∀ c, data !! "sub" = Some c → ∃ sub, c = CStr sub) →
  jwt.decode (jwt.Compact (JWT_ALGORITHM settings)
                (issued_claims data token_type expire issued) (JWT_SECRET_KEY settings))
             (JWT_SECRET_KEY settings) [JWT_ALGORITHM settings] now
  = if expire <? now then inl jwt.ExpiredSignatureError
    else inr (issued_claims data token_type expire issued).
Proof.
  intros Hsub.
  destruct (issued_claims_lookup data token_type expire issued) as (He & Hi & _ & Hs).
  unfold jwt.decode, jwt.validate_iat, jwt.validate_exp, jwt.validate_sub.
  rewrite bool_decide_eq_true_2 by left.
  rewrite bool_decide_eq_true_2 by done. simpl.
  rewrite Hi, He, Hs. destruct (expire <? now); [done|].
  destruct (data !! "sub") as [c|] eqn:Hc; [|done].
  by destruct (Hsub c eq_refl) as [sub ->].
Qed.

(** X1. A token that the code issues passes [verify_token] exactly until
    its lifetime has elapsed. Every caller of [create_access_token] and
    [create_refresh_token] passes the one claim ["sub"], the decimal id of
    a user. For such a token of either type: up to and including
    [now + lifetime] the claims come back as signed, [exp], [iat], [type]
    and [iss] as set by the issuer and [sub] as given; after that
    [verify_token] raises 400 "Invalid token". The lifetime is the
    requested [expires_delta], and the default of the token type when none
    or [timedelta(0)] is requested. *)
Theorem issued_token_verifies_until_expiry user_id token_type expires_delta now now' :
  let lifetime :=
    match expires_delta with
    | Some delta =>
        if negb (delta =? 0) then delta
        else match token_type with
             | ACCESS => minutes (ACCESS_TOKEN_EXPIRE_MINUTES settings)
             | REFRESH => days (REFRESH_TOKEN_EXPIRE_DAYS settings)
             end
    | None =>
        match token_type with
        | ACCESS => minutes (ACCESS_TOKEN_EXPIRE_MINUTES settings)
        | REFRESH => days (REFRESH_TOKEN_EXPIRE_DAYS settings)
        end
    end in
  let token := create_token (sub_claim user_id) token_type expires_delta now in
  (now' ≤ now + lifetime →
   ∃ payload,
     verify_token token now' = inr payload
     ∧ payload = issued_claims (sub_claim user_id) token_type (now + lifetime) now
     ∧ payload !! "exp" = Some (CInt (now + lifetime))
     ∧ payload !! "iat" = Some (CInt now)
     ∧ payload !! "type" = Some (CStr (TokenType_value token_type))
     ∧ payload !! "iss" = Some (CStr (JWT_ISSUER settings))
     ∧ payload !! "sub" = Some (CStr (pretty user_id)))
  ∧ (now + lifetime < now' →
     verify_token token now' = inl (HTTPException 400 "Invalid token" [])).
Proof.
  intros lifetime token. unfold token, verify_token.
  rewrite create_token_eq. fold lifetime.
  rewrite decode_issued_any; [|intros c Hc; unfold sub_claim in Hc;
    apply lookup_singleton_Some in Hc as [_ <-]; by eexists].
  split.
  - intros Hle. replace (now + lifetime <? now') with false by lia.
    eexists. split; [done|].
    destruct (issued_claims_lookup (sub_claim user_id) token_type (now + lifetime) now)
      as (He & Hi & Ht & Hs).
    split_and!; [done|done|done|done| |].
    + unfold issued_claims. by rewrite !lookup_insert_ne, lookup_insert_eq by done.
    + rewrite Hs. apply lookup_singleton_eq.
  - intros Hlt. by replace (now + lifetime <? now') with true by lia.
Qed.

(** ** Cross-type rejection by the refresh route *)

(** X2. The refresh route answers 400 "Invalid refresh token" to every
    value whose type claim is not "refresh", whatever the store holds, and
    leaves the session untouched; an access token from
    [create_access_token] is such a value, so it never mints a new access
    token. *)
Theorem refresh_route_rejects_other_types s now r :
  jwt.unverified_claims r !! "type" ≠ Some (CStr "refresh") →
  refresh_token r now s = (inl (HTTPException 400 "Invalid refresh token" []), s)
  ∧ (∀ data issued,
       refresh_token (create_access_token data issued) now s
       = (inl (HTTPException 400 "Invalid refresh token" []), s)).
Proof.
  assert (∀ r', jwt.unverified_claims r' !! "type" ≠ Some (CStr "refresh") →
                refresh_token r' now s
                = (inl (HTTPException 400 "Invalid refresh token" []), s)) as Hreject.
  { intros r' Hty. unfold refresh_token, refresh_token_claims, verify_token.
    destruct (jwt.decode _ _ _ _) as [e|payload] eqn:Hdec; [done|].
    apply decode_inr_claims in Hdec as ->.
    by rewrite bool_decide_eq_false_2. }
  intros Hty. split; [by apply Hreject|].
  intros data issued. apply Hreject.
  rewrite create_access_token_eq. simpl.
  destruct (issued_claims_lookup data ACCESS
              (issued + minutes (ACCESS_TOKEN_EXPIRE_MINUTES settings)) issued)
    as (_ & _ & -> & _).
  simpl. discriminate.
Qed.

(** ** The access-token dependency *)

(** X3. [get_current_user] never returns a user: whatever the token, it
    ends in an exception. An access token that the code issues, with the
    decimal id of a user as its one claim, is no exception: until its
    expiry it passes the signature, expiry, subject and type checks and
    then fails in the construction of [TokenData]; like an expired one it
    is answered 401 "Could not validate credentials", with the
    [WWW-Authenticate] header that the scopes call for. *)
Theorem get_current_user_never_returns security_scopes token now :
  (∃ e, get_current_user security_scopes token now = inl e)
  ∧ ∀ user_id issued,
      token = create_access_token (sub_claim user_id) issued →
      (∃ header,
         get_current_user security_scopes token now
         = inl (HTTPException 401 "Could not validate credentials"
                              [("WWW-Authenticate", header)])
         ∧ (security_scopes = [] → header = "Bearer"))
      ∧ (now ≤ issued + minutes (ACCESS_TOKEN_EXPIRE_MINUTES settings) →
         ∃ payload, verify_token token now = inr payload
                    ∧ payload !! "type" = Some (CStr "access")
                    ∧ payload !! "sub" = Some (CStr (pretty user_id)))
      ∧ (issued + minutes (ACCESS_TOKEN_EXPIRE_MINUTES settings) < now →
         verify_token token now = inl (HTTPException 400 "Invalid token" [])).
Proof.
  split.
  { unfold get_current_user.
    destruct (jwt.decode _ _ _ _) as [?|payload]; [by eexists|].
    destruct (payload !! "sub"); [|by eexists].
    destruct (negb _); [by eexists|].
    unfold TokenData_init. rewrite lookup_insert_ne by done.
    rewrite lookup_singleton_ne by done. by eexists. }
  intros user_id issued ->.
  destruct (issued_claims_lookup (sub_claim user_id) ACCESS
              (issued + minutes (ACCESS_TOKEN_EXPIRE_MINUTES settings)) issued)
    as (_ & _ & Ht & Hs).
  assert (sub_claim user_id !! "sub" = Some (CStr (pretty user_id))) as Hsub
    by apply lookup_singleton_eq.
  unfold get_current_user, verify_token. rewrite create_access_token_eq.
  rewrite decode_issued_any; [|intros c Hc; rewrite Hsub in Hc; simplify_eq; by eexists].
  split_and!.
  - eexists. split.
    + destruct (_ <? now); [reflexivity|].
      rewrite Hs, Hsub, Ht. rewrite bool_decide_eq_true_2 by done. simpl.
      unfold TokenData_init. rewrite lookup_insert_ne by done.
      by rewrite lookup_singleton_ne by done.
    + by intros ->.
  - intros Hle.
    replace (issued + minutes (ACCESS_TOKEN_EXPIRE_MINUTES settings) <? now)
      with false by lia.
    eexists. split_and!; [done|done|]. by rewrite Hs.
  - intros Hlt.
    by replace (issued + minutes (ACCESS_TOKEN_EXPIRE_MINUTES settings) <? now)
      with true by lia.
Qed.

(** ** The table of users over time *)

Lemma set_is_verified_id u : User.is_verified u = true → User.set_is_verified true u = u.
Proof. destruct u; simpl. by intros ->. Qed.

Lemma serve_users_change req now db :
  users_change (users_id_seq db) (users db) (users (serve req now db))
  ∧ users_id_seq db ≤ users_id_seq (serve req now db).
Proof.
  destruct (serve_step req now db)
    as [|u v Hfresh Hu _ _|token j v u _ _ Hk|cutoff_time users' [Hsub Hkeep] _|
        |k u u' _ Hk He Hv Hc|k _ _]; simpl.
  - split; [apply users_same|lia].
  - split; [by apply users_added|lia].
  - split; [exact (users_verified _ _ _ u Hk)|lia].
  - split; [|lia]. apply users_purged; [done|]. intros k u Hk Hv. apply Hkeep; [done|].
    unfold is_stale_unverified. by rewrite Hv.
  - split; [apply users_same|lia].
  - split; [exact (users_updated _ _ k u u' Hk He Hv Hc)|lia].
  - split; [apply users_deleted|lia].
Qed.

(** X4. Emails stay unique: if no two user rows share an email, no
    sequence of signups, logins, refreshes, verifications, service calls,
    retention runs and updates, role changes and deletions of users
    produces two rows that do. The signup paths refuse an email that a row
    already carries, and nothing else writes an email. *)
Theorem emails_stay_unique reqs db :
  unique_emails (users db) → unique_emails (users (serve_all reqs db)).
Proof.
  revert db. induction reqs as [|[req now] reqs IH]; intros db Huniq; [done|].
  apply IH. clear IH. simpl.
  destruct (serve_users_change req now db) as [Hchange _].
  intros k1 k2 u1 u2.
  destruct Hchange as [|u Hfresh _|k u Hk|table' Hsub _|k u u' Hk Hemail _ _|k].
  - apply Huniq.
  - destruct (decide (k1 = users_id_seq db)) as [->|Hne1],
             (decide (k2 = users_id_seq db)) as [->|Hne2];
      rewrite ?lookup_insert_eq, ?lookup_insert_ne by done; try done.
    + intros ? Hk2 He; simplify_eq. by destruct (Hfresh _ _ Hk2).
    + intros Hk1 ? He; simplify_eq. by destruct (Hfresh _ _ Hk1).
    + apply Huniq.
  - assert (User.email (User.set_is_verified true u) = User.email u) as Hemail by done.
    destruct (decide (k1 = k)) as [->|Hne1], (decide (k2 = k)) as [->|Hne2];
      rewrite ?lookup_insert_eq, ?lookup_insert_ne by done; try done.
    + intros ? Hk2 He; simplify_eq. symmetry. apply (Huniq _ _ _ _ Hk2 Hk). congruence.
    + intros Hk1 ? He; simplify_eq. apply (Huniq _ _ _ _ Hk1 Hk). congruence.
    + apply Huniq.
  - intros Hk1 Hk2. apply (Huniq k1 k2 u1 u2); by apply (lookup_weaken table' (users db)).
  - destruct (decide (k1 = k)) as [->|Hne1], (decide (k2 = k)) as [->|Hne2];
      rewrite ?lookup_insert_eq, ?lookup_insert_ne by done; try done.
    + intros ? Hk2 He; simplify_eq. symmetry. apply (Huniq _ _ _ _ Hk2 Hk). congruence.
    + intros Hk1 ? He; simplify_eq. apply (Huniq _ _ _ _ Hk1 Hk). congruence.
    + apply Huniq.
  - intros Hk1 Hk2. apply lookup_delete_Some in Hk1 as [_ Hk1].
    apply lookup_delete_Some in Hk2 as [_ Hk2]. by apply (Huniq k1 k2 u1 u2).
Qed.

Lemma serve_verified_row req now db k u :
  users db !! k = Some u →
  User.is_verified u = true →
  k < users_id_seq db →
  (users (serve req now db) !! k = None ∧ req = ReqDeleteUser k)
  ∨ ∃ u', users (serve req now db) !! k = Some u'
          ∧ User.is_verified u' = true
          ∧ User.email u' = User.email u
          ∧ User.created_at u' = User.created_at u
          ∧ (addressed_user req ≠ Some k → u' = u).
Proof.
  intros Hk Hv Hseq.
  destruct (serve_step req now db)
    as [|u0 v _ _ _ _|token j v u0 _ _ Hu0|cutoff_time users' [_ Hkeep] _|
        |k' u0 u' Haddr Hk' He Hver Hc|k' ->]; simpl.
  - right. by exists u.
  - right. exists u. by rewrite lookup_insert_ne by lia.
  - right. exists u. destruct (decide (k = VerificationToken.user_id v)) as [->|Hne].
    + rewrite lookup_insert_eq. simplify_eq. by rewrite set_is_verified_id.
    + by rewrite lookup_insert_ne.
  - right. exists u. split; [|done]. apply Hkeep; [done|].
    unfold is_stale_unverified. by rewrite Hv.
  - right. by exists u.
  - right. destruct (decide (k = k')) as [->|Hne].
    + exists u'. rewrite lookup_insert_eq. simplify_eq.
      split_and!; [done|congruence|done|done|]. by intros [].
    + exists u. by rewrite lookup_insert_ne.
  - destruct (decide (k = k')) as [->|Hne].
    + left. by rewrite lookup_delete_eq.
    + right. exists u. by rewrite lookup_delete_ne.
Qed.

(** X5. A verified user stays verified. Once [is_verified] is true and
    the key lies below the sequence of the table, then after every
    sequence of signups, logins, refreshes, verifications, service calls,
    retention runs and updates, role changes and deletions of users: the
    row is either still there, verified and with the email and
    [created_at] that it had, or the sequence holds a deletion of this user
    by the users router; and when no request to the users router names the
    user, the row is unchanged. In particular [is_verified] never reverts
    and the purge of unverified users never takes a verified one. *)
Theorem verified_user_stays_verified reqs db k u :
  users db !! k = Some u →
  User.is_verified u = true →
  k < users_id_seq db →
  ((∃ now, (ReqDeleteUser k, now) ∈ reqs)
   ∨ ∃ u', users (serve_all reqs db) !! k = Some u'
           ∧ User.is_verified u' = true
           ∧ User.email u' = User.email u
           ∧ User.created_at u' = User.created_at u)
  ∧ ((∀ req now, (req, now) ∈ reqs → addressed_user req ≠ Some k) →
     users (serve_all reqs db) !! k = Some u).
Proof.
  revert db u. induction reqs as [|[req now] reqs IH]; intros db u Hk Hv Hseq.
  { split; [right; by exists u|done]. }
  simpl. destruct (serve_users_change req now db) as [_ Hmono].
  destruct (serve_verified_row req now db k u Hk Hv Hseq)
    as [[_ ->]|(u' & Hk' & Hv' & He & Hc & Hsame)].
  - split; [left; exists now; apply list_elem_of_here|].
    intros Hnone. by destruct (Hnone (ReqDeleteUser k) now (list_elem_of_here _ _)).
  - destruct (IH _ u' Hk' Hv' ltac:(lia)) as [Hrow Hfrozen]. split.
    + destruct Hrow as [[now' Hin]|(u'' & ? & ? & ? & ?)].
      * left. exists now'. by apply list_elem_of_further.
      * right. exists u''. split_and!; [done|done|congruence|congruence].
    + intros Hnone.
      assert (u' = u) as -> by (apply Hsame, (Hnone req now), list_elem_of_here).
      apply Hfrozen. intros req' now' Hin. apply (Hnone req' now').
      by apply list_elem_of_further.
Qed.

(** ** Routes and service methods *)

(** X6. Email verification is all or nothing. When the route succeeds it
    has set [is_verified] of the owner, revoked the matched token, set
    [revoked_at] on it, left every other row of every table as it was, and
    committed exactly once, so that both writes become durable together;
    when it raises, the session is untouched. [AuthService.verify_email]
    leaves the same session in every case, never raises, and returns
    [True] exactly when the route succeeds. *)
Theorem verify_email_all_or_nothing token now s :
  (∀ msg s', verify_email token now s = (inr msg, s') →
     ∃ k v u,
       verification_tokens (working s) !! k = Some v
       ∧ is_live_verification_token token now k v = true
       ∧ users (working s) !! VerificationToken.user_id v = Some u
       ∧ working s'
         = mkDB (<[VerificationToken.user_id v := User.set_is_verified true u]>
                   (users (working s)))
                (users_id_seq (working s))
                (refresh_tokens (working s)) (refresh_tokens_id_seq (working s))
                (<[k := VerificationToken.revoke now v]> (verification_tokens (working s)))
                (verification_tokens_id_seq (working s))
       ∧ committed s' = working s'
       ∧ commits s' = S (commits s)
       ∧ outbox s' = outbox s)
  ∧ (∀ e s', verify_email token now s = (inl e, s') → s' = s)
  ∧ (verify_email token now s).2 = (AuthService_verify_email token now s).2
  ∧ (∃ b, (AuthService_verify_email token now s).1 = inr b
          ∧ (b = true ↔ ∃ msg, (verify_email token now s).1 = inr msg)).
Proof.
  unfold verify_email, AuthService_verify_email, bind, execute, get_user, raise, ret.
  simpl.
  destruct (first (select_where _ _)) as [[k v]|] eqn:Hf; simpl.
  - apply first_select_Some in Hf as [Hk Hlive].
    destruct (users (working s) !! VerificationToken.user_id v) as [u|] eqn:Hu; simpl.
    + split_and!; try done.
      * intros msg s' Heq. simplify_eq. exists k, v, u. by split_and!.
      * exists true. split; [done|]. split; [by eexists | done].
    + split_and!; try done.
      * intros e s' Heq. by simplify_eq.
      * exists false. split; [done|]. split; [done | by intros [? ?]].
  - split_and!; try done.
    + intros e s' Heq. by simplify_eq.
    + exists false. split; [done|]. split; [done | by intros [? ?]].
Qed.

(** X7. The login route is [AuthService.authenticate_user] followed by the
    verification gate and [AuthService.create_tokens]: on every input the
    two give the same response and the same session. *)
Theorem login_is_authenticate_then_create_tokens credentials now s :
  login credentials now s
  = (let* user := AuthService_authenticate_user (li_email credentials)
                                                (li_password credentials) in
     match user with
     | None => raise (HTTPException 400 "Incorrect email or password" [])
     | Some user =>
         if negb (User.is_verified user.2) then
           raise (HTTPException 400 "Email not verified" [])
         else AuthService_create_tokens user now
     end) s.
Proof.
  unfold login, AuthService_authenticate_user, AuthService_create_tokens, bind, execute,
    lift.
  simpl. destruct (first (select_where _ _)) as [[k u]|]; simpl; [|done].
  destruct (verify_password (li_password credentials) (User.hashed_password u))
    as [name|[|]]; simpl; [done| |done].
  by destruct (negb (User.is_verified u)).
Qed.

(** X8. The signup route stores the role that the request carries, ADMIN
    included, while [AuthService.register_user] ignores it and stores USER:
    the service leaves the session that the route leaves for the same data
    with role USER, and succeeds exactly when the route does. *)
Theorem signup_stores_requested_role user_in uuid4 now s :
  (AuthService_register_user user_in uuid4 now s).2
  = (signup (mkUserCreate (uc_email user_in) (uc_first_name user_in)
                          (uc_last_name user_in) (uc_password user_in) USER)
            uuid4 now s).2
  ∧ ((∃ r, (AuthService_register_user user_in uuid4 now s).1 = inr r)
     ↔ ∃ msg, (signup user_in uuid4 now s).1 = inr msg)
  ∧ (∀ msg s', signup user_in uuid4 now s = (inr msg, s') →
       ∃ u, users (committed s') !! users_id_seq (working s) = Some u
            ∧ User.role u = uc_role user_in
            ∧ User.email u = uc_email user_in
            ∧ User.hashed_password u = get_password_hash (uc_password user_in)
            ∧ User.is_verified u = false).
Proof.
  unfold signup, AuthService_register_user, bind, execute, raise, ret. simpl.
  destruct (first (select_where _ _)); simpl.
  - split; [done|]. split; [split; intros [? ?]; done|]. intros; simplify_eq.
  - destruct (EMAIL_VERIFICATION_ENABLED settings); simpl;
      (split; [done|]); (split; [split; intros _; by eexists|]);
      intros msg s' Heq; simplify_eq; simpl; eexists;
      rewrite lookup_insert_eq; by split_and!.
Qed.

Lemma first_has_email email (table : gmap Z User.t) :
  (∃ k u, table !! k = Some u ∧ User.email u = email)
  ↔ is_Some (first (select_where (has_email email) table)).
Proof.
  split.
  - intros (k & u & Hk & He). apply (first_select_is_Some _ _ k u Hk).
    by apply bool_decide_eq_true.
  - intros [[k u] Hf]. apply first_select_Some in Hf as [Hk He].
    exists k, u. split; [done|]. by apply bool_decide_eq_true in He.
Qed.

(** X9. A signup is refused exactly while a user row carries its email.
    Through the route and through [AuthService.register_user], with any
    password, names, role and uuid and at any time: the answer is 400
    "Email already registered", with nothing written, if and only if a row
    of the table of users has the email at that moment. A signup that
    returns found no such row and has committed one under the next key, so
    that on the session it leaves a signup with the same email is refused.
    A row that a later purge or deletion removes frees its email again. *)
Theorem signup_refused_while_email_is_registered user_in uuid4 now s :
  ((∃ k u, users (working s) !! k = Some u ∧ User.email u = uc_email user_in)
   ↔ signup user_in uuid4 now s
     = (inl (HTTPException 400 "Email already registered" []), s))
  ∧ ((∃ k u, users (working s) !! k = Some u ∧ User.email u = uc_email user_in)
     ↔ AuthService_register_user user_in uuid4 now s
       = (inl (HTTPException 400 "Email already registered" []), s))
  ∧ (∀ s1,
       (∃ msg, signup user_in uuid4 now s = (inr msg, s1))
       ∨ (∃ r, AuthService_register_user user_in uuid4 now s = (inr r, s1)) →
       (∀ k u, users (working s) !! k = Some u → User.email u ≠ uc_email user_in)
       ∧ (∃ u, users (committed s1) !! users_id_seq (working s) = Some u
               ∧ User.email u = uc_email user_in)
       ∧ ∀ user_in' uuid4' now',
           uc_email user_in' = uc_email user_in →
           signup user_in' uuid4' now' s1
           = (inl (HTTPException 400 "Email already registered" []), s1)
           ∧ AuthService_register_user user_in' uuid4' now' s1
             = (inl (HTTPException 400 "Email already registered" []), s1)).
Proof.
  rewrite first_has_email.
  assert (∀ s0 user_in0 uuid0 now0,
            is_Some (first (select_where (has_email (uc_email user_in0))
                                         (users (working s0)))) →
            signup user_in0 uuid0 now0 s0
            = (inl (HTTPException 400 "Email already registered" []), s0)
            ∧ AuthService_register_user user_in0 uuid0 now0 s0
              = (inl (HTTPException 400 "Email already registered" []), s0)) as Hrefused.
  { intros s0 user_in0 uuid0 now0 [row Hrow].
    unfold signup, AuthService_register_user, bind, execute, raise. simpl.
    by rewrite Hrow. }
  split_and!.
  - split; [by apply Hrefused|].
    unfold signup, bind, execute, raise, ret. simpl.
    destruct (first (select_where _ _)); simpl; [done|].
    by destruct (EMAIL_VERIFICATION_ENABLED settings).
  - split; [by apply Hrefused|].
    unfold AuthService_register_user, bind, execute, raise, ret. simpl.
    destruct (first (select_where _ _)); simpl; [done|].
    by destruct (EMAIL_VERIFICATION_ENABLED settings).
  - intros s1 Hdone.
    assert (first (select_where (has_email (uc_email user_in)) (users (working s))) = None
            ∧ ∃ u, users (working s1) !! users_id_seq (working s) = Some u
                   ∧ users (committed s1) !! users_id_seq (working s) = Some u
                   ∧ User.email u = uc_email user_in) as (Hfree & u & Hu & Huc & He).
    { destruct Hdone as [[msg Hrun]|[r Hrun]]; revert Hrun;
        unfold signup, AuthService_register_user, bind, execute, raise, ret; simpl;
        (destruct (first (select_where _ _)); simpl; [intros; simplify_eq|]);
        destruct (EMAIL_VERIFICATION_ENABLED settings); simpl; intros; simplify_eq;
        simpl; (split; [done|]); eexists; by rewrite lookup_insert_eq. }
    split_and!.
    + intros k u' Hk Heq. rewrite first_select_None in Hfree.
      specialize (Hfree k u' Hk). apply bool_decide_eq_false in Hfree. by destruct Hfree.
    + by exists u.
    + intros user_in' uuid4' now' Hemail. apply Hrefused.
      apply (first_select_is_Some _ _ _ u Hu), bool_decide_eq_true. congruence.
Qed.

(** ** From signup to refresh *)

Lemma first_select_the_only {R} (p : Z → R → bool) (table : gmap Z R) k r :
  table !! k = Some r → p k r = true →
  (∀ k' r', table !! k' = Some r' → p k' r' = true → k' = k) →
  first (select_where p table) = Some (k, r).
Proof.
  intros Hk Hp Honly.
  destruct (first_select_is_Some p table k r Hk Hp) as [[k' r'] Hf].
  rewrite Hf. apply first_select_Some in Hf as [Hk' Hp'].
  pose proof (Honly _ _ Hk' Hp') as ->. congruence.
Qed.

(** X10. The path from signup to login on any store. After a signup that
    has returned, with a uuid that no verification token carried: until
    the verification every login with the right password is answered 400
    "Email not verified"; the verification with the uuid succeeds within 15
    minutes of the signup; and the login that follows, with the right
    password and at any time, ends in the IntegrityError of the
    refresh-token row (status 500) with nothing written: no token pair is
    returned and the table of refresh tokens is as it was before the
    signup. *)
Theorem signup_verify_then_login_raises s user_in uuid4 t0 t1 msg s1 :
  signup user_in uuid4 t0 s = (inr msg, s1) →
  (∀ k v, verification_tokens (working s) !! k = Some v →
          VerificationToken.token v ≠ uuid4) →
  verify_password (uc_password user_in) (get_password_hash (uc_password user_in))
  = inr true →
  t1 < t0 + minutes 15 →
  let credentials := mkLoginInput (uc_email user_in) (uc_password user_in) in
  ∃ s2,
    (∀ t, login credentials t s1
          = (inl (HTTPException 400 "Email not verified" []), s1))
    ∧ verify_email uuid4 t1 s1 = (inr "Email verified successfully", s2)
    ∧ (∀ t, login credentials t s2 = (inl IntegrityError, s2))
    ∧ status_of IntegrityError = 500
    ∧ refresh_tokens (committed s2) = refresh_tokens (working s)
    ∧ refresh_tokens (working s2) = refresh_tokens (working s).
Proof.
  intros Hsignup Huuid Hpw Ht1 credentials.
  set (user_id := users_id_seq (working s)).
  set (email := uc_email user_in) in *.
  set (new_user := User.mk email (get_password_hash (uc_password user_in))
                           (uc_first_name user_in) (uc_last_name user_in)
                           false (uc_role user_in) t0 t0).
  set (vseq := verification_tokens_id_seq (working s)).
  set (vrow := VerificationToken.mk user_id uuid4 "email_verification"
                                    (t0 + minutes 15) false false None).
  set (d1 := mkDB (<[user_id := new_user]> (users (working s))) (user_id + 1)
                  (refresh_tokens (working s)) (refresh_tokens_id_seq (working s))
                  (<[vseq := vrow]> (verification_tokens (working s))) (vseq + 1)).
  set (box := if EMAIL_VERIFICATION_ENABLED settings
              then (outbox s ++ [mkEmail email "Verify your email"
                                         "email_verification.html"
                                         (FRONTEND_URL settings +:+ "/verify-email?token="
                                                        +:+ uuid4)])%list
              else outbox s).
  assert (first (select_where (has_email email) (users (working s))) = None
          ∧ s1 = mkSession d1 d1 (S (commits s)) box) as [Hf0 ->].
  { revert Hsignup. unfold signup, bind, execute, raise, ret. simpl. fold email.
    destruct (first (select_where (has_email email) (users (working s)))); simpl;
      [intros; simplify_eq|].
    unfold box. destruct (EMAIL_VERIFICATION_ENABLED settings); simpl;
      intros; by simplify_eq. }
  assert (∀ k u, users (working s) !! k = Some u → User.email u ≠ email) as Hemail.
  { intros k u Hk Heq. rewrite first_select_None in Hf0.
    specialize (Hf0 k u Hk). apply bool_decide_eq_false in Hf0. by destruct Hf0. }
  set (s1 := mkSession d1 d1 (S (commits s)) box).
  set (d2 := mkDB (<[user_id := User.set_is_verified true new_user]> (users d1))
                  (user_id + 1) (refresh_tokens d1) (refresh_tokens_id_seq d1)
                  (<[vseq := VerificationToken.revoke t1 vrow]> (verification_tokens d1))
                  (vseq + 1)).
  set (s2 := mkSession d2 d2 (S (S (commits s))) box).
  exists s2.
  assert (∀ table : gmap Z User.t,
            (∀ k u, table !! k = Some u → k ≠ user_id → User.email u ≠ email) →
            ∀ u, User.email u = email →
                 first (select_where (has_email email) (<[user_id := u]> table))
                 = Some (user_id, u)) as Hlookup.
  { intros table Hothers u Hu. apply first_select_the_only.
    - apply lookup_insert_eq.
    - by apply bool_decide_eq_true.
    - intros k' u' Hk' Hp'. apply bool_decide_eq_true in Hp'.
      destruct (decide (k' = user_id)) as [|Hne]; [done|].
      rewrite lookup_insert_ne in Hk' by done. by destruct (Hothers _ _ Hk' Hne). }
  split_and!; try done.
  - intros t. unfold login, bind, execute, raise, lift. simpl.
    rewrite (Hlookup (users (working s))); [|by intros k u Hk _; apply (Hemail k)|done].
    simpl. by rewrite Hpw.
  - unfold verify_email, bind, execute, get_user, ret. simpl.
    rewrite (first_select_the_only _ _ vseq vrow).
    + simpl. rewrite lookup_insert_eq. done.
    + apply lookup_insert_eq.
    + apply is_live_verification_token_true. split_and!; try done.
    + intros k' v' Hk' Hlive. apply is_live_verification_token_true in Hlive as [Htok _].
      destruct (decide (k' = vseq)) as [|Hne]; [done|].
      rewrite lookup_insert_ne in Hk' by done. by destruct (Huuid _ _ Hk').
  - intros t.
    rewrite (login_valid_credentials s2 t credentials user_id
               (User.set_is_verified true new_user)); [done| |done|done].
    simpl. apply (Hlookup (<[user_id := new_user]> (users (working s)))); [|done].
    intros k u Hk Hne. rewrite lookup_insert_ne in Hk by done. by apply (Hemail k).
Qed.

(** ** The retention jobs and the tokens in use *)

Lemma first_select_filter_None {R} (p keep : Z → R → bool) (table : gmap Z R) :
  (∀ k r, p k r = true → keep k r = true) →
  first (select_where p (filter (λ kr, keep kr.1 kr.2 = true) table)) = None
  ↔ first (select_where p table) = None.
Proof.
  intros Hkeep. rewrite !first_select_None. split.
  - intros Hnone k r Hk. destruct (p k r) eqn:Hp; [|done].
    rewrite <- (Hnone k r); [done|]. apply map_lookup_filter_Some. split; [done|].
    simpl. by apply Hkeep.
  - intros Hnone k r Hk. apply map_lookup_filter_Some in Hk as [Hk _]. by apply Hnone.
Qed.

Lemma cleanup_expired_tokens_tables s now :
  refresh_tokens (working (cleanup_expired_tokens now s).2)
  = filter (λ kr, negb (refresh_expired now kr.1 kr.2) = true) (refresh_tokens (working s))
  ∧ verification_tokens (working (cleanup_expired_tokens now s).2)
    = filter (λ kr, negb (verification_expired now kr.1 kr.2) = true)
             (verification_tokens (working s))
  ∧ users (working (cleanup_expired_tokens now s).2) = users (working s).
Proof.
  rewrite cleanup_expired_tokens_run. simpl. split_and!; try done;
    apply map_filter_ext; intros k r _; simpl; by rewrite negb_true_iff.
Qed.

(** X11. The purge of expired tokens never takes a token that is still in
    use and never revives one: for a purge at or before [now], the refresh
    route succeeds on the purged store exactly when it succeeds on the
    store as it was, and the verification route answers 400 "Invalid or
    expired verification token" on the purged store exactly when it does
    on the store as it was. *)
Theorem purge_spares_tokens_in_use s purge_time now r token :
  purge_time ≤ now →
  let purged := (cleanup_expired_tokens purge_time s).2 in
  ((∃ tok, (refresh_token r now purged).1 = inr tok)
   ↔ ∃ tok, (refresh_token r now s).1 = inr tok)
  ∧ ((verify_email token now purged).1
       = inl (HTTPException 400 "Invalid or expired verification token" [])
     ↔ (verify_email token now s).1
       = inl (HTTPException 400 "Invalid or expired verification token" [])).
Proof.
  intros Hle purged.
  destruct (cleanup_expired_tokens_tables s purge_time) as (Hr & Hv & Hu).
  fold purged in Hr, Hv, Hu.
  assert (first (select_where (is_live_refresh_token r now)
                              (refresh_tokens (working purged))) = None
          ↔ first (select_where (is_live_refresh_token r now)
                                (refresh_tokens (working s))) = None) as Hrefresh.
  { rewrite Hr.
    apply (first_select_filter_None _ (λ k row, negb (refresh_expired purge_time k row))).
    intros k row Hlive.
    apply is_live_refresh_token_true in Hlive as (_ & _ & Hexp).
    unfold refresh_expired. apply negb_true_iff, Z.ltb_ge. lia. }
  assert (first (select_where (is_live_verification_token token now)
                              (verification_tokens (working purged))) = None
          ↔ first (select_where (is_live_verification_token token now)
                                (verification_tokens (working s))) = None) as Hverify.
  { rewrite Hv.
    apply (first_select_filter_None _
             (λ k row, negb (verification_expired purge_time k row))).
    intros k row Hlive.
    apply is_live_verification_token_true in Hlive as (_ & _ & _ & Hexp).
    unfold verification_expired. apply negb_true_iff, Z.ltb_ge. lia. }
  split.
  - unfold refresh_token, bind, execute, raise, ret.
    destruct (refresh_token_claims r now); simpl; [by split; intros [? ?]|].
    destruct (first (select_where _ (refresh_tokens (working purged)))) eqn:Hp,
             (first (select_where _ (refresh_tokens (working s)))) eqn:Hs; simpl.
    + split; intros _; by eexists.
    + rewrite ?Hp, ?Hs in Hrefresh. discriminate (proj2 Hrefresh eq_refl).
    + rewrite ?Hp, ?Hs in Hrefresh. discriminate (proj1 Hrefresh eq_refl).
    + split; intros [? ?]; done.
  - unfold verify_email, bind, execute, get_user, raise, ret. simpl.
    destruct (first (select_where _ (verification_tokens (working purged))))
      as [[k v]|] eqn:Hp,
      (first (select_where _ (verification_tokens (working s)))) as [[k' v']|] eqn:Hs;
      simpl.
    + destruct (users (working purged) !! _), (users (working s) !! _); simpl;
        split; intros; simplify_eq.
    + rewrite ?Hp, ?Hs in Hverify. discriminate (proj2 Hverify eq_refl).
    + rewrite ?Hp, ?Hs in Hverify. discriminate (proj1 Hverify eq_refl).
    + done.
Qed.

Lemma select_where_filter_nil {R} (p : Z → R → bool) (table : gmap Z R) :
  select_where p (filter (λ kr, p kr.1 kr.2 = false) table) = [].
Proof.
  destruct (select_where _ _) as [|[k r] l] eqn:Hsel; [done|].
  assert ((k, r) ∈ select_where p (filter (λ kr, p kr.1 kr.2 = false) table)) as Hin
    by (rewrite Hsel; left).
  apply elem_of_select_where in Hin as [Hk Hp].
  apply map_lookup_filter_Some in Hk as [_ Hnot]. simpl in Hnot. congruence.
Qed.

(** X12. The purge of expired tokens is idempotent: run again at the same
    instant, it finds nothing, reports zero deleted refresh tokens and zero
    deleted verification tokens, and leaves all three tables as the first
    run left them; it still commits. *)
Theorem purge_expired_tokens_again s now :
  let s1 := (cleanup_expired_tokens now s).2 in
  cleanup_expired_tokens now s1
  = (inr (mkCleanupResult "success" 0 0),
     mkSession (working s1) (working s1) (S (commits s1)) (outbox s1)).
Proof.
  intros s1. unfold s1. rewrite !cleanup_expired_tokens_run. simpl.
  rewrite !select_where_filter_nil. simpl.
  rewrite !map_filter_filter.
  f_equal. f_equal; f_equal; apply map_filter_ext; intros k r _; simpl; tauto.
Qed.

Lemma delete_unverified_loop_leaves_none cutoff_time fuel :
  ∀ s count n s',
    delete_unverified_loop fuel cutoff_time count s = (inr (Some n), s') →
    select_where (is_stale_unverified cutoff_time) (users (working s')) = [].
Proof.
  induction fuel as [|fuel IH]; intros s count n s' Hrun.
  { cbn [delete_unverified_loop] in Hrun. unfold ret in Hrun. simplify_eq. }
  revert Hrun. rewrite delete_unverified_loop_step.
  destruct (limit batch_size _) as [|row batch] eqn:Hbatch.
  { intros Hrun. simplify_eq. unfold limit, batch_size in Hbatch.
    by apply take_nil_inv in Hbatch as [?|?]. }
  cbv zeta. case_bool_decide; [|intros; simplify_eq]. apply IH.
Qed.

(** X13. After a run of the purge of stale unverified users that came to
    its end, a further run with the same or an earlier cutoff deletes
    nothing: with fuel for one iteration it returns "success" with
    [deleted_count = 0] and touches nothing, not even with a commit. *)
Theorem purge_stale_users_again s days_old now fuel result s' :
  delete_unverified_users days_old now fuel s = (inr (Some result), s') →
  ∀ days_old' now' fuel',
    now' - days days_old' ≤ now - days days_old →
    delete_unverified_users days_old' now' (S fuel') s'
    = (inr (Some (mkDeleteResult "success" 0)), s').
Proof.
  rewrite delete_unverified_users_eq.
  destruct (delete_unverified_loop fuel _ _ s) as [[e|[n|]] s1] eqn:Hrun;
    intros Heq; simplify_eq.
  apply delete_unverified_loop_leaves_none in Hrun.
  intros days_old' now' fuel' Hcut.
  assert (select_where (is_stale_unverified (now' - days days_old'))
                       (users (working s')) = []) as Hnone.
  { destruct (select_where (is_stale_unverified (now' - days days_old')) _)
      as [|[k u] l] eqn:Hsel; [done|]. exfalso.
    assert ((k, u) ∈ select_where (is_stale_unverified (now' - days days_old'))
                                  (users (working s'))) as Hin by (rewrite Hsel; left).
    apply elem_of_select_where in Hin as [Hk Hstale].
    assert ((k, u) ∈ select_where (is_stale_unverified (now - days days_old))
                                  (users (working s'))) as Hin'.
    { apply elem_of_select_where. split; [done|]. unfold is_stale_unverified in *.
      apply andb_true_iff in Hstale as [Hv Hlt]. apply Z.ltb_lt in Hlt.
      apply andb_true_iff. split; [done|]. apply Z.ltb_lt. lia. }
    rewrite Hrun in Hin'. by apply elem_of_nil in Hin'. }
  rewrite delete_unverified_users_eq, delete_unverified_loop_step.
  rewrite Hnone. unfold limit. rewrite take_nil. done.
Qed.

(** ** Transactions *)

Lemma delete_unverified_loop_commits cutoff_time fuel :
  ∀ s count,
    (delete_unverified_loop fuel cutoff_time count s).2 = s
    ∨ committed (delete_unverified_loop fuel cutoff_time count s).2
      = working (delete_unverified_loop fuel cutoff_time count s).2.
Proof.
  induction fuel as [|fuel IH]; intros s count; [by left|].
  rewrite delete_unverified_loop_step.
  destruct (limit batch_size _) as [|row batch]; [by left|].
  right. cbv zeta. case_bool_decide; [|done].
  set (s2 := mkSession _ _ _ _).
  destruct (IH s2 (count + length (row :: batch))%nat) as [Hsame|Hdone]; [|done].
  by rewrite Hsame.
Qed.

(** The loop raises nothing but the [IntegrityError] of a refused batch,
    and leaves the session rolled back to its last commit. *)
Lemma delete_unverified_loop_raises cutoff_time fuel :
  ∀ s count e s',
    delete_unverified_loop fuel cutoff_time count s = (inl e, s') →
    e = IntegrityError ∧ committed s' = working s'.
Proof.
  induction fuel as [|fuel IH]; intros s count e s' Hrun; [done|].
  revert Hrun. rewrite delete_unverified_loop_step.
  destruct (limit batch_size _) as [|row batch]; [done|].
  cbv zeta. case_bool_decide; [apply IH|]. intros Hrun. by simplify_eq.
Qed.

(** X14. No handler leaves uncommitted writes behind. Each route of the
    auth and users routers, each method of [AuthService] and each of the
    two retention jobs, on any session, either leaves the session exactly
    as it found it or ends with the durable state equal to its working
    state. When the function of a route or a service method raises, the
    durable state is as it found it: the session is untouched, or rolled
    back after the database refused a statement. The purge of expired
    tokens does not raise. The purge of unverified users can raise after it has committed
    earlier batches: with a cutoff in the range of [datetime], it then
    ends in the retry of an [IntegrityError] with a countdown of 300
    seconds, rolled back to its last commit, and on a session without
    pending writes the durable table of users is the one it found less
    some of the stale unverified rows. What [serve] makes durable is what
    the handler committed. *)
Theorem handlers_leave_no_uncommitted_writes req now s :
  ((handle req now s).2 = s
   ∨ committed (handle req now s).2 = working (handle req now s).2)
  ∧ (∀ e, (handle req now s).1 = Some e →
       match req with
       | JobDeleteUnverifiedUsers days_old fuel =>
           cutoff_in_range days_old now →
           e = Retry IntegrityError 300
           ∧ committed (handle req now s).2 = working (handle req now s).2
           ∧ (committed s = working s →
              stale_rows_removed (now - days days_old) (users (committed s))
                                 (users (committed (handle req now s).2)))
       | JobCleanupExpiredTokens => False
       | _ =>
           committed (handle req now s).2 = committed s
           ∧ ((handle req now s).2 = s ∨ (handle req now s).2 = rollback s)
       end)
  ∧ ∀ db, serve req now db = committed (handle req now (open_session db)).2.
Proof.
  split_and!; [| |by destruct req].
  - destruct req as [user_in uuid4|credentials|r|token|user_data uuid4|user|token|r
                    |days_old fuel| |user_id updates current_user|user_id
                    |user_id new_role]; unfold handle, failure; cbn [fst snd].
    + unfold signup, bind, execute, raise, ret. simpl.
      destruct (first _); [by left|]. right.
      by destruct (EMAIL_VERIFICATION_ENABLED settings).
    + destruct (login_raises credentials now s) as (e & s' & -> & [->| ->]);
        [by left|by right].
    + unfold refresh_token, bind, execute, raise, ret.
      destruct (refresh_token_claims r now); [by left|]. simpl.
      destruct (first _); by left.
    + unfold verify_email, bind, execute, get_user, raise, ret. simpl.
      destruct (first _) as [[k v]|]; [|by left]. simpl.
      destruct (users (working s) !! _); [by right|by left].
    + unfold AuthService_register_user, bind, execute, raise, ret. simpl.
      destruct (first _); [by left|]. right.
      by destruct (EMAIL_VERIFICATION_ENABLED settings).
    + by right.
    + unfold AuthService_verify_email, bind, execute, get_user, raise, ret. simpl.
      destruct (first _) as [[k v]|]; [|by left]. simpl.
      destruct (users (working s) !! _); [by right|by left].
    + unfold AuthService_refresh_access_token, bind, execute, raise, ret. simpl.
      destruct (first _); by left.
    + rewrite delete_unverified_users_eq.
      destruct (delete_unverified_loop_commits (now - days days_old) fuel s 0%nat)
        as [Hsame|Hdone];
        destruct (delete_unverified_loop fuel _ _ s) as [[e|[n|]] s1];
        cbn [fst snd] in *; auto.
    + right. by rewrite cleanup_expired_tokens_run.
    + unfold users_update_user, bind, execute, raise, ret. simpl.
      destruct (first _) as [[k u]|]; [|by left]. simpl.
      destruct (_ && _); [by left|]. simpl.
      destruct (uu_password updates) as [[password|]|]; simpl; [by right|by left|by right].
    + unfold users_delete_user, bind, execute, raise, ret, delete_user. simpl.
      destruct (first _) as [[k u]|]; [|by left]. simpl.
      case_bool_decide; by right.
    + unfold users_change_user_role, bind, execute, raise, ret. simpl.
      destruct (first _) as [[k u]|]; [|by left]. by right.
  - intros e.
    destruct req as [user_in uuid4|credentials|r|token|user_data uuid4|user|token|r
                    |days_old fuel| |user_id updates current_user|user_id
                    |user_id new_role]; unfold handle, failure; cbn [fst snd].
    + unfold signup, bind, execute, raise, ret. simpl.
      destruct (first _); [by auto|].
      by destruct (EMAIL_VERIFICATION_ENABLED settings).
    + destruct (login_raises credentials now s) as (e' & s' & -> & [->| ->]);
        cbn [fst snd]; auto.
    + unfold refresh_token, bind, execute, raise, ret.
      destruct (refresh_token_claims r now); [by auto|]. simpl.
      destruct (first _); [done|by auto].
    + unfold verify_email, bind, execute, get_user, raise, ret. simpl.
      destruct (first _) as [[k v]|]; [|by auto]. simpl.
      destruct (users (working s) !! _); [done|by auto].
    + unfold AuthService_register_user, bind, execute, raise, ret. simpl.
      destruct (first _); [by auto|].
      by destruct (EMAIL_VERIFICATION_ENABLED settings).
    + rewrite create_tokens_raises. cbn [fst snd]. auto.
    + unfold AuthService_verify_email, bind, execute, get_user, raise, ret. simpl.
      destruct (first _) as [[k v]|]; [|done]. simpl.
      by destruct (users (working s) !! _).
    + unfold AuthService_refresh_access_token, bind, execute, raise, ret. simpl.
      by destruct (first _).
    + rewrite delete_unverified_users_eq.
      destruct (delete_unverified_loop fuel _ _ s) as [[e'|[n|]] s1] eqn:Hrun;
        cbn [fst snd]; [|done..].
      intros He _. simplify_eq.
      destruct (delete_unverified_loop_raises _ _ _ _ _ _ Hrun) as [-> Hrolled].
      split_and!; [done|done|]. intros Hclean.
      destruct (delete_unverified_loop_durable _ _ _ _ _ _ Hrun Hclean) as (_ & Hstale & _).
      by rewrite Hclean.
    + by rewrite cleanup_expired_tokens_run.
    + unfold users_update_user, bind, execute, raise, ret. simpl.
      destruct (first _) as [[k u]|]; [|by auto]. simpl.
      destruct (_ && _); [by auto|]. simpl.
      destruct (uu_password updates) as [[password|]|]; simpl; [done|by auto|done].
    + unfold users_delete_user, bind, execute, raise, ret, delete_user. simpl.
      destruct (first _) as [[k u]|]; [|by auto]. simpl.
      case_bool_decide; [done|]. simpl. auto.
    + unfold users_change_user_role, bind, execute, raise, ret. simpl.
      destruct (first _) as [[k u]|]; [|by auto]. done.
Qed.

(** ** The password policy *)

Lemma re_search_app class s1 s2 :
  re_search class (s1 ++ s2) = re_search class s1 || re_search class s2.
Proof. apply existsb_app. Qed.

Lemma re_search_found class s :
  re_search class s = true → ∃ c, c ∈ s ∧ class c = true.
Proof.
  intros Hfound. apply existsb_exists in Hfound as (c & Hin & Hc).
  exists c. split; [by apply list_elem_of_In|done].
Qed.

Lemma special_characters_are_not_letters c :
  c ∈ special_characters → in_range 65 90 c = false ∧ in_range 97 122 c = false.
Proof.
  revert c. apply Forall_forall. unfold special_characters.
  repeat (apply Forall_cons; split; [by vm_compute|]). apply Forall_nil_2.
Qed.

(** X15. A password that [validate_password_strength] accepts has at least
    12 characters and holds an upper-case letter, a lower-case letter and
    a special character that are three different characters, and a decimal
    digit; and it stays accepted whatever is put before and after it. *)
Theorem strong_password_stays_strong is_decimal_digit password before after :
  validate_password_strength is_decimal_digit password = true →
  validate_password_strength is_decimal_digit (before ++ password ++ after) = true
  ∧ (12 ≤ length password)%nat
  ∧ ∃ upper lower digit special,
      upper ∈ password ∧ lower ∈ password ∧ digit ∈ password ∧ special ∈ password
      ∧ (65 ≤ upper ≤ 90)%N ∧ (97 ≤ lower ≤ 122)%N
      ∧ is_decimal_digit digit = true ∧ special ∈ special_characters
      ∧ upper ≠ lower ∧ upper ≠ special ∧ lower ≠ special.
Proof.
  unfold validate_password_strength.
  destruct (length password <? 12)%nat eqn:Hlen; [done|].
  destruct (re_search (in_range 65 90) password) eqn:Hupper; [|done].
  destruct (re_search (in_range 97 122) password) eqn:Hlower; [|done].
  destruct (re_search is_decimal_digit password) eqn:Hdigit; [|done].
  destruct (re_search (λ c, bool_decide (c ∈ special_characters)) password)
    eqn:Hspecial; [|done].
  intros _. apply Nat.ltb_ge in Hlen. split_and!; [|done|].
  - rewrite !re_search_app, Hupper, Hlower, Hdigit, Hspecial, !orb_true_r.
    rewrite !length_app.
    destruct (_ <? 12)%nat eqn:Hlen'; [|done]. apply Nat.ltb_lt in Hlen'. lia.
  - apply re_search_found in Hupper as (upper & Hu & Hupper).
    apply re_search_found in Hlower as (lower & Hl & Hlower).
    apply re_search_found in Hdigit as (digit & Hd & Hdigit).
    apply re_search_found in Hspecial as (special & Hs & Hspecial).
    apply bool_decide_eq_true in Hspecial.
    destruct (special_characters_are_not_letters special Hspecial) as [Hnu Hnl].
    unfold in_range in *.
    apply andb_true_iff in Hupper as [Hu1 Hu2]. apply andb_true_iff in Hlower as [Hl1 Hl2].
    apply N.leb_le in Hu1, Hu2, Hl1, Hl2.
    exists upper, lower, digit, special. split_and!; try done; try lia.
    + intros ->. apply andb_false_iff in Hnu as [Hn|Hn]; apply N.leb_gt in Hn; lia.
    + intros ->. apply andb_false_iff in Hnl as [Hn|Hn]; apply N.leb_gt in Hn; lia.
Qed.

(** ** Routing of the retention jobs *)

Lemma prefix_app_l a b s : String.prefix (a +:+ b) s = true → String.prefix a s = true.
Proof.
  revert s. induction a as [|c a IH]; intros s; [by destruct s|].
  destruct s as [|c' s]; simpl; [done|].
  destruct (Ascii.ascii_dec c c'); [apply IH|done].
Qed.

(** X16. [route_task] gives a queue only to names that begin with
    "app.tasks.". No task of the repository has such a name: a function
    that the [task] decorator of [celery_utils] registers without a [name]
    option gets a name that begins with "app.core.celery_utils.", and the
    two retention jobs are registered under "cleanup.delete_unverified_users"
    and "cleanup.expired_tokens"; [route_task] answers [None] for all of
    them, which leaves them to the default queue. With a [name] option the
    decorator registers that name, and the route is the one of the name. *)
Theorem registered_jobs_get_no_queue :
  (∀ name route, route_task name = Some route → String.prefix "app.tasks." name = true)
  ∧ (∀ func_title, route_task (decorator_registered_name None func_title) = None)
  ∧ (∀ name func_title,
       route_task (decorator_registered_name (Some name) func_title) = route_task name)
  ∧ Forall (λ name, route_task name = None) registered_task_names.
Proof.
  split_and!.
  - intros name route. unfold route_task.
    destruct (String.prefix "app.tasks.cleanup" name) eqn:Hc.
    { intros _. by apply (prefix_app_l "app.tasks." "cleanup"). }
    destruct (String.prefix "app.tasks.email" name) eqn:He; [|done].
    intros _. by apply (prefix_app_l "app.tasks." "email").
  - done.
  - done.
  - by repeat constructor.
Qed.

(** ** Retrying a job *)

(** X17. [retry_on_exception] with the retries used up returns [None]: it
    raises nothing, the exception [exc] included, and does not call
    [task.retry]. With retries left it always raises, and calls
    [task.retry] once, with a countdown of at most 3600; what reaches the
    caller is [exc] whenever [task.retry] raised or returned an
    [Exception] other than [MaxRetriesExceededError], Celery's own retry
    signal included, and otherwise what [task.retry] gave. A [max_retries]
    or [countdown] of 0 counts as not given. *)
Theorem retry_on_exception_outcomes exc task max_retries countdown :
  let retries_allowed := or_default max_retries (Task.max_retries task) in
  let retry_count := Z.of_nat (Task.request_retries task) in
  let delay :=
    Z.min (or_default countdown (Task.default_retry_delay task) * 2 ^ retry_count) 3600 in
  (retries_allowed ≤ retry_count →
   ∀ retry',
     retry_on_exception exc
       (Task.mk (Task.max_retries task) (Task.default_retry_delay task)
                (Task.request_retries task) retry') max_retries countdown = inr tt)
  ∧ (retry_count < retries_allowed →
     delay ≤ 3600
     ∧ (∀ retry',
          retry' exc delay retries_allowed = Task.retry task exc delay retries_allowed →
          retry_on_exception exc
            (Task.mk (Task.max_retries task) (Task.default_retry_delay task)
                     (Task.request_retries task) retry') max_retries countdown
          = retry_on_exception exc task max_retries countdown)
     ∧ ∃ e, retry_on_exception exc task max_retries countdown = inl e
            ∧ match Task.retry task exc delay retries_allowed with
              | inl (OtherException _) | inr (OtherException _) => e = exc
              | inl e' | inr e' => e = e'
              end)
  ∧ retry_on_exception exc task (Some 0) countdown
    = retry_on_exception exc task None countdown
  ∧ retry_on_exception exc task max_retries (Some 0)
    = retry_on_exception exc task max_retries None.
Proof.
  intros retries_allowed retry_count delay. split_and!; [| |done|done].
  - intros Hused retry'. unfold retry_on_exception. cbn [Task.max_retries
      Task.default_retry_delay Task.request_retries Task.retry].
    fold retries_allowed retry_count.
    destruct (retry_count <? retries_allowed) eqn:Hlt; [|done].
    apply Z.ltb_lt in Hlt. lia.
  - intros Hleft. split_and!.
    + apply Z.le_min_r.
    + intros retry' Hsame. unfold retry_on_exception. cbn [Task.max_retries
        Task.default_retry_delay Task.request_retries Task.retry].
      fold retries_allowed retry_count delay. by rewrite Hsame.
    + unfold retry_on_exception. fold retries_allowed retry_count delay.
      apply Z.ltb_lt in Hleft. rewrite Hleft.
      destruct (Task.retry task exc delay retries_allowed) as [[e|e|e]|[e|e|e]];
        by eexists.
Qed.

(** ** A verification window that has closed *)

Lemma serve_verification_lapsed req now db k t :
  t ≤ now → verification_lapsed k t db → verification_lapsed k t (serve req now db).
Proof.
  intros Hnow (Hseq & Huser & Htokens).
  destruct (serve_step req now db)
    as [|u v _ _ Hid _|token j v u Hj Hlive Hk|cutoff_time users' [Hsub _] _|
        |k' u u' _ Hk' _ Hv _|k' _ _];
    unfold verification_lapsed; simpl.
  - by split_and!.
  - split_and!; [lia| |].
    + intros u'. rewrite lookup_insert_ne by lia. apply Huser.
    + intros j' v' Hj' Hk'. apply lookup_insert_Some in Hj' as [[_ <-]|[_ Hj']]; [lia|].
      by apply (Htokens j' v').
  - apply is_live_verification_token_true in Hlive as (_ & Htype & Hrevoked & Hexp).
    assert (VerificationToken.user_id v ≠ k) as Hother.
    { intros Hvk. destruct (Htokens j v Hj Hvk) as [Hr|[Ht|He]];
        [congruence | done | lia]. }
    split_and!; [done| |].
    + intros u'. rewrite lookup_insert_ne by done. apply Huser.
    + intros j' v' Hj' Hk'. apply lookup_insert_Some in Hj' as [[_ <-]|[_ Hj']];
        [by left|]. by apply (Htokens j' v').
  - split_and!; [done| |done].
    intros u' Hu'. apply Huser. by apply (lookup_weaken _ _ _ _ Hu').
  - split_and!; [done|done|].
    intros j v Hj Hk. apply map_lookup_filter_Some in Hj as [Hj _].
    by apply (Htokens j v).
  - split_and!; [done| |done].
    intros u0. destruct (decide (k' = k)) as [->|Hne].
    + rewrite lookup_insert_eq. intros Heq. simplify_eq. rewrite Hv. by apply Huser.
    + rewrite lookup_insert_ne by done. apply Huser.
  - split_and!; [done| |done].
    intros u0 Hu0. apply lookup_delete_Some in Hu0 as [_ Hu0]. by apply Huser.
Qed.

(** X18. A verification window that has closed stays closed. After a
    signup, once 15 minutes have passed without a verification, no
    sequence of signups, logins, refreshes, verifications, service calls,
    retention runs and updates, role changes and deletions of users makes
    the new user verified: there is no path that issues a second
    verification token for an existing user. Until the row is removed,
    every login with its email is refused. *)
Theorem lapsed_verification_is_permanent s user_in uuid4 t0 msg s1 reqs :
  (∀ j v, verification_tokens (working s) !! j = Some v →
          VerificationToken.user_id v ≠ users_id_seq (working s)) →
  signup user_in uuid4 t0 s = (inr msg, s1) →
  Forall (λ req : request * Z, t0 + minutes 15 ≤ req.2) reqs →
  let db := serve_all reqs (committed s1) in
  (∀ u, users db !! users_id_seq (working s) = Some u →
        User.email u = uc_email user_in ∧ User.is_verified u = false)
  ∧ ∀ u password now,
      users db !! users_id_seq (working s) = Some u →
      unique_emails (users db) →
      ∃ e, login (mkLoginInput (uc_email user_in) password) now (open_session db)
           = (inl e, open_session db).
Proof.
  intros Hrows Hsignup Hlater.
  set (k := users_id_seq (working s)).
  assert (verification_lapsed k (t0 + minutes 15) (committed s1)
          ∧ ∃ u0, users (committed s1) !! k = Some u0
                  ∧ User.email u0 = uc_email user_in) as [Hlapsed Hrow].
  { revert Hsignup. unfold signup, bind, execute, raise, ret. simpl.
    destruct (first (select_where _ _)); simpl; [done|].
    assert (∀ outbox',
              verification_lapsed k (t0 + minutes 15)
                (committed (mkSession
                   (mkDB (<[k := User.mk (uc_email user_in)
                                   (get_password_hash (uc_password user_in))
                                   (uc_first_name user_in) (uc_last_name user_in)
                                   false (uc_role user_in) t0 t0]> (users (working s)))
                         (k + 1) (refresh_tokens (working s))
                         (refresh_tokens_id_seq (working s))
                         (<[verification_tokens_id_seq (working s) :=
                              VerificationToken.mk k uuid4 "email_verification"
                                (t0 + minutes 15) false false None]>
                            (verification_tokens (working s)))
                         (verification_tokens_id_seq (working s) + 1))
                   (mkDB (<[k := User.mk (uc_email user_in)
                                   (get_password_hash (uc_password user_in))
                                   (uc_first_name user_in) (uc_last_name user_in)
                                   false (uc_role user_in) t0 t0]> (users (working s)))
                         (k + 1) (refresh_tokens (working s))
                         (refresh_tokens_id_seq (working s))
                         (<[verification_tokens_id_seq (working s) :=
                              VerificationToken.mk k uuid4 "email_verification"
                                (t0 + minutes 15) false false None]>
                            (verification_tokens (working s)))
                         (verification_tokens_id_seq (working s) + 1))
                   (S (commits s)) outbox'))) as Hstate.
    { intros outbox'. unfold verification_lapsed. simpl. split_and!; [lia| |].
      - intros u Hu. rewrite lookup_insert_eq in Hu. by simplify_eq.
      - intros j v Hj Hk. apply lookup_insert_Some in Hj as [[_ <-]|[_ Hj]].
        + right; right. simpl. lia.
        + by destruct (Hrows j v Hj). }
    destruct (EMAIL_VERIFICATION_ENABLED settings); simpl; intros Heq; simplify_eq;
      (split; [apply Hstate|]); simpl; eexists; by rewrite lookup_insert_eq. }
  clear Hsignup Hrows.
  assert (∀ db0,
            verification_lapsed k (t0 + minutes 15) db0 →
            (∀ u, users db0 !! k = Some u → User.email u = uc_email user_in) →
            verification_lapsed k (t0 + minutes 15) (serve_all reqs db0)
            ∧ ∀ u, users (serve_all reqs db0) !! k = Some u →
                   User.email u = uc_email user_in) as Hall.
  { induction Hlater as [|[req now] reqs Hnow _ IH]; intros db0 H0 He0; [done|].
    apply IH.
    - by apply serve_verification_lapsed.
    - destruct H0 as (Hseq & _ & _).
      destruct (serve_users_change req now db0) as [Hchange _].
      intros u. simpl.
      destruct Hchange as [|u' _ _|k' u' Hk'|table' Hsub _|k' u' u'' Hk' He' _ _|k'].
      + apply He0.
      + rewrite lookup_insert_ne by lia. apply He0.
      + destruct (decide (k' = k)) as [->|Hne].
        * rewrite lookup_insert_eq. intros Heq. simplify_eq. simpl. by apply He0.
        * rewrite lookup_insert_ne by done. apply He0.
      + intros Hk. apply He0. by apply (lookup_weaken _ _ _ _ Hk).
      + destruct (decide (k' = k)) as [->|Hne].
        * rewrite lookup_insert_eq. intros Heq. simplify_eq. rewrite He'. by apply He0.
        * rewrite lookup_insert_ne by done. apply He0.
      + intros Hk. apply lookup_delete_Some in Hk as [_ Hk]. by apply He0. }
  destruct Hrow as (u0 & Hu0 & Hemail0).
  destruct (Hall (committed s1) Hlapsed) as [(_ & Hunverified & _) Hemail].
  { intros u Hu. by simplify_eq. }
  intros db. split.
  - intros u Hu. split; [by apply Hemail | by apply Hunverified].
  - intros u password now Hu Huniq.
    unfold login, bind, execute, raise, lift. simpl.
    destruct (first (select_where _ _)) as [[k' u']|] eqn:Hf; simpl; [|by eexists].
    apply first_select_Some in Hf as [Hk' He']. unfold has_email in He'.
    apply bool_decide_eq_true in He'.
    assert (k' = k) as ->.
    { apply (Huniq k' k u' u Hk' Hu). rewrite He'. symmetry. by apply Hemail. }
    fold db in Hk'. rewrite Hu in Hk'. simplify_eq.
    destruct (verify_password password (User.hashed_password u')) as [name|[|]];
      simpl; [by eexists| |by eexists].
    rewrite (Hunverified u' Hu). simpl. by eexists.
Qed.

(** ** A refresh-token row cannot be taken back *)

Lemma serve_all_refresh_rows reqs db k r :
  refresh_tokens (serve_all reqs db) !! k = Some r → refresh_tokens db !! k = Some r.
Proof.
  revert db. induction reqs as [|[req now] reqs IH]; intros db Hk; [done|].
  apply (serve_refresh_rows req now). by apply IH.
Qed.

(** No request touches a row of [refresh_tokens] that is not expired: the
    purge takes expired rows only, and nothing else writes to the table. *)
Lemma serve_keeps_refresh_row req now db k row :
  refresh_tokens db !! k = Some row →
  now ≤ RefreshToken.expires_at row →
  refresh_tokens (serve req now db) !! k = Some row.
Proof.
  intros Hk Hlive.
  destruct (serve_step req now db)
    as [|u v _ _ _ _|token j v u _ _ _|cutoff_time users' _ _|
        |k' u u' _ _ _ _ _|k' _ _];
    simpl; try done.
  apply map_lookup_filter_Some. split; [done|]. simpl.
  unfold refresh_expired. apply Z.ltb_ge. lia.
Qed.

Lemma serve_all_keeps_refresh_row reqs db k row t :
  Forall (λ req : request * Z, req.2 ≤ t) reqs →
  refresh_tokens db !! k = Some row →
  t ≤ RefreshToken.expires_at row →
  refresh_tokens (serve_all reqs db) !! k = Some row.
Proof.
  intros Hearlier. revert db.
  induction Hearlier as [|[req now] reqs Hnow _ IH]; intros db Hk Hlive; [done|].
  simpl in Hnow. simpl. apply IH; [|done]. apply serve_keeps_refresh_row; [done|lia].
Qed.

(** X19. A refresh-token row cannot be taken back. A row of
    [refresh_tokens] stays in the table, unchanged, until its [expires_at]:
    no signup, login, refresh, verification, service call, retention run
    or request to the users router up to an instant [t3] at or before it
    sets [revoked] or removes the row. None of them adds a row either, so
    the refresh route accepts a given token at [t3] after these requests
    exactly when it accepts it at [t3] without them; and when the row is
    not revoked, expires after [t3] and carries a refresh token issued at
    [t2], the route at an instant [t3] from [t2] to the end of the token's
    lifetime returns that same refresh token. *)
Theorem refresh_row_outlives_every_request db k row reqs t3 :
  refresh_tokens db !! k = Some row →
  Forall (λ req : request * Z, req.2 ≤ t3) reqs →
  t3 ≤ RefreshToken.expires_at row →
  let db' := serve_all reqs db in
  refresh_tokens db' !! k = Some row
  ∧ (∀ r, (∃ tok, (refresh_token r t3 (open_session db')).1 = inr tok)
          ↔ ∃ tok, (refresh_token r t3 (open_session db)).1 = inr tok)
  ∧ ∀ user_id t2,
      RefreshToken.token row = create_refresh_token (sub_claim user_id) t2 →
      RefreshToken.revoked row = false →
      t3 < RefreshToken.expires_at row →
      t2 ≤ t3 < t2 + days (REFRESH_TOKEN_EXPIRE_DAYS settings) →
      ∃ refreshed,
        refresh_token (RefreshToken.token row) t3 (open_session db')
        = (inr refreshed, open_session db')
        ∧ refresh_token_ refreshed = RefreshToken.token row.
Proof.
  intros Hk Hearlier Hlive db'.
  pose proof (serve_all_keeps_refresh_row reqs db k row t3 Hearlier Hk Hlive) as Hkept.
  fold db' in Hkept.
  split_and!; [done| |].
  - intros r. unfold refresh_token, bind, execute, raise, ret.
    destruct (refresh_token_claims r t3); simpl; [by split; intros [? ?]|].
    destruct (first (select_where (is_live_refresh_token r t3) (refresh_tokens db')))
      as [[k1 r1]|] eqn:Hp,
      (first (select_where (is_live_refresh_token r t3) (refresh_tokens db)))
      as [[k2 r2]|] eqn:Hs; simpl.
    + split; intros _; by eexists.
    + apply first_select_Some in Hp as [Hk1 Hlive1].
      apply serve_all_refresh_rows in Hk1.
      destruct (first_select_is_Some _ _ _ _ Hk1 Hlive1) as [? Hsome]. congruence.
    + apply first_select_Some in Hs as [Hk2 Hlive2].
      pose proof Hlive2 as Hlive2'.
      apply is_live_refresh_token_true in Hlive2' as (_ & _ & Hexp).
      assert (refresh_tokens db' !! k2 = Some r2) as Hk2'
        by (apply (serve_all_keeps_refresh_row reqs db k2 r2 t3); [done|done|lia]).
      destruct (first_select_is_Some _ _ _ _ Hk2' Hlive2) as [? Hsome]. congruence.
    + split; intros [? ?]; done.
  - intros user_id t2 Htoken Hrevoked Hexp Ht3.
    assert (∃ payload, refresh_token_claims (RefreshToken.token row) t3 = inr payload)
      as [payload Hclaims].
    { rewrite Htoken. unfold refresh_token_claims, verify_token.
      rewrite create_refresh_token_eq.
      rewrite (decode_issued _ _ _ _ _ (pretty user_id)); [|apply lookup_singleton_eq|lia].
      destruct (issued_claims_lookup (sub_claim user_id) REFRESH
                  (t2 + days (REFRESH_TOKEN_EXPIRE_DAYS settings)) t2)
        as (_ & _ & Hty & _).
      rewrite bool_decide_eq_true_2 by done. by eexists. }
    unfold refresh_token. rewrite Hclaims. unfold bind, execute, raise, ret. simpl.
    destruct (first_select_is_Some (is_live_refresh_token (RefreshToken.token row) t3)
                (refresh_tokens db') k row Hkept) as [[k' row'] Hfirst].
    { apply is_live_refresh_token_true. split_and!; [done|done|lia]. }
    rewrite Hfirst. by eexists.
Qed.

End App.

(** * The properties on the stores of the test suite *)

Ltac by_compute := apply (bool_decide_unpack _); vm_compute; exact I.

(** The sample tokens are the ones that the code signs for user 1 at time
    1000, and the login of the test user, verified and with the right
    password, ends in the error of the database with nothing stored. *)
Example sample_tokens_are_issued :
  issued_access_token = create_access_token test_settings (sub_claim 1) 1000
  ∧ issued_refresh_token = create_refresh_token test_settings (sub_claim 1) 1000.
Proof. split; vm_compute; reflexivity. Qed.

Example login_of_test_user_raises :
  login test_settings sample_verify (mkLoginInput TEST_EMAIL TEST_PASSWORD) 1000
        (open_session verified_db)
  = (inl IntegrityError, open_session verified_db).
Proof. vm_compute. reflexivity. Qed.

(** ** Login *)

Lemma login_error_reveals_registered_email_witness :
  let s := open_session verified_db in
  (∀ k u, users (working s) !! k = Some u → User.email u ≠ "nonexistent@example.com")
  ∧ (∃ k u, users (working s) !! k = Some u ∧ User.email u = TEST_EMAIL)
  ∧ (∀ k u, users (working s) !! k = Some u → User.email u = TEST_EMAIL →
            sample_verify nul_password (User.hashed_password u) = inl "NullPasswordError")
  ∧ login test_settings sample_verify
          (mkLoginInput "nonexistent@example.com" nul_password) 1000 s
    = (inl (HTTPException 400 "Incorrect email or password" []), s)
  ∧ login test_settings sample_verify (mkLoginInput TEST_EMAIL nul_password) 1000 s
    = (inl (PyError "NullPasswordError"), s)
  ∧ status_of (PyError "NullPasswordError") = 500.
Proof.
  intros s.
  assert (∀ k u, users (working s) !! k = Some u →
                 User.email u ≠ "nonexistent@example.com") as Hunknown.
  { change (map_Forall (λ _ u, User.email u ≠ "nonexistent@example.com")
                       (users (working s))). by_compute. }
  assert (∃ k u, users (working s) !! k = Some u ∧ User.email u = TEST_EMAIL) as Hknown.
  { exists 1, (test_user true). split; reflexivity. }
  assert (∀ k u, users (working s) !! k = Some u → User.email u = TEST_EMAIL →
                 sample_verify nul_password (User.hashed_password u)
                 = inl "NullPasswordError") as Hraises.
  { change (map_Forall (λ _ u, User.email u = TEST_EMAIL →
                               sample_verify nul_password (User.hashed_password u)
                               = inl "NullPasswordError")
                       (users (working s))). by_compute. }
  destruct (login_error_reveals_registered_email test_settings sample_verify s 1000
              "nonexistent@example.com" TEST_EMAIL nul_password "NullPasswordError"
              Hunknown Hknown Hraises) as (H400 & H500 & Hstatus & _).
  split; [exact Hunknown|]. split; [exact Hknown|]. split; [exact Hraises|].
  split; [exact H400|]. split; [exact H500 | exact Hstatus].
Defined.

(** ** Email verification *)

Lemma verify_email_orphan_token_witness :
  let s := open_session orphan_db in
  (∃ k v, verification_tokens (working s) !! k = Some v
          ∧ is_live_verification_token test_uuid 100 k v = true)
  ∧ (∀ k v, verification_tokens (working s) !! k = Some v →
            is_live_verification_token test_uuid 100 k v = true →
            users (working s) !! VerificationToken.user_id v = None)
  ∧ verify_email test_uuid 100 s = (inl (HTTPException 404 "User not found" []), s)
  ∧ AuthService_verify_email test_uuid 100 s = (inr false, s).
Proof.
  intros s.
  assert (∃ k v, verification_tokens (working s) !! k = Some v
                 ∧ is_live_verification_token test_uuid 100 k v = true) as Hrow.
  { exists 1, (VerificationToken.mk 7 test_uuid "email_verification" 900 false false None).
    split; reflexivity. }
  assert (∀ k v, verification_tokens (working s) !! k = Some v →
                 is_live_verification_token test_uuid 100 k v = true →
                 users (working s) !! VerificationToken.user_id v = None) as Horphan.
  { change (map_Forall (λ k v, is_live_verification_token test_uuid 100 k v = true →
                               users (working s) !! VerificationToken.user_id v = None)
                       (verification_tokens (working s))). by_compute. }
  destruct (verify_email_orphan_token s 100 test_uuid Hrow Horphan) as (Hroute & Hsvc & _).
  split; [exact Hrow|]. split; [exact Horphan|]. split; [exact Hroute | exact Hsvc].
Defined.

Lemma consumed_token_is_never_accepted_again_witness :
  let s1 := (verify_email test_uuid 100 (open_session registered_db)).2 in
  let reqs := [(ReqVerify test_uuid, 200); (JobCleanupExpiredTokens, 5000);
               (ReqSignup other_signup "9d0e6a52-7c1f-4b3d-8a64-5e2c9f7b1a30", 6000);
               (JobDeleteUnverifiedUsers 2 3, 900000)] in
  let later := open_session (serve_all test_settings sample_hash sample_verify reqs
                                       (committed s1)) in
  identifies_one_row test_uuid registered_db
  ∧ verify_email test_uuid 100 (open_session registered_db)
    = (inr "Email verified successfully", s1)
  ∧ (∀ req, req ∈ reqs → drawn_uuid req.1 ≠ Some test_uuid)
  ∧ verify_email test_uuid 950000 later
    = (inl (HTTPException 400 "Invalid or expired verification token" []), later)
  ∧ verify_email "never-issued" 950000 later
    = (inl (HTTPException 400 "Invalid or expired verification token" []), later).
Proof.
  intros s1 reqs later.
  assert (identifies_one_row test_uuid registered_db) as Hone.
  { intros k1 k2 v1 v2 H1 H2 _ _. unfold registered_db in H1, H2.
    cbn [verification_tokens] in H1, H2.
    apply lookup_singleton_Some in H1 as [<- _].
    by apply lookup_singleton_Some in H2 as [<- _]. }
  assert (verify_email test_uuid 100 (open_session registered_db)
          = (inr "Email verified successfully", s1)) as Hrun
    by (vm_compute; reflexivity).
  assert (∀ req, req ∈ reqs → drawn_uuid req.1 ≠ Some test_uuid) as Hfresh.
  { apply Forall_forall. by_compute. }
  assert (never_issued "never-issued" (working later)) as Hnever.
  { change (map_Forall (λ _ v, VerificationToken.token v ≠ "never-issued")
                       (verification_tokens (working later))). by_compute. }
  destruct (consumed_token_is_never_accepted_again test_settings sample_hash sample_verify
              registered_db 100 test_uuid s1 reqs Hone
              (or_introl (ex_intro _ "Email verified successfully" Hrun)) Hfresh 950000)
    as (Hroute & _ & Hunknown).
  split; [exact Hone|]. split; [exact Hrun|]. split; [exact Hfresh|].
  split; [exact Hroute|]. by apply Hunknown.
Defined.

(** ** Refresh *)

Lemma refresh_does_not_rotate_witness :
  let s := open_session logged_in_db in
  let tok := mkToken (create_access_token test_settings (sub_claim 1) 2000)
                     issued_refresh_token "bearer" in
  refresh_token test_settings issued_refresh_token 2000 s = (inr tok, s)
  ∧ refresh_token_ tok = issued_refresh_token
  ∧ ∃ tok', refresh_token test_settings issued_refresh_token 605000 s = (inr tok', s)
            ∧ refresh_token_ tok' = issued_refresh_token.
Proof.
  intros s tok.
  assert (refresh_token test_settings issued_refresh_token 2000 s = (inr tok, s)) as Hrun
    by (vm_compute; reflexivity).
  destruct (refresh_does_not_rotate test_settings s 2000 issued_refresh_token tok s Hrun)
    as (_ & Htok & _ & Hlater).
  split; [exact Hrun|]. split; [exact Htok|].
  apply Hlater.
  - intros e He. vm_compute in He. injection He as <-. lia.
  - exists 1, (RefreshToken.mk 1 issued_refresh_token (Some 1000) 605800 false).
    split_and!; reflexivity.
Defined.

(** C2. [AuthService.refresh_access_token] issues an access token for a
    stored value that fails the verification of its claims: on the store of
    [test_cleanup_expired_tokens], whose valid row holds the string
    "valid_refresh_token", [verify_token] raises and the route answers 400,
    but the service method returns a fresh access token for user 1. *)
Theorem service_refresh_skips_claim_verification :
  verify_token test_settings (jwt.Malformed "valid_refresh_token") tasks_now
    = inl (HTTPException 400 "Invalid token" [])
  ∧ refresh_token test_settings (jwt.Malformed "valid_refresh_token") tasks_now
                  (open_session tasks_tokens_db)
    = (inl (HTTPException 400 "Invalid refresh token" []), open_session tasks_tokens_db)
  ∧ AuthService_refresh_access_token test_settings (jwt.Malformed "valid_refresh_token")
                                     tasks_now (open_session tasks_tokens_db)
    = (inr (Some (create_access_token test_settings (sub_claim 1) tasks_now)),
       open_session tasks_tokens_db).
Proof. split_and!; vm_compute; reflexivity. Qed.

(** ** The access-token path and the signing key *)

Lemma access_path_requires_access_type_witness :
  jwt.unverified_claims issued_refresh_token !! "type" ≠ Some (CStr "access")
  ∧ issued_refresh_token = create_refresh_token test_settings (sub_claim 1) 1000
  ∧ get_current_user test_settings [] issued_refresh_token 2000
    = inl (HTTPException 401 "Invalid token type" [("WWW-Authenticate", "Bearer")]).
Proof.
  assert (jwt.unverified_claims issued_refresh_token !! "type" ≠ Some (CStr "access"))
    as Hty by (vm_compute; discriminate).
  assert (issued_refresh_token = create_refresh_token test_settings (sub_claim 1) 1000)
    as Hissued by (vm_compute; reflexivity).
  destruct (access_path_requires_access_type test_settings [] issued_refresh_token 2000 Hty)
    as [_ Hrefresh].
  split; [exact Hty|]. split; [exact Hissued|].
  apply (Hrefresh (sub_claim 1) 1000 "1" Hissued); [reflexivity | vm_compute; discriminate].
Defined.

(** C4. Access and refresh tokens are sealed under the same key,
    [JWT_SECRET_KEY]: with the keys of the test configuration, which
    differ, the refresh token of user 1 does not verify under
    [JWT_REFRESH_SECRET_KEY], as [test_login_user] expects it to, and does
    verify under the key of the access tokens. *)
Theorem refresh_token_signed_under_access_key :
  JWT_SECRET_KEY test_settings ≠ JWT_REFRESH_SECRET_KEY test_settings
  ∧ jwt.signing_key (create_access_token test_settings (sub_claim 1) 1000)
    = Some (JWT_SECRET_KEY test_settings)
  ∧ jwt.signing_key (create_refresh_token test_settings (sub_claim 1) 1000)
    = Some (JWT_SECRET_KEY test_settings)
  ∧ jwt.decode (create_refresh_token test_settings (sub_claim 1) 1000)
               (JWT_REFRESH_SECRET_KEY test_settings) [JWT_ALGORITHM test_settings] 1000
    = inl jwt.SignatureError
  ∧ jwt.decode (create_refresh_token test_settings (sub_claim 1) 1000)
               (JWT_SECRET_KEY test_settings) [JWT_ALGORITHM test_settings] 1000
    = inr (jwt.unverified_claims issued_refresh_token).
Proof. split_and!; vm_compute; (reflexivity || discriminate). Qed.

(** ** Refresh-token rows *)


(** ** The retention jobs *)

Lemma purge_expired_tokens_exact_witness :
  let s := open_session tasks_tokens_db in
  ∃ result s',
    cleanup_expired_tokens tasks_now s = (inr result, s')
    ∧ refresh_tokens (working s') = {[2 := valid_refresh_row]}
    ∧ deleted_refresh_tokens result = 1%nat
    ∧ commits s' = 1%nat.
Proof.
  intros s.
  destruct (purge_expired_tokens_exact s tasks_now)
    as (result & s' & Hrun & _ & _ & _ & _ & _ & Hcommits & _ & _ & _ & _ & Hscenario).
  destruct (Hscenario 1 expired_refresh_row 2 valid_refresh_row) as [Hkeep Hcount].
  - reflexivity.
  - lia.
  - vm_compute. reflexivity.
  - vm_compute. discriminate.
  - exists result, s'.
    split; [exact Hrun|]. split; [exact Hkeep|]. split; [exact Hcount | exact Hcommits].
Defined.

Lemma purge_refused_by_foreign_key_witness :
  let s := open_session tasks_registered_db in
  let u := tasks_user "old_unverified@example.com" false (tasks_now - days 3) in
  cutoff_in_range 2 tasks_now
  ∧ committed s = working s
  ∧ users (working s) !! 2 = Some u
  ∧ User.is_verified u = false
  ∧ User.created_at u < tasks_now - days 2
  ∧ ¬ unreferenced 2 (working s)
  ∧ (length (select_where (is_stale_unverified (tasks_now - days 2)) (users (working s)))
     + batch_size ≤ batch_size * 2)%nat
  ∧ (∀ fuel result s', delete_unverified_users 2 tasks_now fuel s
                       ≠ (inr (Some result), s'))
  ∧ ∃ s', delete_unverified_users 2 tasks_now 2 s = (inl (Retry IntegrityError 300), s')
          ∧ users (committed s') !! 2 = Some u.
Proof.
  intros s u.
  assert (cutoff_in_range 2 tasks_now) as Hrange by (vm_compute; intuition discriminate).
  assert (committed s = working s) as Hclean by reflexivity.
  assert (users (working s) !! 2 = Some u) as Hrow by reflexivity.
  assert (User.is_verified u = false) as Hunverified by reflexivity.
  assert (User.created_at u < tasks_now - days 2) as Hold by (vm_compute; reflexivity).
  assert (¬ unreferenced 2 (working s)) as Href.
  { intros [_ Hnone].
    apply (Hnone 2 (VerificationToken.mk 2 "c7a4e9d2-8f13-4b6a-b0c5-1e9f3a7d5c28"
                      "email_verification" (tasks_now + minutes 15) false false None));
      reflexivity. }
  assert ((length (select_where (is_stale_unverified (tasks_now - days 2))
                                (users (working s)))
           + batch_size ≤ batch_size * 2)%nat) as Hfuel
    by (vm_compute; repeat constructor).
  split; [exact Hrange|]. split; [exact Hclean|]. split; [exact Hrow|].
  split; [exact Hunverified|]. split; [exact Hold|]. split; [exact Href|].
  split; [exact Hfuel|]. split.
  - intros fuel.
    exact (proj1 (purge_refused_by_foreign_key s 2 tasks_now fuel 2 u
                    Hrange Hclean Hrow Hunverified Hold Href)).
  - exact (proj2 (purge_refused_by_foreign_key s 2 tasks_now 2 2 u
                    Hrange Hclean Hrow Hunverified Hold Href) Hfuel).
Defined.

Lemma purge_stale_users_without_tokens_witness :
  let s := open_session tasks_users_db in
  cutoff_in_range 2 tasks_now
  ∧ no_token_of_stale_user (tasks_now - days 2) (working s)
  ∧ (length (select_where (is_stale_unverified (tasks_now - days 2)) (users (working s)))
     + batch_size ≤ batch_size * 2)%nat
  ∧ ∃ s', delete_unverified_users 2 tasks_now 2 s
          = (inr (Some (mkDeleteResult "success" 1)), s')
          ∧ users (working s') !! 1 = users (working s) !! 1
          ∧ users (working s') !! 2 = None
          ∧ users (working s') !! 3 = users (working s) !! 3.
Proof.
  intros s.
  assert (cutoff_in_range 2 tasks_now) as Hrange by (vm_compute; intuition discriminate).
  assert (no_token_of_stale_user (tasks_now - days 2) (working s)) as Hfree.
  { intros k u _ _. split; apply map_Forall_empty. }
  assert (length (select_where (is_stale_unverified (tasks_now - days 2))
                               (users (working s))) = 1%nat) as Hlen
    by (vm_compute; reflexivity).
  assert ((length (select_where (is_stale_unverified (tasks_now - days 2))
                                (users (working s)))
           + batch_size ≤ batch_size * 2)%nat) as Hfuel
    by (rewrite Hlen; unfold batch_size; lia).
  split; [exact Hrange|]. split; [exact Hfree|]. split; [exact Hfuel|].
  destruct (purge_stale_users_without_tokens s 2 tasks_now 2 Hrange Hfree Hfuel)
    as (s' & batches & Hrun & Hrows & Hkept & _).
  exists s'. rewrite Hlen in Hrun. split_and!; [done| | |].
  - rewrite (Hkept 1 (tasks_user "verified@example.com" true (tasks_now - days 3)));
      [reflexivity | reflexivity | by left].
  - destruct (users (working s') !! 2) as [u|] eqn:Hu; [|done].
    apply Hrows in Hu as [Hu Hnot]. vm_compute in Hu. injection Hu as <-.
    exfalso. apply Hnot. split; [reflexivity | vm_compute; reflexivity].
  - rewrite (Hkept 3 (tasks_user "new_unverified@example.com" false (tasks_now - 82800)));
      [reflexivity | reflexivity | right; vm_compute; discriminate].
Defined.

(** ** Further properties *)

Lemma issued_token_verifies_until_expiry_witness :
  2000 ≤ 1000 + minutes (ACCESS_TOKEN_EXPIRE_MINUTES test_settings)
  ∧ 1000 + minutes (ACCESS_TOKEN_EXPIRE_MINUTES test_settings) < 2801
  ∧ verify_token test_settings (create_token test_settings (sub_claim 1) ACCESS None 1000)
                 2000
    = inr (jwt.unverified_claims issued_access_token)
  ∧ verify_token test_settings (create_token test_settings (sub_claim 1) ACCESS None 1000)
                 2801
    = inl (HTTPException 400 "Invalid token" []).
Proof.
  assert (2000 ≤ 1000 + minutes (ACCESS_TOKEN_EXPIRE_MINUTES test_settings)) as Hle
    by (vm_compute; discriminate).
  assert (1000 + minutes (ACCESS_TOKEN_EXPIRE_MINUTES test_settings) < 2801) as Hlt
    by (vm_compute; reflexivity).
  destruct (issued_token_verifies_until_expiry test_settings 1 ACCESS None 1000 2000)
    as [Hvalid _].
  destruct (issued_token_verifies_until_expiry test_settings 1 ACCESS None 1000 2801)
    as [_ Hexpired].
  destruct (Hvalid Hle) as (payload & Hrun & -> & _).
  split; [exact Hle|]. split; [exact Hlt|]. split; [|exact (Hexpired Hlt)].
  rewrite Hrun. vm_compute. reflexivity.
Defined.

Lemma refresh_route_rejects_other_types_witness :
  let s := open_session logged_in_db in
  jwt.unverified_claims issued_access_token !! "type" ≠ Some (CStr "refresh")
  ∧ refresh_token test_settings issued_access_token 2000 s
    = (inl (HTTPException 400 "Invalid refresh token" []), s).
Proof.
  intros s.
  assert (jwt.unverified_claims issued_access_token !! "type" ≠ Some (CStr "refresh"))
    as Htype by (vm_compute; discriminate).
  split; [exact Htype|].
  apply (refresh_route_rejects_other_types test_settings s 2000 issued_access_token Htype).
Defined.

Lemma emails_stay_unique_witness :
  let reqs := [(ReqSignup other_signup "9d0e6a52-7c1f-4b3d-8a64-5e2c9f7b1a30", 100);
               (SvcRegisterUser other_signup "0b7c2f7e-1a55-4c3e-9d2a-6f8e4b1c7d20", 200);
               (ReqVerify test_uuid, 300);
               (JobDeleteUnverifiedUsers 2 3, 900000)] in
  unique_emails (users registered_db)
  ∧ unique_emails
      (users (serve_all test_settings sample_hash sample_verify reqs registered_db)).
Proof.
  intros reqs.
  assert (unique_emails (users registered_db)) as Huniq.
  { intros k1 k2 u1 u2 H1 H2 _. unfold registered_db in H1, H2. cbn [users] in H1, H2.
    apply lookup_singleton_Some in H1 as [<- _].
    by apply lookup_singleton_Some in H2 as [<- _]. }
  split; [exact Huniq|].
  apply (emails_stay_unique test_settings sample_hash sample_verify reqs registered_db
           Huniq).
Defined.

Lemma verified_user_stays_verified_witness :
  let reqs := [(ReqSignup other_signup "9d0e6a52-7c1f-4b3d-8a64-5e2c9f7b1a30", 100);
               (ReqLogin (mkLoginInput TEST_EMAIL TEST_PASSWORD), 200);
               (ReqChangeUserRole 1 ADMIN, 300);
               (ReqUpdateUser 1 (mkUserUpdate (Some (Some "Tess")) None
                                              (Some (Some "NewPassword123!")))
                              (1, test_user true), 400);
               (JobCleanupExpiredTokens, 700000);
               (JobDeleteUnverifiedUsers 2 3, 900000)] in
  let db := serve_all test_settings sample_hash sample_verify reqs verified_db in
  users verified_db !! 1 = Some (test_user true)
  ∧ User.is_verified (test_user true) = true
  ∧ 1 < users_id_seq verified_db
  ∧ (∀ now, (ReqDeleteUser 1, now) ∉ reqs)
  ∧ (∃ u', users db !! 1 = Some u'
           ∧ User.is_verified u' = true
           ∧ User.email u' = TEST_EMAIL
           ∧ User.created_at u' = 0)
  ∧ users (serve_all test_settings sample_hash sample_verify (take 2 reqs) verified_db) !! 1
    = Some (test_user true).
Proof.
  intros reqs db.
  assert (users verified_db !! 1 = Some (test_user true)) as Hrow by reflexivity.
  assert (User.is_verified (test_user true) = true) as Hverified by reflexivity.
  assert (1 < users_id_seq verified_db) as Hseq by (vm_compute; reflexivity).
  assert (∀ now, (ReqDeleteUser 1, now) ∉ reqs) as Hkept.
  { intros now Hin. unfold reqs in Hin.
    repeat (apply elem_of_cons in Hin as [Hin|Hin]; [discriminate|]).
    by apply elem_of_nil in Hin. }
  split; [exact Hrow|]. split; [exact Hverified|]. split; [exact Hseq|].
  split; [exact Hkept|]. split.
  - destruct (verified_user_stays_verified test_settings sample_hash sample_verify reqs
                verified_db 1 (test_user true) Hrow Hverified Hseq) as [[[now Hin]|Hthere] _].
    + destruct (Hkept now Hin).
    + exact Hthere.
  - apply (verified_user_stays_verified test_settings sample_hash sample_verify
             (take 2 reqs) verified_db 1 (test_user true) Hrow Hverified Hseq).
    intros req now Hin. unfold reqs in Hin. cbn [take] in Hin.
    repeat (apply elem_of_cons in Hin as [Hin|Hin]; [by simplify_eq|]).
    by apply elem_of_nil in Hin.
Defined.

Lemma signup_refused_while_email_is_registered_witness :
  let uuid4 := "9d0e6a52-7c1f-4b3d-8a64-5e2c9f7b1a30" in
  let again := mkUserCreate "other@example.com" (Some "Eve") None "AnotherPassword1!"
                            ADMIN in
  let s1 := (signup test_settings sample_hash other_signup uuid4 100
                    (open_session verified_db)).2 in
  let db2 := serve_all test_settings sample_hash sample_verify
                       [(JobCleanupExpiredTokens, 200000);
                        (JobDeleteUnverifiedUsers 2 3, 200001)] (committed s1) in
  signup test_settings sample_hash other_signup uuid4 100 (open_session verified_db)
  = (inr "User registered successfully. Please check your email to verify your account.",
     s1)
  ∧ signup test_settings sample_hash again "0b7c2f7e-1a55-4c3e-9d2a-6f8e4b1c7d20" 5000 s1
    = (inl (HTTPException 400 "Email already registered" []), s1)
  ∧ (∃ k u, users (committed s1) !! k = Some u ∧ User.email u = "other@example.com")
  ∧ ¬ (∃ k u, users db2 !! k = Some u ∧ User.email u = "other@example.com")
  ∧ signup test_settings sample_hash again "0b7c2f7e-1a55-4c3e-9d2a-6f8e4b1c7d20" 200002
           (open_session db2)
    ≠ (inl (HTTPException 400 "Email already registered" []), open_session db2)
  ∧ ∃ s', signup test_settings sample_hash again "0b7c2f7e-1a55-4c3e-9d2a-6f8e4b1c7d20"
                 200002 (open_session db2)
          = (inr "User registered successfully. Please check your email to verify your account.",
             s').
Proof.
  intros uuid4 again s1 db2.
  assert (signup test_settings sample_hash other_signup uuid4 100 (open_session verified_db)
          = (inr "User registered successfully. Please check your email to verify your account.",
             s1)) as Hrun by (vm_compute; reflexivity).
  assert (¬ (∃ k u, users db2 !! k = Some u ∧ User.email u = "other@example.com"))
    as Hfree.
  { intros (k & u & Hk & He). revert k u Hk He.
    change (map_Forall (λ _ u, User.email u ≠ "other@example.com") (users db2)).
    by_compute. }
  destruct (signup_refused_while_email_is_registered test_settings sample_hash
              other_signup uuid4 100 (open_session verified_db)) as (_ & _ & Hdone).
  destruct (Hdone s1 (or_introl (ex_intro _ _ Hrun))) as (_ & (u & Hu & He) & Hagain).
  destruct (signup_refused_while_email_is_registered test_settings sample_hash again
              "0b7c2f7e-1a55-4c3e-9d2a-6f8e4b1c7d20" 200002 (open_session db2))
    as (Hiff & _).
  split; [exact Hrun|].
  split; [exact (proj1 (Hagain again "0b7c2f7e-1a55-4c3e-9d2a-6f8e4b1c7d20" 5000 eq_refl))|].
  split; [by exists 2, u|]. split; [exact Hfree|].
  split; [intros Hrefused; exact (Hfree (proj2 Hiff Hrefused))|].
  eexists. vm_compute. reflexivity.
Defined.

Lemma signup_verify_then_login_raises_witness :
  let s := open_session verified_db in
  let uuid4 := "9d0e6a52-7c1f-4b3d-8a64-5e2c9f7b1a30" in
  let credentials := mkLoginInput (uc_email other_signup) (uc_password other_signup) in
  let s1 := (signup test_settings sample_hash other_signup uuid4 100 s).2 in
  signup test_settings sample_hash other_signup uuid4 100 s
  = (inr "User registered successfully. Please check your email to verify your account.",
     s1)
  ∧ (∀ k v, verification_tokens (working s) !! k = Some v →
            VerificationToken.token v ≠ uuid4)
  ∧ sample_verify (uc_password other_signup) (sample_hash (uc_password other_signup))
    = inr true
  ∧ 200 < 100 + minutes 15
  ∧ ∃ s2,
      login test_settings sample_verify credentials 150 s1
      = (inl (HTTPException 400 "Email not verified" []), s1)
      ∧ verify_email uuid4 200 s1 = (inr "Email verified successfully", s2)
      ∧ login test_settings sample_verify credentials 300 s2 = (inl IntegrityError, s2)
      ∧ refresh_tokens (committed s2) = ∅.
Proof.
  intros s uuid4 credentials s1.
  assert (signup test_settings sample_hash other_signup uuid4 100 s
          = (inr "User registered successfully. Please check your email to verify your account.",
             s1)) as Hsignup by (vm_compute; reflexivity).
  assert (∀ k v, verification_tokens (working s) !! k = Some v →
                 VerificationToken.token v ≠ uuid4) as Huuid.
  { change (map_Forall (λ _ v, VerificationToken.token v ≠ uuid4)
                       (verification_tokens (working s))). by_compute. }
  assert (sample_verify (uc_password other_signup) (sample_hash (uc_password other_signup))
          = inr true) as Hpw by (vm_compute; reflexivity).
  assert (200 < 100 + minutes 15) as Ht1 by (vm_compute; reflexivity).
  destruct (signup_verify_then_login_raises test_settings sample_hash sample_verify s
              other_signup uuid4 100 200 _ s1 Hsignup Huuid Hpw Ht1)
    as (s2 & Hunverified & Hverify & Hlogin & _ & Hrows & _).
  split; [exact Hsignup|]. split; [exact Huuid|]. split; [exact Hpw|]. split; [exact Ht1|].
  exists s2.
  split; [exact (Hunverified 150)|]. split; [exact Hverify|].
  split; [exact (Hlogin 300) | exact Hrows].
Defined.

Lemma purge_spares_tokens_in_use_witness :
  let s := open_session logged_in_db in
  let purged := (cleanup_expired_tokens 2000 s).2 in
  2000 ≤ 3000
  ∧ ((∃ tok, (refresh_token test_settings issued_refresh_token 3000 purged).1 = inr tok)
     ↔ ∃ tok, (refresh_token test_settings issued_refresh_token 3000 s).1 = inr tok).
Proof.
  intros s purged.
  assert (2000 ≤ 3000) as Hle by lia.
  split; [exact Hle|].
  apply (purge_spares_tokens_in_use test_settings s 2000 3000 issued_refresh_token
           test_uuid Hle).
Defined.

Lemma purge_stale_users_again_witness :
  let s := open_session tasks_users_db in
  let s' := (delete_unverified_users 2 tasks_now 3 s).2 in
  delete_unverified_users 2 tasks_now 3 s = (inr (Some (mkDeleteResult "success" 1)), s')
  ∧ tasks_now - days 2 ≤ tasks_now - days 2
  ∧ delete_unverified_users 2 tasks_now 1 s'
    = (inr (Some (mkDeleteResult "success" 0)), s').
Proof.
  intros s s'.
  assert (delete_unverified_users 2 tasks_now 3 s
          = (inr (Some (mkDeleteResult "success" 1)), s')) as Hrun
    by (vm_compute; reflexivity).
  assert (tasks_now - days 2 ≤ tasks_now - days 2) as Hcut by lia.
  split; [exact Hrun|]. split; [exact Hcut|].
  apply (purge_stale_users_again s 2 tasks_now 3 (mkDeleteResult "success" 1) s' Hrun
           2 tasks_now 0%nat Hcut).
Defined.

Lemma strong_password_stays_strong_witness :
  validate_password_strength ascii_decimal_digit test_password_characters = true
  ∧ validate_password_strength ascii_decimal_digit
      ([32%N] ++ test_password_characters ++ [92%N; 92%N])%list = true.
Proof.
  assert (validate_password_strength ascii_decimal_digit test_password_characters = true)
    as Hstrong by (vm_compute; reflexivity).
  split; [exact Hstrong|].
  apply (strong_password_stays_strong ascii_decimal_digit test_password_characters
           [32%N] [92%N; 92%N] Hstrong).
Defined.

Lemma lapsed_verification_is_permanent_witness :
  let s := open_session verified_db in
  let uuid4 := "9d0e6a52-7c1f-4b3d-8a64-5e2c9f7b1a30" in
  let s1 := (signup test_settings sample_hash other_signup uuid4 100 s).2 in
  let reqs := [(ReqVerify uuid4, 1000); (SvcVerifyEmail uuid4, 1001);
               (ReqSignup other_signup "0b7c2f7e-1a55-4c3e-9d2a-6f8e4b1c7d20", 2000);
               (JobCleanupExpiredTokens, 3000)] in
  let db := serve_all test_settings sample_hash sample_verify reqs (committed s1) in
  (∀ j v, verification_tokens (working s) !! j = Some v →
          VerificationToken.user_id v ≠ users_id_seq (working s))
  ∧ signup test_settings sample_hash other_signup uuid4 100 s
    = (inr "User registered successfully. Please check your email to verify your account.",
       s1)
  ∧ Forall (λ req : request * Z, 100 + minutes 15 ≤ req.2) reqs
  ∧ ∀ u, users db !! 2 = Some u →
         User.email u = "other@example.com" ∧ User.is_verified u = false.
Proof.
  intros s uuid4 s1 reqs db.
  assert (∀ j v, verification_tokens (working s) !! j = Some v →
                 VerificationToken.user_id v ≠ users_id_seq (working s)) as Hrows.
  { change (map_Forall (λ _ v, VerificationToken.user_id v ≠ users_id_seq (working s))
                       (verification_tokens (working s))).
    apply map_Forall_empty. }
  assert (signup test_settings sample_hash other_signup uuid4 100 s
          = (inr "User registered successfully. Please check your email to verify your account.",
             s1)) as Hrun by (vm_compute; reflexivity).
  assert (Forall (λ req : request * Z, 100 + minutes 15 ≤ req.2) reqs) as Hlater
    by (repeat constructor; vm_compute; discriminate).
  split; [exact Hrows|]. split; [exact Hrun|]. split; [exact Hlater|].
  apply (lapsed_verification_is_permanent test_settings sample_hash sample_verify s
           other_signup uuid4 100 _ s1 reqs Hrows Hrun Hlater).
Defined.

Lemma get_current_user_never_returns_witness :
  issued_access_token = create_access_token test_settings (sub_claim 1) 1000
  ∧ 2000 ≤ 1000 + minutes (ACCESS_TOKEN_EXPIRE_MINUTES test_settings)
  ∧ get_current_user test_settings [] issued_access_token 2000
    = inl (HTTPException 401 "Could not validate credentials"
                         [("WWW-Authenticate", "Bearer")])
  ∧ ∃ payload, verify_token test_settings issued_access_token 2000 = inr payload
               ∧ payload !! "sub" = Some (CStr "1").
Proof.
  assert (issued_access_token = create_access_token test_settings (sub_claim 1) 1000)
    as Hissued by (vm_compute; reflexivity).
  assert (2000 ≤ 1000 + minutes (ACCESS_TOKEN_EXPIRE_MINUTES test_settings)) as Hle
    by (vm_compute; discriminate).
  destruct (get_current_user_never_returns test_settings [] issued_access_token 2000)
    as [_ Hissued_token].
  destruct (Hissued_token 1 1000 Hissued) as ((header & Hrun & Hheader) & Hvalid & _).
  destruct (Hvalid Hle) as (payload & Hpayload & _ & Hsub).
  split; [exact Hissued|]. split; [exact Hle|]. split.
  - rewrite Hrun. by rewrite (Hheader eq_refl).
  - exists payload. split; [exact Hpayload | exact Hsub].
Defined.

Lemma verify_email_all_or_nothing_witness :
  let s := open_session registered_db in
  let s' := (verify_email test_uuid 100 s).2 in
  verify_email test_uuid 100 s = (inr "Email verified successfully", s')
  ∧ committed s' = working s'
  ∧ commits s' = 1%nat.
Proof.
  intros s s'.
  assert (verify_email test_uuid 100 s = (inr "Email verified successfully", s')) as Hrun
    by (vm_compute; reflexivity).
  destruct (verify_email_all_or_nothing test_uuid 100 s) as (Hdone & _).
  destruct (Hdone _ _ Hrun) as (k & v & u & _ & _ & _ & _ & Hcommitted & Hcommits & _).
  split; [exact Hrun|]. split; [exact Hcommitted | exact Hcommits].
Defined.

Lemma signup_stores_requested_role_witness :
  let s := open_session verified_db in
  let user_in := mkUserCreate "admin@example.com" None None "AdminPassword123!" ADMIN in
  let s' := (signup test_settings sample_hash user_in test_uuid 100 s).2 in
  signup test_settings sample_hash user_in test_uuid 100 s
  = (inr "User registered successfully. Please check your email to verify your account.",
     s')
  ∧ ∃ u, users (committed s') !! 2 = Some u ∧ User.role u = ADMIN.
Proof.
  intros s user_in s'.
  assert (signup test_settings sample_hash user_in test_uuid 100 s
          = (inr "User registered successfully. Please check your email to verify your account.",
             s')) as Hrun by (vm_compute; reflexivity).
  destruct (signup_stores_requested_role test_settings sample_hash user_in test_uuid 100 s)
    as (_ & _ & Hrole).
  destruct (Hrole _ _ Hrun) as (u & Hu & Hr & _).
  split; [exact Hrun|]. exists u. split; [exact Hu | exact Hr].
Defined.

Lemma handlers_leave_no_uncommitted_writes_witness :
  let s := open_session crowded_db in
  let job := JobDeleteUnverifiedUsers 2 3 in
  let s' := (handle test_settings sample_hash sample_verify job tasks_now s).2 in
  (handle test_settings sample_hash sample_verify job tasks_now s).1
  = Some (Retry IntegrityError 300)
  ∧ cutoff_in_range 2 tasks_now
  ∧ size (users (committed s)) = 101%nat
  ∧ size (users (committed s')) = 1%nat
  ∧ commits s' = 1%nat
  ∧ committed s' = working s'
  ∧ stale_rows_removed (tasks_now - days 2) (users (committed s)) (users (committed s')).
Proof.
  intros s job s'.
  assert ((handle test_settings sample_hash sample_verify job tasks_now s).1
          = Some (Retry IntegrityError 300)) as Hfail by (vm_compute; reflexivity).
  assert (cutoff_in_range 2 tasks_now) as Hrange by (vm_compute; intuition discriminate).
  destruct (handlers_leave_no_uncommitted_writes test_settings sample_hash sample_verify
              job tasks_now s) as (_ & Hraise & _).
  destruct (Hraise _ Hfail Hrange) as (_ & Hrolled & Hstale).
  split; [exact Hfail|]. split; [exact Hrange|].
  split; [vm_compute; reflexivity|]. split; [vm_compute; reflexivity|].
  split; [vm_compute; reflexivity|]. split; [exact Hrolled | exact (Hstale eq_refl)].
Defined.

Lemma registered_jobs_get_no_queue_witness :
  route_task "app.core.celery_utils.Process_DataTask" = None
  ∧ route_task "cleanup.delete_unverified_users" = None
  ∧ route_task "cleanup.expired_tokens" = None.
Proof.
  destruct registered_jobs_get_no_queue as (_ & Hgenerated & _ & Hnames).
  split; [exact (Hgenerated "Process_Data")|].
  split; [exact (Forall_inv Hnames) | exact (Forall_inv (Forall_inv_tail Hnames))].
Defined.

Lemma retry_on_exception_outcomes_witness :
  retry_on_exception (OtherException "ValueError") (sample_task 1) None None
  = inl (OtherException "ValueError")
  ∧ retry_on_exception (OtherException "ValueError") (sample_task 3) None None = inr tt.
Proof.
  destruct (retry_on_exception_outcomes (OtherException "ValueError") (sample_task 1)
              None None) as (_ & Hleft & _).
  destruct Hleft as (_ & _ & e & Hrun & He); [vm_compute; reflexivity|].
  destruct (retry_on_exception_outcomes (OtherException "ValueError") (sample_task 3)
              None None) as (Hused & _).
  split.
  - rewrite Hrun. f_equal. exact He.
  - apply (Hused ltac:(vm_compute; discriminate)
                 (λ _ _ _, inl (OtherException "Retry"))).
Defined.

Lemma refresh_row_outlives_every_request_witness :
  let row := RefreshToken.mk 1 issued_refresh_token (Some 1000) 605800 false in
  let reqs := [(ReqRefresh issued_refresh_token, 2000); (JobCleanupExpiredTokens, 3000);
               (ReqLogin (mkLoginInput TEST_EMAIL TEST_PASSWORD), 4000);
               (ReqChangeUserRole 1 ADMIN, 5000);
               (JobDeleteUnverifiedUsers 2 3, 600000)] in
  let db := serve_all test_settings sample_hash sample_verify reqs logged_in_db in
  refresh_tokens logged_in_db !! 1 = Some row
  ∧ Forall (λ req : request * Z, req.2 ≤ 600000) reqs
  ∧ 600000 ≤ RefreshToken.expires_at row
  ∧ issued_refresh_token = create_refresh_token test_settings (sub_claim 1) 1000
  ∧ 1000 ≤ 600000 < 1000 + days (REFRESH_TOKEN_EXPIRE_DAYS test_settings)
  ∧ refresh_tokens db !! 1 = Some row
  ∧ ∃ refreshed,
      refresh_token test_settings issued_refresh_token 600000 (open_session db)
      = (inr refreshed, open_session db)
      ∧ refresh_token_ refreshed = issued_refresh_token.
Proof.
  intros row reqs db.
  assert (refresh_tokens logged_in_db !! 1 = Some row) as Hrow by reflexivity.
  assert (Forall (λ req : request * Z, req.2 ≤ 600000) reqs) as Hearlier
    by (repeat constructor; vm_compute; discriminate).
  assert (600000 ≤ RefreshToken.expires_at row) as Hlive by (vm_compute; discriminate).
  assert (issued_refresh_token = create_refresh_token test_settings (sub_claim 1) 1000)
    as Hissued by (vm_compute; reflexivity).
  assert (1000 ≤ 600000 < 1000 + days (REFRESH_TOKEN_EXPIRE_DAYS test_settings)) as Ht3
    by (split; [vm_compute; discriminate | vm_compute; reflexivity]).
  destruct (refresh_row_outlives_every_request test_settings sample_hash sample_verify
              logged_in_db 1 row reqs 600000 Hrow Hearlier Hlive)
    as (Hkept & _ & Haccepted).
  split; [exact Hrow|]. split; [exact Hearlier|]. split; [exact Hlive|].
  split; [exact Hissued|]. split; [exact Ht3|]. split; [exact Hkept|].
  apply (Haccepted 1 1000 Hissued eq_refl); [vm_compute; reflexivity | exact Ht3].
Defined.
